(** * API gateway: circuit breaker, reverse proxy and aggregation endpoints

    A shallow embedding of [api-gateway/server.js] (the gateway of the
    shopping-list microservices) and the properties its specification
    states about it.

    Conventions of the embedding:
    - the process-wide object [circuitBreaker] is a finite map from service
      names to per-service records; functions that mutate it take the map and
      return the new one;
    - [Date.now()] is an explicit argument (milliseconds, an integer);
      counters and clock values are integers far inside the range in which
      JavaScript numbers are exact, and are modelled in [Z];
    - what the network answers is an explicit argument too: handlers are
      functions of the outcome of each [axios] call they make;
    - the handlers run in a small state monad that threads the breaker and a
      log of the calls made ([recordSuccess], [recordFailure], outbound
      requests), so that "is called" and "no network attempt" can be stated;
    - console output is left out, as are the [/registry] and [/api/search]
      handlers, the JWT middleware and the periodic health-check timer. *)

From Stdlib Require Import ZArith Lia Bool List Ascii String.
From stdpp Require Import base option gmap strings list fin_maps pretty.
Import ListNotations.

Local Open Scope string_scope.
Local Open Scope Z_scope.

(** ** Circuit breaker state *)

Module Breaker.

(** One entry of [circuitBreaker]: [{ failures, open, lastFail }].
    [lastFail] is [null] until the breaker opens for the first time. *)
Record CircuitState : Type := mkState {
  failures : Z;
  open : bool;
  lastFail : option Z
}.

Definition closedState : CircuitState :=
  {| failures := 0; open := false; lastFail := None |}.

(** [const circuitBreaker = { 'user-service': ..., 'item-service': ...,
    'list-service': ... }]: the own entries of the object. Every caller
    passes one of these three literal names. The map describes the lookup
    [circuitBreaker[serviceName]] for every name that is not inherited from
    [Object.prototype] (see [JsObject.inherited]); for an inherited name the
    code finds the inherited object, which the map does not hold. *)
Definition circuitBreaker : gmap string CircuitState :=
  <["user-service" := closedState]>
    (<["item-service" := closedState]>
      (<["list-service" := closedState]> ∅)).

Definition MAX_FAILURES : Z := 3.
Definition CIRCUIT_TIMEOUT : Z := 60000.

(** [Date.now() - state.lastFail]: the subtraction coerces [null] to [0]. *)
Definition lastFailNumber (st : CircuitState) : Z :=
  match lastFail st with
  | Some t => t
  | None => 0
  end.

Definition elapsed (now : Z) (st : CircuitState) : Z := now - lastFailNumber st.

Definition resetState (st : CircuitState) : CircuitState :=
  {| failures := 0; open := false; lastFail := lastFail st |}.

(** [canRequest(serviceName)] at clock time [now]: the answer and the breaker
    after the call. *)
Definition canRequest (cb : gmap string CircuitState) (serviceName : string) (now : Z)
  : bool * gmap string CircuitState :=
  match cb !! serviceName with
  | None => (true, cb)
  | Some state =>
      if negb (open state) then (true, cb)
      else if CIRCUIT_TIMEOUT <? elapsed now state then
        (true, <[serviceName := resetState state]> cb)
      else (false, cb)
  end.

Definition failedState (now : Z) (st : CircuitState) : CircuitState :=
  let n := failures st + 1 in
  if MAX_FAILURES <=? n
  then {| failures := n; open := true; lastFail := Some now |}
  else {| failures := n; open := open st; lastFail := lastFail st |}.

(** [recordFailure(serviceName)] at clock time [now]. *)
Definition recordFailure (cb : gmap string CircuitState) (serviceName : string) (now : Z)
  : gmap string CircuitState :=
  match cb !! serviceName with
  | None => cb
  | Some state => <[serviceName := failedState now state]> cb
  end.

(** [recordSuccess(serviceName)]. *)
Definition recordSuccess (cb : gmap string CircuitState) (serviceName : string)
  : gmap string CircuitState :=
  match cb !! serviceName with
  | None => cb
  | Some state => <[serviceName := resetState state]> cb
  end.

(** The three operations as the steps of a transition system over the
    breaker map. *)
Inductive Op : Type :=
| OpAdmit (serviceName : string) (now : Z)
| OpFailure (serviceName : string) (now : Z)
| OpSuccess (serviceName : string).

Definition step (cb : gmap string CircuitState) (op : Op) : gmap string CircuitState :=
  match op with
  | OpAdmit n now => snd (canRequest cb n now)
  | OpFailure n now => recordFailure cb n now
  | OpSuccess n => recordSuccess cb n
  end.

Inductive reachable : gmap string CircuitState -> Prop :=
| reachable_init : reachable circuitBreaker
| reachable_step cb op : reachable cb -> reachable (step cb op).

Definition run (ops : list Op) (cb : gmap string CircuitState) : gmap string CircuitState :=
  fold_left step ops cb.

(** The per-service invariant of the specification's data model. *)
Definition state_ok (st : CircuitState) : Prop :=
  open st = true -> MAX_FAILURES <= failures st /\ lastFail st <> None.

End Breaker.

(** ** JavaScript string operations used by the gateway *)

Module JsString.

(** [s.slice(n)] for [0 <= n]: the string without its first [n] characters. *)
Fixpoint slice (n : nat) (s : string) : string :=
  match n, s with
  | O, _ => s
  | S n', String _ s' => slice n' s'
  | S _, EmptyString => EmptyString
  end.

(** [s.startsWith(p)]. *)
Definition startsWith (s p : string) : bool := String.prefix p s.

(** [s.endsWith("/")]. *)
Fixpoint endsWithSlash (s : string) : bool :=
  match s with
  | EmptyString => false
  | String c EmptyString => Ascii.eqb c "/"
  | String _ s' => endsWithSlash s'
  end.

(** [s.slice(0, -1)]: the string without its last character. *)
Fixpoint dropLast (s : string) : string :=
  match s with
  | EmptyString => EmptyString
  | String _ EmptyString => EmptyString
  | String c s' => String c (dropLast s')
  end.

(** [s.replace(pat, rep)] with a string pattern: only the first occurrence
    of [pat] is replaced. *)
Fixpoint replace (pat rep s : string) : string :=
  if String.prefix pat s then rep ++ slice (String.length pat) s
  else match s with
       | EmptyString => EmptyString
       | String c s' => String c (replace pat rep s')
       end.

(** [c.toUpperCase()] on an ASCII letter. *)
Definition upperAscii (c : ascii) : ascii :=
  let n := nat_of_ascii c in
  if (Nat.leb 97 n && Nat.leb n 122)%bool then ascii_of_nat (n - 32) else c.

Fixpoint toUpperCase (s : string) : string :=
  match s with
  | EmptyString => EmptyString
  | String c s' => String (upperAscii c) (toUpperCase s')
  end.

(** Truthiness of a string value: only [''] is falsy. *)
Definition truthy (s : string) : bool :=
  match s with
  | EmptyString => false
  | String _ _ => true
  end.

End JsString.

(** ** Path rewrite *)

Module Rewrite.

(** [getTargetPath(req, pathPrefix)], as a function of [req.originalUrl]. *)
Definition getTargetPath (originalUrl pathPrefix : string) : string :=
  if JsString.startsWith originalUrl pathPrefix then
    let newPath := JsString.slice (String.length pathPrefix) originalUrl in
    if (String.eqb newPath "" || String.eqb newPath "/")%bool then
      JsString.replace "/api" "" pathPrefix
    else
      let newPath :=
        if negb (JsString.startsWith newPath "/") then "/" ++ newPath else newPath in
      JsString.replace "/api" "" pathPrefix ++ newPath
  else originalUrl.

(** The four [app.all] routes of the reverse proxy: each binds a service
    name and a path prefix. *)
Inductive Route : Type := AuthRoute | UsersRoute | ItemsRoute | ListsRoute.

Definition routePrefix (r : Route) : string :=
  match r with
  | AuthRoute => "/api/auth"
  | UsersRoute => "/api/users"
  | ItemsRoute => "/api/items"
  | ListsRoute => "/api/lists"
  end.

Definition routeService (r : Route) : string :=
  match r with
  | AuthRoute => "user-service"
  | UsersRoute => "user-service"
  | ItemsRoute => "item-service"
  | ListsRoute => "list-service"
  end.

(** The backend's own root path for a route: the prefix without its outer
    [/api] segment. This follows the specification's words; it is what
    [getTargetPath] is compared with. *)
Definition backendRoot (r : Route) : string :=
  match r with
  | AuthRoute => "/auth"
  | UsersRoute => "/users"
  | ItemsRoute => "/items"
  | ListsRoute => "/lists"
  end.

(** A string begins with exactly one ['/']. *)
Definition oneLeadingSlash (s : string) : bool :=
  match s with
  | String "/" EmptyString => true
  | String "/" (String c _) => negb (Ascii.eqb c "/")
  | _ => false
  end.

End Rewrite.

(** ** Service registry and the HTTP client *)

Module Net.

(** A record of the shared service registry, as the services register it
    ([{ url, version, endpoints }]) with the registry's health flag. *)
Record ServiceRecord : Type := mkService {
  url : string;
  version : string;
  endpoints : list string;
  healthy : bool
}.

(** Modelled from the spec: [serviceRegistry.discover] of
    [shared/serviceRegistry.js], which is not among the sources. The registry
    maps a service name to its record and [discover] fails ([NotFound], here
    [None]) when no record exists for the name; it does not filter by
    health. *)
Definition discover (registry : gmap string ServiceRecord) (serviceName : string)
  : option ServiceRecord :=
  registry !! serviceName.

(** [getServiceUrl(serviceName)]: the record's [url], or [null] when
    [discover] throws. *)
Definition getServiceUrl (registry : gmap string ServiceRecord) (serviceName : string)
  : option string :=
  match discover registry serviceName with
  | Some service => Some (url service)
  | None => None
  end.

(** [!baseUrl]: [null] and the empty string are falsy. *)
Definition noUrl (baseUrl : option string) : bool :=
  match baseUrl with
  | None => true
  | Some u => negb (JsString.truthy u)
  end.

(** What the network does with one outbound request: the backend answers
    with a status and a payload, or no response arrives (connection refused,
    reset, timeout). *)
Inductive Outcome (A : Type) : Type :=
| Answered (status : Z) (data : A)
| NoResponse (message : string).
Arguments Answered {A} status data.
Arguments NoResponse {A} message.

(** The error an [axios] promise rejects with: [error.message] and, when a
    response was received, [error.response]. *)
Record AxiosError (A : Type) : Type := mkError {
  errMessage : string;
  errResponse : option (Z * A)
}.
Arguments mkError {A} errMessage errResponse.
Arguments errMessage {A} _.
Arguments errResponse {A} _.

Inductive AxiosResult (A : Type) : Type :=
| Fulfilled (status : Z) (data : A)
| Rejected (error : AxiosError A).
Arguments Fulfilled {A} status data.
Arguments Rejected {A} error.

(** The client's default [validateStatus]: the promise is fulfilled for a
    2xx status only. The gateway passes no [validateStatus] of its own. *)
Definition validateStatus (status : Z) : bool :=
  ((200 <=? status) && (status <? 300))%bool.

(** [await axios(config)] as a function of what the network did. *)
Definition axios {A : Type} (o : Outcome A) : AxiosResult A :=
  match o with
  | Answered status data =>
      if validateStatus status then Fulfilled status data
      else Rejected (mkError ("Request failed with status code " ++ pretty status)
                             (Some (status, data)))
  | NoResponse message => Rejected (mkError message None)
  end.

End Net.

(** ** The gateway's handlers *)

Module Gateway.

Import Breaker Net.

(** Calls a handler makes that the properties speak about. *)
Inductive Event : Type :=
| CallRecordSuccess (serviceName : string)
| CallRecordFailure (serviceName : string)
| NetworkCall (method url : string).

(** The mutable state of the gateway process seen by a handler: the
    breaker map, and the log of calls made so far (oldest first). *)
Record GwState : Type := mkGw {
  breaker : gmap string CircuitState;
  calls : list Event
}.

(** State monad over [GwState]. *)
Definition M (A : Type) : Type := GwState -> A * GwState.

Definition ret {A : Type} (a : A) : M A := fun s => (a, s).

Definition bind {A B : Type} (m : M A) (k : A -> M B) : M B :=
  fun s => let (a, s') := m s in k a s'.

Definition emit (e : Event) : M unit :=
  fun s => (tt, {| breaker := breaker s; calls := calls s ++ [e] |}).

Definition canRequestM (serviceName : string) (now : Z) : M bool :=
  fun s =>
    let (ok, cb) := canRequest (breaker s) serviceName now in
    (ok, {| breaker := cb; calls := calls s |}).

Definition recordFailureM (serviceName : string) (now : Z) : M unit :=
  fun s =>
    (tt, {| breaker := recordFailure (breaker s) serviceName now;
            calls := calls s ++ [CallRecordFailure serviceName] |}).

Definition recordSuccessM (serviceName : string) : M unit :=
  fun s =>
    (tt, {| breaker := recordSuccess (breaker s) serviceName;
            calls := calls s ++ [CallRecordSuccess serviceName] |}).

Notation "'do' x <- m ; k" := (bind m (fun x => k))
  (at level 10, x name, m at level 100, k at level 200, only parsing).

(** The result of running a handler from a given state. *)
Definition response {A : Type} (m : M A) (s : GwState) : A := fst (m s).
Definition finalState {A : Type} (m : M A) (s : GwState) : GwState := snd (m s).
(** The calls a handler made, without those already in the log. *)
Definition callsMade {A : Type} (m : M A) (s : GwState) : list Event :=
  drop (length (calls s)) (calls (finalState m s)).

Definition isNetworkCall (e : Event) : bool :=
  match e with
  | NetworkCall _ _ => true
  | _ => false
  end.

Definition isRecordCall (e : Event) : bool :=
  match e with
  | CallRecordSuccess _ | CallRecordFailure _ => true
  | NetworkCall _ _ => false
  end.

(** *** Reverse proxy *)

Section Proxy.

(** JSON payloads relayed by the proxy are opaque. *)
Context {Json : Type}.

Record Request : Type := mkRequest {
  method : string;
  originalUrl : string;
  headers : list (string * string);
  body : Json
}.

Record AxiosConfig : Type := mkConfig {
  cfgMethod : string;
  cfgUrl : string;
  cfgHeaders : list (string * string);
  cfgData : option Json
}.

(** A response body sent by the proxy: an upstream payload passed through,
    or the gateway's own [{ success, message }]. *)
Inductive ProxyBody : Type :=
| Relayed (data : Json)
| GatewayMessage (success : bool) (message : string).

Record Response : Type := mkResponse {
  status : Z;
  resBody : ProxyBody
}.

(** [const { host, 'content-length': _cl, ...forwardHeaders } = req.headers]. *)
Definition forwardHeaders (hs : list (string * string)) : list (string * string) :=
  List.filter
    (fun kv => negb (String.eqb (fst kv) "host" || String.eqb (fst kv) "content-length"))
    hs.

(** [['POST', 'PUT', 'PATCH'].includes(req.method.toUpperCase())]. *)
Definition hasBody (m : string) : bool :=
  existsb (String.eqb (JsString.toUpperCase m)) ["POST"; "PUT"; "PATCH"].

Definition breakerOpenResponse : Response :=
  {| status := 503;
     resBody := GatewayMessage false
       "Serviço temporariamente indisponível (circuit breaker)" |}.

Definition notFoundResponse (serviceName : string) : Response :=
  {| status := 503;
     resBody := GatewayMessage false ("Serviço não encontrado: " ++ serviceName) |}.

Definition forwardingFailure : Response :=
  {| status := 500;
     resBody := GatewayMessage false "Erro ao encaminhar requisição" |}.

(** [proxyRequest] up to its [await]: either the response is already
    decided, or a request is about to be sent. [now] is the clock when
    [canRequest] runs. *)
Definition proxyDispatch (registry : gmap string ServiceRecord)
    (serviceName : string) (req : Request) (pathPrefix : string) (now : Z)
  : M (Response + AxiosConfig) :=
  do ok <- canRequestM serviceName now;
  if negb ok then ret (inl breakerOpenResponse)
  else
    let baseUrl := getServiceUrl registry serviceName in
    if noUrl baseUrl then ret (inl (notFoundResponse serviceName))
    else
      let baseUrl := default "" baseUrl in
      let targetPath := Rewrite.getTargetPath (originalUrl req) pathPrefix in
      let cleanBaseUrl :=
        if JsString.endsWithSlash baseUrl then JsString.dropLast baseUrl else baseUrl in
      let cleanTargetPath :=
        if JsString.startsWith targetPath "/" then targetPath else "/" ++ targetPath in
      let targetUrl := cleanBaseUrl ++ cleanTargetPath in
      ret (inr {| cfgMethod := method req;
                  cfgUrl := targetUrl;
                  cfgHeaders := forwardHeaders (headers req);
                  cfgData := if hasBody (method req) then Some (body req) else None |}).

(** [proxyRequest] from the point where the [axios] promise settles: the
    [try] continues on fulfilment, the [catch] runs on rejection. [now] is
    the clock when [recordFailure] runs. *)
Definition proxySettle (serviceName : string) (now : Z) (r : AxiosResult Json)
  : M Response :=
  match r with
  | Fulfilled st data =>
      do _ <- recordSuccessM serviceName;
      ret {| status := st; resBody := Relayed data |}
  | Rejected error =>
      do _ <- recordFailureM serviceName now;
      match errResponse error with
      | Some (st, data) => ret {| status := st; resBody := Relayed data |}
      | None => ret forwardingFailure
      end
  end.

(** [proxyRequest(serviceName, req, res, pathPrefix)], run without another
    handler in between; [net] is what the network does with the request
    sent, [t0] and [t1] the clock before and after the round trip. *)
Definition proxyRequest (registry : gmap string ServiceRecord)
    (net : AxiosConfig -> Outcome Json)
    (serviceName : string) (req : Request) (pathPrefix : string) (t0 t1 : Z)
  : M Response :=
  do d <- proxyDispatch registry serviceName req pathPrefix t0;
  match d with
  | inl res => ret res
  | inr config =>
      do _ <- emit (NetworkCall (cfgMethod config) (cfgUrl config));
      proxySettle serviceName t1 (axios (net config))
  end.

(** *** Health aggregation *)

Inductive HealthEntry : Type :=
| Reported (data : Json)
| Unhealthy (error : string).

Record HealthResponse : Type := mkHealth {
  healthStatus : Z;
  healthBody : gmap string HealthEntry
}.

Definition services : list string := ["user-service"; "item-service"; "list-service"].

(** The body of the [for] loop of [GET /health] for one name: the entry
    stored in [results[name]]. [net] maps the URL probed to what the network
    does. *)
Definition probe (registry : gmap string ServiceRecord) (net : string -> Outcome Json)
    (name : string) : M HealthEntry :=
  let url := getServiceUrl registry name in
  if noUrl url then ret (Unhealthy "Não encontrado")
  else
    let target := default "" url ++ "/health" in
    do _ <- emit (NetworkCall "GET" target);
    match axios (net target) with
    | Fulfilled _ data => ret (Reported data)
    | Rejected e => ret (Unhealthy (errMessage e))
    end.

Fixpoint healthLoop (registry : gmap string ServiceRecord) (net : string -> Outcome Json)
    (names : list string) (results : gmap string HealthEntry)
  : M (gmap string HealthEntry) :=
  match names with
  | [] => ret results
  | name :: rest =>
      do entry <- probe registry net name;
      healthLoop registry net rest (<[name := entry]> results)
  end.

(** [app.get('/health', ...)]; [res.json] sends status 200. *)
Definition healthHandler (registry : gmap string ServiceRecord)
    (net : string -> Outcome Json) : M HealthResponse :=
  do results <- healthLoop registry net services ∅;
  ret {| healthStatus := 200; healthBody := results |}.

End Proxy.

Arguments Request : clear implicits.
Arguments AxiosConfig : clear implicits.
Arguments ProxyBody : clear implicits.
Arguments Response : clear implicits.
Arguments HealthEntry : clear implicits.
Arguments HealthResponse : clear implicits.

(** *** Dashboard aggregation *)

(** [array.reduce(f, init)]. *)
Definition reduce {A B : Type} (f : B -> A -> B) (init : B) (l : list A) : B :=
  fold_left f l init.

Section Dashboard.

(** Estimated totals are JavaScript numbers (prices); the handler only adds
    them up and tests them for truthiness, so the number type is left
    abstract with these two operations and its zero. Catalog items are only
    counted. *)
Context {num : Type} (num_zero : num) (num_add : num -> num -> num)
        (num_truthy : num -> bool).
Context {Item : Type}.

(** The fields of a user profile the handler reads. *)
Record User : Type := mkUser {
  id : string;
  email : string;
  username : string;
  firstName : string;
  lastName : string;
  role : string
}.

Record ListItem : Type := mkListItem {
  itemId : string;
  purchased : bool
}.

Record ListSummary : Type := mkSummary {
  estimatedTotal : option num
}.

(** A shopping list as the list service returns it; [items] and [summary]
    may be missing ([l.items?.], [l.summary?.]). *)
Record ShoppingList : Type := mkList {
  listId : string;
  items : option (list ListItem);
  summary : option ListSummary
}.

(** The services' JSON envelope [{ success, data }]; [data] may be absent. *)
Record Envelope (A : Type) : Type := mkEnvelope {
  envSuccess : bool;
  envData : option A
}.
Arguments mkEnvelope {A} envSuccess envData.
Arguments envSuccess {A} _.
Arguments envData {A} _.

Record Stats : Type := mkStats {
  totalLists : nat;
  totalItemsInLists : nat;
  totalPurchased : nat;
  totalEstimated : num;
  totalCatalogItems : nat
}.

Inductive DashboardBody : Type :=
| DashboardMessage (success : bool) (message : string)
| DashboardData (user : User) (stats : Stats) (lists : list ShoppingList).

Record DashboardResponse : Type := mkDashboard {
  dashStatus : Z;
  dashBody : DashboardBody
}.

(** [x || 0] on a count that may be [undefined]. *)
Definition orZero (x : option nat) : nat :=
  match x with
  | Some n => n
  | None => 0%nat
  end.

(** [x || 0] on a number that may be [undefined]: falsy numbers give [0]. *)
Definition numOrZero (x : option num) : num :=
  match x with
  | Some v => if num_truthy v then v else num_zero
  | None => num_zero
  end.

(** The statistics block of the handler. *)
Definition computeStats (lists : list ShoppingList) (catalog : list Item) : Stats :=
  {| totalLists := length lists;
     totalItemsInLists :=
       reduce (fun sum l => (sum + orZero (length <$> items l))%nat) 0%nat lists;
     totalPurchased :=
       reduce (fun sum l =>
                 (sum + orZero ((fun its => length (List.filter purchased its)) <$> items l))%nat)
              0%nat lists;
     totalEstimated :=
       reduce (fun sum l => num_add sum (numOrZero (summary l ≫= estimatedTotal)))
              num_zero lists;
     totalCatalogItems := length catalog |}.

Definition servicesUnavailable : DashboardResponse :=
  {| dashStatus := 503; dashBody := DashboardMessage false "Serviços indisponíveis" |}.

Definition dashboardFailure : DashboardResponse :=
  {| dashStatus := 500;
     dashBody := DashboardMessage false "Erro ao agregar dados do dashboard" |}.

(** What the network does with each of the three requests, by URL. *)
Record DashboardNet : Type := mkDashNet {
  netUser : string -> Outcome (Envelope User);
  netLists : string -> Outcome (Envelope (list ShoppingList));
  netItems : string -> Outcome (Envelope (list Item))
}.

(** [app.get('/api/dashboard', jwtAuthMiddleware, ...)] once the middleware
    has accepted the token; [userId] is [req.user.id]. A rejected promise and
    the [TypeError] of reading a field of an absent profile both end in the
    [catch]. *)
Definition dashboardHandler (registry : gmap string ServiceRecord) (net : DashboardNet)
    (userId : string) : M DashboardResponse :=
  let userUrl := getServiceUrl registry "user-service" in
  let listUrl := getServiceUrl registry "list-service" in
  let itemUrl := getServiceUrl registry "item-service" in
  if (noUrl userUrl || noUrl listUrl || noUrl itemUrl)%bool then ret servicesUnavailable
  else
    let userTarget := default "" userUrl ++ "/users/" ++ userId in
    let listTarget := default "" listUrl ++ "/lists" in
    let itemTarget := default "" itemUrl ++ "/items" in
    do _ <- emit (NetworkCall "GET" userTarget);
    match axios (netUser net userTarget) with
    | Rejected _ => ret dashboardFailure
    | Fulfilled _ userEnv =>
        let user := envData userEnv in
        do _ <- emit (NetworkCall "GET" listTarget);
        match axios (netLists net listTarget) with
        | Rejected _ => ret dashboardFailure
        | Fulfilled _ listsEnv =>
            let lists := default [] (envData listsEnv) in
            do _ <- emit (NetworkCall "GET" itemTarget);
            match axios (netItems net itemTarget) with
            | Rejected _ => ret dashboardFailure
            | Fulfilled _ itemsEnv =>
                let catalog := default [] (envData itemsEnv) in
                let stats := computeStats lists catalog in
                match user with
                | None => ret dashboardFailure
                | Some u =>
                    ret {| dashStatus := 200;
                           dashBody := DashboardData u stats lists |}
                end
            end
        end
    end.

(** The sums of the specification, written as sums over the lists. *)
Definition itemCount (l : ShoppingList) : nat :=
  match items l with
  | Some its => length its
  | None => 0%nat
  end.

Definition purchasedCount (l : ShoppingList) : nat :=
  match items l with
  | Some its => length (List.filter purchased its)
  | None => 0%nat
  end.

Definition listEstimated (l : ShoppingList) : num :=
  match summary l with
  | Some s => numOrZero (estimatedTotal s)
  | None => num_zero
  end.

(** Left-to-right sum of numbers starting from zero. *)
Definition numSum (xs : list num) : num := fold_left num_add xs num_zero.

End Dashboard.

Arguments mkEnvelope {A} envSuccess envData.
Arguments envSuccess {A} _.
Arguments envData {A} _.


End Gateway.

(** ** Sample inputs

    Concrete registries, requests and states used to evaluate the handlers. *)

Module Sample.

Import Breaker Net Gateway.

(** An entry whose breaker opened at time [t]. *)
Definition openedAt (t : Z) : CircuitState :=
  {| failures := 3; open := true; lastFail := Some t |}.

Definition serviceAt (u : string) : ServiceRecord :=
  {| url := u; version := "1.0.0"; endpoints := ["/health"]; healthy := true |}.

(** The three services of the repository, at their default ports. *)
Definition registry : gmap string ServiceRecord :=
  <["user-service" := serviceAt "http://localhost:3001"]>
    (<["item-service" := serviceAt "http://localhost:3002"]>
      (<["list-service" := serviceAt "http://localhost:3003"]> ∅)).

(** A registry in which only a fourth service is registered. *)
Definition otherRegistry : gmap string ServiceRecord :=
  <["payment-service" := serviceAt "http://localhost:3004"]> ∅.

(** The gateway right after start-up. *)
Definition startState : GwState :=
  {| breaker := circuitBreaker; calls := [] |}.

(** [GET /api/items/42?x=1]; payloads are JSON texts. *)
Definition getItem : Request string :=
  {| method := "GET";
     originalUrl := "/api/items/42?x=1";
     headers := [("host", "localhost:3000"); ("authorization", "Bearer t")];
     body := "" |}.

(** A dashboard scenario: amounts in cents, two lists with three items in
    all, two of them purchased, and a catalog of two items. *)
Definition user : User :=
  {| id := "u1"; email := "cliente@demo.com"; username := "cliente";
     firstName := "Demo"; lastName := "Cliente"; role := "user" |}.

Definition lists : list (@ShoppingList Z) :=
  [ {| listId := "l1";
       items := Some [ {| itemId := "i1"; purchased := true |};
                       {| itemId := "i2"; purchased := false |} ];
       summary := Some {| estimatedTotal := Some 1250 |} |};
    {| listId := "l2";
       items := Some [ {| itemId := "i1"; purchased := true |} ];
       summary := Some {| estimatedTotal := Some 499 |} |} ].

Definition dashboardNet : @DashboardNet Z string :=
  {| netUser := fun _ => Answered 200 {| envSuccess := true; envData := Some user |};
     netLists := fun _ => Answered 200 {| envSuccess := true; envData := Some lists |};
     netItems := fun _ =>
       Answered 200 {| envSuccess := true; envData := Some ["arroz"; "feijao"] |} |}.

(** The same scenario with the list service unreachable. *)
Definition dashboardNetListsDown : @DashboardNet Z string :=
  {| netUser := netUser dashboardNet;
     netLists := fun _ => NoResponse "connect ECONNREFUSED";
     netItems := netItems dashboardNet |}.

(** Truthiness of an integer amount: only zero is falsy. *)
Definition nonZero (x : Z) : bool := negb (x =? 0).

End Sample.

(** ** Shape of the reachable breaker states *)

Module BreakerShape.

Import Breaker.

(** The shape of an entry in a reachable state: a count that is not
    negative, and open exactly from the threshold on. *)
Definition state_tight (st : CircuitState) : Prop :=
  0 <= failures st /\ (open st = true <-> MAX_FAILURES <= failures st).

(** The names [circuitBreaker] is created with. *)
Definition trackedNames : list string :=
  ["user-service"; "item-service"; "list-service"].

End BreakerShape.

(** ** Bearer-token middleware and the global search endpoint *)

Module Search.

Import Breaker Net Gateway.

(** *** [jwtAuthMiddleware] *)

Section Middleware.

(** The decoded token payload is opaque. [verify token] stands for
    [jwt.verify(token, secret)]: the decoded payload, or [None] when it
    throws. *)
Context {Claims : Type}.
Variable verify : string -> option Claims.

(** What the middleware does: it answers itself, or sets [req.user] and
    calls [next()]. *)
Inductive AuthResult : Type :=
| Denied (status : Z) (message : string)
| Next (user : Claims).

(** [jwtAuthMiddleware(req, res, next)], as a function of
    [req.header('Authorization')] ([None] when the header is absent). *)
Definition jwtAuthMiddleware (authHeader : option string) : AuthResult :=
  match authHeader with
  | None => Denied 401 "Token obrigatório"
  | Some h =>
      if negb (JsString.startsWith h "Bearer ") then Denied 401 "Token obrigatório"
      else
        let token := JsString.replace "Bearer " "" h in
        match verify token with
        | Some decoded => Next decoded
        | None => Denied 401 "Token inválido"
        end
  end.

End Middleware.

Arguments AuthResult : clear implicits.
Arguments Denied {Claims} status message.

(** *** [encodeURIComponent] and [includes] *)

(** [s.includes(sub)]. *)
Fixpoint includes (s sub : string) : bool :=
  if String.prefix sub s then true
  else match s with
       | EmptyString => false
       | String _ s' => includes s' sub
       end.

(** The characters [encodeURIComponent] leaves as they are: ASCII letters
    and digits and [- _ . ! ~ * ' ( )]. *)
Definition unreserved (c : ascii) : bool :=
  let n := nat_of_ascii c in
  ((Nat.leb 65 n && Nat.leb n 90) || (Nat.leb 97 n && Nat.leb n 122)
   || (Nat.leb 48 n && Nat.leb n 57)
   || existsb (Ascii.eqb c) ["-"; "_"; "."; "!"; "~"; "*"; "'"; "("; ")"]%char)%bool.

Definition hexDigit (n : nat) : ascii :=
  if Nat.ltb n 10 then ascii_of_nat (48 + n) else ascii_of_nat (55 + n).

(** One byte of the UTF-8 form of the string: kept, or written [%XX]. *)
Definition encodeByte (c : ascii) : string :=
  if unreserved c then String c EmptyString
  else
    let n := nat_of_ascii c in
    String "%" (String (hexDigit (n / 16)) (String (hexDigit (n mod 16)) EmptyString)).

(** [encodeURIComponent(s)] on a well-formed string, held as its UTF-8
    bytes: every byte that is not an unreserved ASCII character is
    percent-encoded. *)
Fixpoint encodeURIComponent (s : string) : string :=
  match s with
  | EmptyString => EmptyString
  | String c s' => encodeByte c ++ encodeURIComponent s'
  end.

(** *** [GET /api/search] *)

Section SearchHandler.

(** [toLowerCase] follows the Unicode case mapping; it is left abstract.
    The other fields of a list and the catalog items are relayed as they
    are. *)
Variable toLowerCase : string -> string.
Context {Rest Item : Type}.

(** The fields of a list the search reads. *)
Record ListDoc : Type := mkListDoc {
  docName : option string;
  docDescription : option string;
  docRest : Rest
}.

Inductive SearchBody : Type :=
| SearchMessage (success : bool) (message : string)
| SearchData (lists : list ListDoc) (items : list Item).

Record SearchResponse : Type := mkSearch {
  searchStatus : Z;
  searchBody : SearchBody
}.

Record SearchNet : Type := mkSearchNet {
  searchLists : string -> Outcome (Envelope (list ListDoc));
  searchItems : string -> Outcome (Envelope (list Item))
}.

(** [field && field.toLowerCase().includes(q.toLowerCase())]. *)
Definition fieldMatches (field : option string) (q : string) : bool :=
  match field with
  | Some f => JsString.truthy f && includes (toLowerCase f) (toLowerCase q)
  | None => false
  end.

(** The callback of [lists.filter]. *)
Definition listMatches (q : string) (l : ListDoc) : bool :=
  fieldMatches (docName l) q || fieldMatches (docDescription l) q.

Definition queryRequired : SearchResponse :=
  {| searchStatus := 400;
     searchBody := SearchMessage false "Query obrigatória (?q=termo)" |}.

Definition searchUnavailable : SearchResponse :=
  {| searchStatus := 503; searchBody := SearchMessage false "Serviços indisponíveis" |}.

Definition searchFailure : SearchResponse :=
  {| searchStatus := 500;
     searchBody := SearchMessage false "Erro ao buscar dados globais" |}.

(** [app.get('/api/search', jwtAuthMiddleware, ...)] once the middleware
    has accepted the token; [q] is [req.query.q] ([None] when absent). This
    is the handler on a query that is a string and on lists whose name and
    description are strings or absent, where the filter cannot throw;
    [SearchJs.searchHandler] below takes the values JavaScript allows
    there. *)
Definition searchHandler (registry : gmap string ServiceRecord) (net : SearchNet)
    (q : option string) : M SearchResponse :=
  match q with
  | None => ret queryRequired
  | Some q =>
      if negb (JsString.truthy q) then ret queryRequired
      else
        let listUrl := getServiceUrl registry "list-service" in
        let itemUrl := getServiceUrl registry "item-service" in
        if (noUrl listUrl || noUrl itemUrl)%bool then ret searchUnavailable
        else
          let listTarget := default "" listUrl ++ "/lists" in
          let itemTarget := default "" itemUrl ++ "/search?q=" ++ encodeURIComponent q in
          do _ <- emit (NetworkCall "GET" listTarget);
          match axios (searchLists net listTarget) with
          | Rejected _ => ret searchFailure
          | Fulfilled _ listsEnv =>
              let lists := default [] (envData listsEnv) in
              let filteredLists := List.filter (listMatches q) lists in
              do _ <- emit (NetworkCall "GET" itemTarget);
              match axios (searchItems net itemTarget) with
              | Rejected _ => ret searchFailure
              | Fulfilled _ itemsEnv =>
                  let items := default [] (envData itemsEnv) in
                  ret {| searchStatus := 200;
                         searchBody := SearchData filteredLists items |}
              end
          end
  end.

End SearchHandler.

End Search.

(** ** Sample inputs for the search *)

Module SearchSample.

Import Net Gateway.

(** ASCII lower case, to evaluate the search on ASCII terms. *)
Definition lowerAscii (s : string) : string :=
  string_of_list_ascii
    (List.map (fun c => let n := nat_of_ascii c in
                        if (Nat.leb 65 n && Nat.leb n 90)%bool then ascii_of_nat (n + 32) else c)
              (list_ascii_of_string s)).

End SearchSample.

(** ** List service: list items and their summary *)

Module ListService.

(** Quantities and prices are JavaScript numbers: the type is left abstract
    with the operations the service uses. Timestamps and identifiers are
    strings. *)
Section Lists.

Context {num : Type} (num_zero : num) (num_add num_mul : num -> num -> num)
        (num_truthy : num -> bool).

Record ListItem : Type := mkItem {
  itemId : string;
  itemName : string;
  quantity : num;
  unit : string;
  estimatedPrice : num;
  purchased : bool;
  notes : string;
  addedAt : string
}.

Record Summary : Type := mkSummary {
  totalItems : nat;
  purchasedItems : nat;
  estimatedTotal : num
}.

Record ShoppingList : Type := mkList {
  id : string;
  userId : string;
  name : string;
  description : string;
  status : string;
  items : list ListItem;
  summary : Summary;
  createdAt : string;
  updatedAt : string
}.

Definition withItems (lst : ShoppingList) (its : list ListItem) : ShoppingList :=
  {| id := id lst; userId := userId lst; name := name lst;
     description := description lst; status := status lst;
     items := its; summary := summary lst;
     createdAt := createdAt lst; updatedAt := updatedAt lst |}.

Definition withUpdatedAt (lst : ShoppingList) (now : string) : ShoppingList :=
  {| id := id lst; userId := userId lst; name := name lst;
     description := description lst; status := status lst;
     items := items lst; summary := summary lst;
     createdAt := createdAt lst; updatedAt := now |}.

(** The summary [recalculateSummary] computes from the items. *)
Definition summaryOf (its : list ListItem) : Summary :=
  {| totalItems := length its;
     purchasedItems := length (List.filter purchased its);
     estimatedTotal :=
       Gateway.reduce (fun sum i => num_add sum (num_mul (estimatedPrice i) (quantity i)))
                      num_zero its |}.

(** [recalculateSummary(list)]: replaces [list.summary]. *)
Definition recalculateSummary (lst : ShoppingList) : ShoppingList :=
  {| id := id lst; userId := userId lst; name := name lst;
     description := description lst; status := status lst;
     items := items lst; summary := summaryOf (items lst);
     createdAt := createdAt lst; updatedAt := updatedAt lst |}.

(** [array.findIndex(p)]; [None] stands for [-1]. *)
Fixpoint findIndex {A : Type} (p : A -> bool) (l : list A) : option nat :=
  match l with
  | [] => None
  | x :: l' => if p x then Some O else S <$> findIndex p l'
  end.

(** [array.splice(idx, 1)]: the array without its element at [idx]. *)
Definition splice1 {A : Type} (idx : nat) (l : list A) : list A :=
  take idx l ++ drop (S idx) l.

(** What an awaited call of [JsonDatabase] gives: a value, or a rejection. *)
Inductive DbResult (A : Type) : Type :=
| DbOk (value : A)
| DbThrows.
Arguments DbOk {A} value.
Arguments DbThrows {A}.

(** The two operations of [this.listsDb] the item handlers use, as what
    they return. *)
Record ListsDb : Type := mkDb {
  findById : string -> DbResult (option ShoppingList);
  update : string -> ShoppingList -> DbResult ShoppingList
}.

(** The calls a handler makes, in order. *)
Inductive Effect : Type :=
| DbFindById (listId : string)
| DbUpdate (listId : string) (lst : ShoppingList)
| ItemLookup (url : string).

Inductive Body : Type :=
| Message (success : bool) (message : string)
| ListData (lst : ShoppingList)
| SummaryData (summary : Summary).

Record Response : Type := mkResponse {
  resStatus : Z;
  resBody : Body
}.

(** The item service's record of a catalog item, as far as it is read. *)
Record ItemData : Type := mkItemData {
  dataId : string;
  dataName : string;
  dataUnit : string;
  averagePrice : num
}.

(** [!list || list.userId !== req.user.id] is false: the list exists and
    belongs to the caller. *)
Definition ownedList (found : option ShoppingList) (user : string) : option ShoppingList :=
  match found with
  | Some lst => if String.eqb (userId lst) user then Some lst else None
  | None => None
  end.

Definition listNotFound : Response :=
  {| resStatus := 404; resBody := Message false "Lista não encontrada" |}.

Definition itemNotInList : Response :=
  {| resStatus := 404; resBody := Message false "Item não encontrado na lista" |}.

(** The body of [POST /lists/:id/items]. *)
Record AddItemBody : Type := mkAddBody {
  addItemId : option string;
  addQuantity : option num;
  addNotes : option string
}.

Definition truthyString (x : option string) : bool :=
  match x with
  | Some v => JsString.truthy v
  | None => false
  end.

Definition truthyNum (x : option num) : bool :=
  match x with
  | Some v => num_truthy v
  | None => false
  end.

(** [POST /lists/:id/items] after [authMiddleware]. [user] is
    [req.user.id], [itemServiceUrl] the configured item service,
    [itemNet] what the network does with the lookup, [addedNow] and
    [updatedNow] the two timestamps taken. *)
Definition addItem (db : ListsDb)
    (itemNet : string -> Net.Outcome (Gateway.Envelope ItemData))
    (itemServiceUrl addedNow updatedNow user listId : string) (req : AddItemBody)
  : Response * list Effect :=
  let failure := {| resStatus := 500; resBody := Message false "Erro ao adicionar item à lista" |} in
  if (negb (truthyString (addItemId req)) || negb (truthyNum (addQuantity req)))%bool
  then ({| resStatus := 400; resBody := Message false "itemId e quantity obrigatórios" |}, [])
  else
    match findById db listId with
    | DbThrows => (failure, [DbFindById listId])
    | DbOk found =>
        match ownedList found user with
        | None => (listNotFound, [DbFindById listId])
        | Some lst =>
            let target := itemServiceUrl ++ "/items/" ++ default "" (addItemId req) in
            match Net.axios (itemNet target) with
            | Net.Rejected _ => (failure, [DbFindById listId; ItemLookup target])
            | Net.Fulfilled _ env =>
                match Gateway.envData env with
                | None => (failure, [DbFindById listId; ItemLookup target])
                | Some itemData =>
                    let listItem :=
                      {| itemId := dataId itemData;
                         itemName := dataName itemData;
                         quantity := default num_zero (addQuantity req);
                         unit := dataUnit itemData;
                         estimatedPrice := averagePrice itemData;
                         purchased := false;
                         notes := default "" (addNotes req);
                         addedAt := addedNow |} in
                    let lst' :=
                      withUpdatedAt
                        (recalculateSummary (withItems lst (items lst ++ [listItem])))
                        updatedNow in
                    let effects :=
                      [DbFindById listId; ItemLookup target; DbUpdate (id lst) lst'] in
                    match update db (id lst) lst' with
                    | DbThrows => (failure, effects)
                    | DbOk updatedList =>
                        ({| resStatus := 201; resBody := ListData updatedList |}, effects)
                    end
                end
            end
        end
    end.

(** The body of [PUT /lists/:id/items/:itemId]: each field may be absent. *)
Record UpdateItemBody : Type := mkUpdateBody {
  newQuantity : option num;
  newPurchased : option bool;
  newNotes : option string
}.

(** The three conditional assignments on the item found. *)
Definition applyUpdate (req : UpdateItemBody) (item : ListItem) : ListItem :=
  {| itemId := itemId item;
     itemName := itemName item;
     quantity := default (quantity item) (newQuantity req);
     unit := unit item;
     estimatedPrice := estimatedPrice item;
     purchased := default (purchased item) (newPurchased req);
     notes := default (notes item) (newNotes req);
     addedAt := addedAt item |}.

(** [PUT /lists/:id/items/:itemId] after [authMiddleware]. The item found
    is changed in place, that is, at its position in [list.items]. *)
Definition updateItem (db : ListsDb) (updatedNow user listId targetItem : string)
    (req : UpdateItemBody) : Response * list Effect :=
  let failure :=
    {| resStatus := 500; resBody := Message false "Erro ao atualizar item na lista" |} in
  match findById db listId with
  | DbThrows => (failure, [DbFindById listId])
  | DbOk found =>
      match ownedList found user with
      | None => (listNotFound, [DbFindById listId])
      | Some lst =>
          match findIndex (fun i => String.eqb (itemId i) targetItem) (items lst) with
          | None => (itemNotInList, [DbFindById listId])
          | Some idx =>
              let lst' :=
                withUpdatedAt
                  (recalculateSummary
                     (withItems lst (alter (applyUpdate req) idx (items lst))))
                  updatedNow in
              let effects := [DbFindById listId; DbUpdate (id lst) lst'] in
              match update db (id lst) lst' with
              | DbThrows => (failure, effects)
              | DbOk updatedList =>
                  ({| resStatus := 200; resBody := ListData updatedList |}, effects)
              end
          end
      end
  end.

(** [DELETE /lists/:id/items/:itemId] after [authMiddleware]. *)
Definition removeItem (db : ListsDb) (updatedNow user listId targetItem : string)
  : Response * list Effect :=
  let failure :=
    {| resStatus := 500; resBody := Message false "Erro ao remover item da lista" |} in
  match findById db listId with
  | DbThrows => (failure, [DbFindById listId])
  | DbOk found =>
      match ownedList found user with
      | None => (listNotFound, [DbFindById listId])
      | Some lst =>
          match findIndex (fun i => String.eqb (itemId i) targetItem) (items lst) with
          | None => (itemNotInList, [DbFindById listId])
          | Some idx =>
              let lst' :=
                withUpdatedAt
                  (recalculateSummary (withItems lst (splice1 idx (items lst))))
                  updatedNow in
              let effects := [DbFindById listId; DbUpdate (id lst) lst'] in
              match update db (id lst) lst' with
              | DbThrows => (failure, effects)
              | DbOk updatedList =>
                  ({| resStatus := 200; resBody := ListData updatedList |}, effects)
              end
          end
      end
  end.

(** [GET /lists/:id/summary] after [authMiddleware]. *)
Definition getSummary (db : ListsDb) (user listId : string) : Response * list Effect :=
  match findById db listId with
  | DbThrows =>
      ({| resStatus := 500; resBody := Message false "Erro ao obter resumo da lista" |},
       [DbFindById listId])
  | DbOk found =>
      match ownedList found user with
      | None => (listNotFound, [DbFindById listId])
      | Some lst =>
          ({| resStatus := 200; resBody := SummaryData (summary (recalculateSummary lst)) |},
           [DbFindById listId])
      end
  end.

(** The lists a handler hands to [listsDb.update]. *)
Definition written (effects : list Effect) : list ShoppingList :=
  flat_map (fun e => match e with DbUpdate _ l => [l] | _ => [] end) effects.

Definition lookups (effects : list Effect) : list string :=
  flat_map (fun e => match e with ItemLookup u => [u] | _ => [] end) effects.

End Lists.

Arguments DbOk {A} value.
Arguments DbThrows {A}.

End ListService.

(** ** Sample inputs for the list service *)

Module ListSample.

Import ListService.

(** Amounts in cents. A list of user [u1] with rice twice (one of the two
    purchased) and beans. *)
Definition rice (t : string) (bought : bool) : @ListItem Z :=
  {| itemId := "i1"; itemName := "Arroz"; quantity := 2; unit := "kg";
     estimatedPrice := 500; purchased := bought; notes := ""; addedAt := t |}.

Definition beans : @ListItem Z :=
  {| itemId := "i2"; itemName := "Feijao"; quantity := 1; unit := "kg";
     estimatedPrice := 799; purchased := false; notes := ""; addedAt := "t2" |}.

Definition shopping : @ShoppingList Z :=
  {| id := "l1"; userId := "u1"; name := "Feira"; description := ""; status := "active";
     items := [rice "t1" true; beans; rice "t3" false];
     summary := {| totalItems := 3; purchasedItems := 1; estimatedTotal := 2799 |};
     createdAt := "t0"; updatedAt := "t3" |}.

(** A database that holds [shopping] and stores what it is given. *)
Definition db : @ListsDb Z :=
  {| findById := fun i => DbOk (if String.eqb i "l1" then Some shopping else None);
     update := fun _ l => DbOk l |}.

Definition itemNet (u : string) : Net.Outcome (Gateway.Envelope (@ItemData Z)) :=
  Net.Answered 200
    {| Gateway.envSuccess := true;
       Gateway.envData := Some {| dataId := "i3"; dataName := "Cafe"; dataUnit := "un";
                                  averagePrice := 1500 |} |}.

End ListSample.

(** ** Lists on the wire between the list service and the gateway *)

Module Wire.

Section View.

Context {num : Type}.


End View.

End Wire.

(** ** Names the breaker embedding covers *)

Module JsObject.

Import Breaker.

(** [circuitBreaker[serviceName]] reads a property of an object literal, and
    so also finds the properties every object inherits from
    [Object.prototype]; these are their names (ECMAScript, with the legacy
    accessors of its annex B, as Node.js has them). For such a name the
    code finds the inherited function or object and keeps its counters on
    it, which the finite map of own entries does not describe. *)
Definition objectPrototypeNames : list string :=
  ["constructor"; "__defineGetter__"; "__defineSetter__"; "hasOwnProperty";
   "__lookupGetter__"; "__lookupSetter__"; "isPrototypeOf"; "propertyIsEnumerable";
   "toString"; "valueOf"; "__proto__"; "toLocaleString"].

(** The name is found on the prototype chain of the object literal. *)
Definition inherited (name : string) : bool :=
  existsb (String.eqb name) objectPrototypeNames.

Definition opService (op : Op) : string :=
  match op with
  | OpAdmit n _ | OpFailure n _ | OpSuccess n => n
  end.

(** The operation is on a name that is not inherited: it reads and writes
    own entries of [circuitBreaker] only, and leaves [Object.prototype] as it
    is. *)
Definition plainOp (op : Op) : bool := negb (inherited (opService op)).

End JsObject.

(** ** Sample inputs for the dashboard without a profile *)

Module DashboardSample.

Import Net Gateway.

(** The three services answer 200, but the user service's envelope carries
    no [data]. *)
Definition netNoProfile : @DashboardNet Z string :=
  {| netUser := fun _ => Answered 200 {| envSuccess := true; envData := None |};
     netLists := netLists Sample.dashboardNet;
     netItems := netItems Sample.dashboardNet |}.

End DashboardSample.

(** ** The global search on the values JavaScript hands it *)

Module SearchJs.

Import Breaker Net Gateway.

(** [req.query.q] as the query parser leaves it: absent, a string, or (for
    [?q=a&q=b], [?q[k]=v]) an array or object, which is truthy, has no
    [toLowerCase] method, and turns into [text] where a string is needed. *)
Inductive Query : Type :=
| QAbsent
| QString (s : string)
| QOther (text : string).

(** [!q] is false. *)
Definition queryTruthy (q : Query) : bool :=
  match q with
  | QAbsent => false
  | QString s => JsString.truthy s
  | QOther _ => true
  end.

(** [String(q)], the conversion [encodeURIComponent] applies. *)
Definition queryText (q : Query) : string :=
  match q with
  | QAbsent => "undefined"
  | QString s => s
  | QOther text => text
  end.

(** A [name] or [description] as it arrives in the JSON of a list: a string;
    a falsy value that is not a string (absent, [null], [false], [0]); or a
    truthy value that is not a string (a number, [true], an array, an
    object). The list service stores what it is given unchecked. *)
Inductive Field : Type :=
| FString (s : string)
| FFalsy
| FTruthy.

(** The percent-decoding a receiver of the URL applies to the query (the
    query parser of the item service, [decodeURIComponent]); a ['%'] that is
    not followed by two hexadecimal digits is kept as it is. *)
Definition hexValue (c : ascii) : option nat :=
  let n := nat_of_ascii c in
  if (Nat.leb 48 n && Nat.leb n 57)%bool then Some (n - 48)%nat
  else if (Nat.leb 65 n && Nat.leb n 70)%bool then Some (n - 55)%nat
  else if (Nat.leb 97 n && Nat.leb n 102)%bool then Some (n - 87)%nat
  else None.

Fixpoint percentDecode (s : string) : string :=
  match s with
  | EmptyString => EmptyString
  | String c t =>
      if Ascii.eqb c "%" then
        match t with
        | String h1 (String h2 s') =>
            match hexValue h1, hexValue h2 with
            | Some a, Some b => String (ascii_of_nat (16 * a + b)) (percentDecode s')
            | _, _ => String c (percentDecode t)
            end
        | _ => String c (percentDecode t)
        end
      else String c (percentDecode t)
  end.

Section SearchHandler.

(** [toLowerCase] follows the Unicode case mapping; it is left abstract.
    The other fields of a list and the catalog items are relayed as they
    are. *)
Variable toLowerCase : string -> string.
Context {Rest Item : Type}.

Record ListDoc : Type := mkListDoc {
  docName : Field;
  docDescription : Field;
  docRest : Rest
}.

Inductive SearchBody : Type :=
| SearchMessage (success : bool) (message : string)
| SearchData (lists : list ListDoc) (items : list Item).

Record SearchResponse : Type := mkSearch {
  searchStatus : Z;
  searchBody : SearchBody
}.

Record SearchNet : Type := mkSearchNet {
  searchLists : string -> Outcome (Envelope (list ListDoc));
  searchItems : string -> Outcome (Envelope (list Item))
}.

(** [field && field.toLowerCase().includes(q.toLowerCase())] as a truth
    value, or [None] when it throws a [TypeError]: a truthy [field] that is
    not a string has no [toLowerCase], and neither has a [q] that is not a
    string. A falsy [field] ends the [&&] before anything is called. *)
Definition fieldMatches (field : Field) (q : Query) : option bool :=
  match field with
  | FFalsy => Some false
  | FTruthy => None
  | FString f =>
      if JsString.truthy f then
        match q with
        | QString qs => Some (Search.includes (toLowerCase f) (toLowerCase qs))
        | _ => None
        end
      else Some false
  end.

(** The callback of [lists.filter]: the description is looked at only when
    the name did not match. *)
Definition listMatches (q : Query) (l : ListDoc) : option bool :=
  match fieldMatches (docName l) q with
  | None => None
  | Some true => Some true
  | Some false => fieldMatches (docDescription l) q
  end.

(** [lists.filter(callback)]: the callback runs on every element; the
    filter throws when a callback does. *)
Fixpoint filterLists (q : Query) (lists : list ListDoc) : option (list ListDoc) :=
  match lists with
  | [] => Some []
  | l :: rest =>
      match listMatches q l with
      | None => None
      | Some keep =>
          match filterLists q rest with
          | None => None
          | Some found => Some (if keep then l :: found else found)
          end
      end
  end.

Definition queryRequired : SearchResponse :=
  {| searchStatus := 400;
     searchBody := SearchMessage false "Query obrigatória (?q=termo)" |}.

Definition searchUnavailable : SearchResponse :=
  {| searchStatus := 503; searchBody := SearchMessage false "Serviços indisponíveis" |}.

Definition searchFailure : SearchResponse :=
  {| searchStatus := 500;
     searchBody := SearchMessage false "Erro ao buscar dados globais" |}.

(** [app.get('/api/search', jwtAuthMiddleware, ...)] once the middleware
    has accepted the token. A rejected request and a [TypeError] thrown by
    the filter both end in the [catch]. *)
Definition searchHandler (registry : gmap string ServiceRecord) (net : SearchNet)
    (q : Query) : M SearchResponse :=
  if negb (queryTruthy q) then ret queryRequired
  else
    let listUrl := getServiceUrl registry "list-service" in
    let itemUrl := getServiceUrl registry "item-service" in
    if (noUrl listUrl || noUrl itemUrl)%bool then ret searchUnavailable
    else
      let listTarget := default "" listUrl ++ "/lists" in
      let itemTarget :=
        default "" itemUrl ++ "/search?q=" ++ Search.encodeURIComponent (queryText q) in
      do _ <- emit (NetworkCall "GET" listTarget);
      match axios (searchLists net listTarget) with
      | Rejected _ => ret searchFailure
      | Fulfilled _ listsEnv =>
          let lists := default [] (envData listsEnv) in
          match filterLists q lists with
          | None => ret searchFailure
          | Some filteredLists =>
              do _ <- emit (NetworkCall "GET" itemTarget);
              match axios (searchItems net itemTarget) with
              | Rejected _ => ret searchFailure
              | Fulfilled _ itemsEnv =>
                  let items := default [] (envData itemsEnv) in
                  ret {| searchStatus := 200;
                         searchBody := SearchData filteredLists items |}
              end
          end
      end.

End SearchHandler.

End SearchJs.

(** ** Sample inputs for the search *)

Module SearchJsSample.

Import Net Gateway SearchJs.

Definition listDocs : list (@ListDoc unit) :=
  [ {| docName := FString "Feira de Arroz"; docDescription := FFalsy; docRest := tt |};
    {| docName := FString "Limpeza"; docDescription := FString "sem arroz"; docRest := tt |};
    {| docName := FFalsy; docDescription := FString "padaria"; docRest := tt |} ].

Definition searchNet : @SearchNet unit string :=
  {| searchLists := fun _ => Answered 200 {| envSuccess := true; envData := Some listDocs |};
     searchItems :=
       fun _ => Answered 200 {| envSuccess := true; envData := Some ["Arroz 5kg"] |} |}.

End SearchJsSample.

(** * Properties *)

(** ** Circuit breaker *)

Section BreakerFacts.

Import Breaker Sample.

Implicit Types (cb : gmap string CircuitState) (st : CircuitState).
Implicit Types (name : string) (now : Z).

Lemma canRequest_untracked cb name now :
  cb !! name = None -> canRequest cb name now = (true, cb).
Proof. intros H. unfold canRequest. now rewrite H. Qed.

Lemma canRequest_closed cb name st now :
  cb !! name = Some st -> open st = false -> canRequest cb name now = (true, cb).
Proof. intros H Hc. unfold canRequest. now rewrite H, Hc. Qed.

Lemma canRequest_open cb name st now :
  cb !! name = Some st -> open st = true ->
  canRequest cb name now =
    if CIRCUIT_TIMEOUT <? elapsed now st
    then (true, <[name := resetState st]> cb)
    else (false, cb).
Proof. intros H Ho. unfold canRequest. now rewrite H, Ho. Qed.

Lemma recordFailure_lookup cb name st now :
  cb !! name = Some st ->
  recordFailure cb name now !! name = Some (failedState now st).
Proof. intros H. unfold recordFailure. rewrite H. apply lookup_insert_eq. Qed.

Lemma recordSuccess_lookup cb name st :
  cb !! name = Some st ->
  recordSuccess cb name !! name = Some (resetState st).
Proof. intros H. unfold recordSuccess. rewrite H. apply lookup_insert_eq. Qed.

(** Each operation on one name leaves the entries of the other names alone. *)
Lemma step_other cb op name :
  (match op with OpAdmit n _ | OpFailure n _ | OpSuccess n => n end) <> name ->
  step cb op !! name = cb !! name.
Proof.
  destruct op as [n now|n now|n]; intros Hne; simpl.
  - unfold canRequest. destruct (cb !! n) as [st|]; [|reflexivity].
    destruct (negb (open st)); [reflexivity|].
    destruct (CIRCUIT_TIMEOUT <? elapsed now st); simpl; [|reflexivity].
    now apply lookup_insert_ne.
  - unfold recordFailure. destruct (cb !! n); [|reflexivity].
    now apply lookup_insert_ne.
  - unfold recordSuccess. destruct (cb !! n); [|reflexivity].
    now apply lookup_insert_ne.
Qed.

(** No operation creates or removes an entry. *)
Lemma step_untracked cb op name :
  cb !! name = None -> step cb op !! name = None.
Proof.
  intros Hn.
  destruct (decide ((match op with OpAdmit n _ | OpFailure n _ | OpSuccess n => n end) = name))
    as [He|Hne].
  - destruct op as [n now|n now|n]; simpl in *; subst n.
    + now rewrite canRequest_untracked.
    + unfold recordFailure. now rewrite Hn.
    + unfold recordSuccess. now rewrite Hn.
  - now rewrite step_other.
Qed.

Lemma run_untracked ops cb name :
  cb !! name = None -> run ops cb !! name = None.
Proof.
  revert cb. induction ops as [|op ops IH]; intros cb Hn; [exact Hn|].
  simpl. apply IH. now apply step_untracked.
Qed.

Lemma failedState_ok now st : state_ok st -> state_ok (failedState now st).
Proof.
  unfold state_ok, failedState. cbv zeta. intros Hst.
  destruct (MAX_FAILURES <=? failures st + 1) eqn:E; simpl.
  - intros _. split; [now apply Z.leb_le|discriminate].
  - intros Ho. apply Z.leb_gt in E. destruct (Hst Ho) as [Hge _]. lia.
Qed.

Lemma resetState_ok st : state_ok (resetState st).
Proof. unfold state_ok, resetState. simpl. discriminate. Qed.

(** One step keeps the invariant of every entry. *)
Lemma step_ok cb op :
  (forall name st, cb !! name = Some st -> state_ok st) ->
  forall name st, step cb op !! name = Some st -> state_ok st.
Proof.
  intros Hinv name st.
  destruct op as [n now|n now|n]; simpl.
  - unfold canRequest. destruct (cb !! n) as [st0|] eqn:E; [|apply Hinv].
    destruct (negb (open st0)); [apply Hinv|].
    destruct (CIRCUIT_TIMEOUT <? elapsed now st0); simpl; [|apply Hinv].
    rewrite lookup_insert. case_decide.
    + intros [= <-]. apply resetState_ok.
    + apply Hinv.
  - unfold recordFailure. destruct (cb !! n) as [st0|] eqn:E; [|apply Hinv].
    rewrite lookup_insert. case_decide.
    + intros [= <-]. apply failedState_ok. now apply (Hinv n).
    + apply Hinv.
  - unfold recordSuccess. destruct (cb !! n) as [st0|] eqn:E; [|apply Hinv].
    rewrite lookup_insert. case_decide.
    + intros [= <-]. apply resetState_ok.
    + apply Hinv.
Qed.

Lemma circuitBreaker_ok name st : circuitBreaker !! name = Some st -> state_ok st.
Proof.
  unfold circuitBreaker. rewrite !lookup_insert.
  repeat case_decide; intros [= <-]; unfold state_ok; simpl; discriminate.
Qed.

Lemma reachable_ok cb :
  reachable cb -> forall name st, cb !! name = Some st -> state_ok st.
Proof.
  induction 1 as [|cb op _ IH].
  - apply circuitBreaker_ok.
  - now apply step_ok.
Qed.

Lemma reachable_run ops : reachable (run ops circuitBreaker).
Proof.
  unfold run. rewrite <- (rev_involutive ops).
  induction (rev ops) as [|op l IH]; simpl.
  - apply reachable_init.
  - rewrite fold_left_app. simpl. now apply reachable_step.
Qed.

(** C2, as stated, fails at the boundary: with the breaker opened at time 0
    and the clock at exactly [CIRCUIT_TIMEOUT], the elapsed time is not less
    than the open duration, and [canRequest] still rejects. *)
Lemma C2_counterexample_boundary :
  (<["user-service" := openedAt 0]> circuitBreaker) !! "user-service" = Some (openedAt 0)
  /\ ~ (elapsed 60000 (openedAt 0) < CIRCUIT_TIMEOUT)
  /\ canRequest (<["user-service" := openedAt 0]> circuitBreaker) "user-service" 60000
     = (false, <["user-service" := openedAt 0]> circuitBreaker).
Proof.
  split; [apply lookup_insert_eq|]. split.
  - unfold elapsed, lastFailNumber, openedAt, CIRCUIT_TIMEOUT. simpl. lia.
  - erewrite canRequest_open; [|apply lookup_insert_eq|reflexivity]. reflexivity.
Qed.

(** C2 (amended): for a tracked service, [canRequest] rejects exactly when the
    entry is open and the time elapsed since [lastFail] is at most
    [CIRCUIT_TIMEOUT] (60000 ms), and a rejection changes nothing; when the
    entry is open and more than [CIRCUIT_TIMEOUT] has elapsed, [canRequest]
    sets [open] to false, resets [failures] to zero and admits. *)
Theorem C2_canRequest_rejects_iff cb name st now :
  cb !! name = Some st ->
  (fst (canRequest cb name now) = false
     <-> open st = true /\ elapsed now st <= CIRCUIT_TIMEOUT)
  /\ (fst (canRequest cb name now) = false -> snd (canRequest cb name now) = cb)
  /\ (open st = true -> CIRCUIT_TIMEOUT < elapsed now st ->
        canRequest cb name now
        = (true, <[name := {| failures := 0; open := false; lastFail := lastFail st |}]> cb)).
Proof.
  intros Hl. destruct (open st) eqn:Ho.
  - rewrite (canRequest_open _ _ _ _ Hl Ho).
    destruct (CIRCUIT_TIMEOUT <? elapsed now st) eqn:E.
    + apply Z.ltb_lt in E. simpl. repeat split; try discriminate; try reflexivity.
      intros [_ H]. lia.
    + apply Z.ltb_ge in E. simpl. repeat split; try reflexivity; auto.
      intros _ H. lia.
  - rewrite (canRequest_closed _ _ _ _ Hl Ho). simpl.
    repeat split; try discriminate. intros [H _]. discriminate.
Qed.

Lemma C2_canRequest_rejects_iff_witness :
  (fst (canRequest (<["user-service" := openedAt 0]> circuitBreaker) "user-service" 60001)
     = false
     <-> open (openedAt 0) = true /\ elapsed 60001 (openedAt 0) <= CIRCUIT_TIMEOUT)
  /\ (fst (canRequest (<["user-service" := openedAt 0]> circuitBreaker) "user-service" 60001)
        = false ->
      snd (canRequest (<["user-service" := openedAt 0]> circuitBreaker) "user-service" 60001)
        = <["user-service" := openedAt 0]> circuitBreaker)
  /\ (open (openedAt 0) = true -> CIRCUIT_TIMEOUT < elapsed 60001 (openedAt 0) ->
        canRequest (<["user-service" := openedAt 0]> circuitBreaker) "user-service" 60001
        = (true, <["user-service" :=
                     {| failures := 0; open := false; lastFail := lastFail (openedAt 0) |}]>
                   (<["user-service" := openedAt 0]> circuitBreaker))).
Proof.
  apply (C2_canRequest_rejects_iff
           (<["user-service" := openedAt 0]> circuitBreaker) "user-service" (openedAt 0) 60001).
  reflexivity.
Defined.

(** C3: from a closed entry with zero failures, two recorded failures leave
    the entry closed, and the third opens it with [lastFail] set to the clock
    of that third call; an admit check made afterwards, while no more than
    [CIRCUIT_TIMEOUT] has elapsed, is rejected and leaves the breaker as it
    is. *)
Theorem C3_three_failures_open cb name st t1 t2 t3 now :
  cb !! name = Some st ->
  failures st = 0 ->
  open st = false ->
  now - t3 <= CIRCUIT_TIMEOUT ->
  (exists st2,
      recordFailure (recordFailure cb name t1) name t2 !! name = Some st2
      /\ failures st2 = 2 /\ open st2 = false)
  /\ recordFailure (recordFailure (recordFailure cb name t1) name t2) name t3 !! name
     = Some {| failures := MAX_FAILURES; open := true; lastFail := Some t3 |}
  /\ canRequest (recordFailure (recordFailure (recordFailure cb name t1) name t2) name t3)
                name now
     = (false, recordFailure (recordFailure (recordFailure cb name t1) name t2) name t3).
Proof.
  intros Hl Hf Ho Hnow.
  pose proof (recordFailure_lookup _ _ _ t1 Hl) as H1.
  pose proof (recordFailure_lookup _ _ _ t2 H1) as H2.
  pose proof (recordFailure_lookup _ _ _ t3 H2) as H3.
  assert (E2 : failedState t2 (failedState t1 st)
               = {| failures := 2; open := false; lastFail := lastFail st |}).
  { unfold failedState. simpl. rewrite Hf, Ho. reflexivity. }
  assert (E3 : failedState t3 (failedState t2 (failedState t1 st))
               = {| failures := MAX_FAILURES; open := true; lastFail := Some t3 |}).
  { rewrite E2. reflexivity. }
  rewrite E2 in H2. rewrite E3 in H3.
  split; [|split].
  - eexists. split; [exact H2|]. now split.
  - exact H3.
  - rewrite (canRequest_open _ _ _ now H3 eq_refl).
    unfold elapsed, lastFailNumber. simpl.
    destruct (CIRCUIT_TIMEOUT <? now - t3) eqn:E; [|reflexivity].
    apply Z.ltb_lt in E. lia.
Qed.

Lemma C3_three_failures_open_witness :
  (exists st2,
      recordFailure (recordFailure circuitBreaker "item-service" 1000) "item-service" 2000
        !! "item-service" = Some st2
      /\ failures st2 = 2 /\ open st2 = false)
  /\ recordFailure (recordFailure (recordFailure circuitBreaker "item-service" 1000)
                                  "item-service" 2000) "item-service" 3000 !! "item-service"
     = Some {| failures := MAX_FAILURES; open := true; lastFail := Some 3000 |}
  /\ canRequest (recordFailure (recordFailure (recordFailure circuitBreaker "item-service" 1000)
                                              "item-service" 2000) "item-service" 3000)
                "item-service" 3001
     = (false, recordFailure (recordFailure (recordFailure circuitBreaker "item-service" 1000)
                                            "item-service" 2000) "item-service" 3000).
Proof.
  apply (C3_three_failures_open circuitBreaker "item-service" closedState 1000 2000 3000 3001).
  - reflexivity.
  - reflexivity.
  - reflexivity.
  - unfold CIRCUIT_TIMEOUT. lia.
Defined.

(** C4: in every state reachable from the initial [circuitBreaker] by admit
    checks, recorded failures and recorded successes, an entry that is open
    has at least [MAX_FAILURES] failures and a [lastFail] that is set; and
    one [recordSuccess] on a tracked name leaves its entry with zero failures
    and closed. *)
Theorem C4_open_implies_threshold cb name st :
  reachable cb ->
  cb !! name = Some st ->
  (open st = true -> MAX_FAILURES <= failures st /\ lastFail st <> None)
  /\ (exists st', recordSuccess cb name !! name = Some st'
                  /\ failures st' = 0 /\ open st' = false).
Proof.
  intros Hr Hl. split.
  - exact (reachable_ok cb Hr name st Hl).
  - exists (resetState st). split; [now apply recordSuccess_lookup|]. now split.
Qed.

Lemma C4_open_implies_threshold_witness :
  (open (openedAt 30) = true ->
     MAX_FAILURES <= failures (openedAt 30) /\ lastFail (openedAt 30) <> None)
  /\ (exists st',
         recordSuccess
           (run [OpFailure "list-service" 10; OpFailure "list-service" 20;
                 OpFailure "list-service" 30] circuitBreaker)
           "list-service" !! "list-service" = Some st'
         /\ failures st' = 0 /\ open st' = false).
Proof.
  apply (C4_open_implies_threshold
           (run [OpFailure "list-service" 10; OpFailure "list-service" 20;
                 OpFailure "list-service" 30] circuitBreaker)
           "list-service" (openedAt 30)).
  - apply reachable_run.
  - reflexivity.
Defined.

(** C5, as stated, fails: a name without an entry gets none from a recorded
    outcome, and after three recorded failures it is still admitted. *)
Lemma C5_counterexample_no_lazy_state :
  circuitBreaker !! "payment-service" = None
  /\ ~ is_Some (recordFailure circuitBreaker "payment-service" 1000 !! "payment-service")
  /\ ~ is_Some (recordSuccess circuitBreaker "payment-service" !! "payment-service")
  /\ canRequest
       (run [OpFailure "payment-service" 1000; OpFailure "payment-service" 2000;
             OpFailure "payment-service" 3000] circuitBreaker)
       "payment-service" 3001
     = (true, circuitBreaker).
Proof.
  assert (H : circuitBreaker !! "payment-service" = None) by reflexivity.
  assert (Hf : forall t, recordFailure circuitBreaker "payment-service" t = circuitBreaker).
  { intros t. unfold recordFailure. now rewrite H. }
  assert (Hs : recordSuccess circuitBreaker "payment-service" = circuitBreaker).
  { unfold recordSuccess. now rewrite H. }
  split; [exact H|]. rewrite Hf, Hs, H. split; [|split].
  - intros [x Hx]. discriminate.
  - intros [x Hx]. discriminate.
  - unfold run. simpl. rewrite !Hf. now apply canRequest_untracked.
Qed.

(** C5 (amended): for a name that has no entry and is not inherited from
    [Object.prototype], [canRequest] returns true and [recordFailure] and
    [recordSuccess] change nothing; no sequence of admit checks and recorded
    outcomes on names that are not inherited creates an entry for it, so it
    is admitted after any of them. *)
Theorem C5_untracked_stays_untracked cb name :
  JsObject.inherited name = false ->
  cb !! name = None ->
  (forall now, canRequest cb name now = (true, cb))
  /\ (forall now, recordFailure cb name now = cb)
  /\ recordSuccess cb name = cb
  /\ (forall ops now,
        forallb JsObject.plainOp ops = true ->
        run ops cb !! name = None
        /\ fst (canRequest (run ops cb) name now) = true).
Proof.
  intros _ Hn. repeat split.
  - intros now. now apply canRequest_untracked.
  - intros now. unfold recordFailure. now rewrite Hn.
  - unfold recordSuccess. now rewrite Hn.
  - now apply run_untracked.
  - rewrite canRequest_untracked; [reflexivity|]. now apply run_untracked.
Qed.

Lemma C5_untracked_stays_untracked_witness :
  (forall now, canRequest circuitBreaker "payment-service" now = (true, circuitBreaker))
  /\ (forall now, recordFailure circuitBreaker "payment-service" now = circuitBreaker)
  /\ recordSuccess circuitBreaker "payment-service" = circuitBreaker
  /\ (forall ops now,
        forallb JsObject.plainOp ops = true ->
        run ops circuitBreaker !! "payment-service" = None
        /\ fst (canRequest (run ops circuitBreaker) "payment-service" now) = true).
Proof.
  apply (C5_untracked_stays_untracked circuitBreaker "payment-service").
  - reflexivity.
  - reflexivity.
Defined.

End BreakerFacts.

(** ** Path rewrite *)

Section RewriteFacts.

Import Rewrite.

Lemma startsWith_slash (c : ascii) (s : string) :
  JsString.startsWith (String c s) "/" = Ascii.eqb c "/".
Proof.
  unfold JsString.startsWith. cbn -[ascii_dec].
  destruct (ascii_dec "/" c) as [<-|Hc].
  - now destruct s.
  - symmetry. apply Ascii.eqb_neq. congruence.
Qed.

(** What [getTargetPath] returns on a path under a route's prefix, by the
    first character of the remainder. *)
Lemma getTargetPath_under_prefix (r : Route) (rest : string) :
  getTargetPath (routePrefix r ++ rest) (routePrefix r) =
    match rest with
    | EmptyString => backendRoot r
    | String c rest' =>
        if Ascii.eqb c "/" then
          match rest' with
          | EmptyString => backendRoot r
          | String _ _ => backendRoot r ++ rest
          end
        else backendRoot r ++ "/" ++ rest
    end.
Proof.
  destruct rest as [|c rest']; [now destruct r|].
  assert (Hp : JsString.startsWith (routePrefix r ++ String c rest') (routePrefix r) = true)
    by (destruct r; reflexivity).
  assert (Hs : JsString.slice (String.length (routePrefix r)) (routePrefix r ++ String c rest')
               = String c rest')
    by (destruct r; reflexivity).
  assert (Hr : JsString.replace "/api" "" (routePrefix r) = backendRoot r)
    by (destruct r; reflexivity).
  unfold getTargetPath. rewrite Hp, Hs, Hr, startsWith_slash.
  cbn [String.eqb orb]. destruct (Ascii.eqb c "/"); [|reflexivity].
  destruct rest'; reflexivity.
Qed.

Lemma oneLeadingSlash_backendRoot (r : Route) (s : string) :
  oneLeadingSlash (backendRoot r ++ s) = true.
Proof. destruct r; reflexivity. Qed.

(** C6, as stated, fails: on [/api/items/] the remainder after the prefix is
    ["/"], and the rewrite drops it instead of preserving it. *)
Lemma C6_counterexample_trailing_slash :
  JsString.startsWith "/api/items/" (routePrefix ItemsRoute) = true
  /\ getTargetPath "/api/items/" (routePrefix ItemsRoute) = "/items"
  /\ getTargetPath "/api/items/" (routePrefix ItemsRoute) <> backendRoot ItemsRoute ++ "/".
Proof. repeat split. discriminate. Qed.

(** C6 (amended): on a path made of a declared prefix and a remainder, the
    rewrite returns the prefix without its [/api] segment, followed by the
    remainder: unchanged when the remainder begins with ['/'] and is longer
    than that, dropped when it is empty or exactly ["/"], and with one ['/']
    put before it otherwise. The result always begins with exactly one ['/'].
    The two paths of the specification rewrite as it says. *)
Theorem C6_getTargetPath_rewrite (r : Route) (rest : string) :
  (rest = "" \/ rest = "/" ->
     getTargetPath (routePrefix r ++ rest) (routePrefix r) = backendRoot r)
  /\ (JsString.startsWith rest "/" = true -> rest <> "/" ->
        getTargetPath (routePrefix r ++ rest) (routePrefix r) = backendRoot r ++ rest)
  /\ (rest <> "" -> JsString.startsWith rest "/" = false ->
        getTargetPath (routePrefix r ++ rest) (routePrefix r) = backendRoot r ++ "/" ++ rest)
  /\ oneLeadingSlash (getTargetPath (routePrefix r ++ rest) (routePrefix r)) = true
  /\ getTargetPath "/api/items/42?x=1" "/api/items" = "/items/42?x=1"
  /\ getTargetPath "/api/items" "/api/items" = "/items".
Proof.
  rewrite getTargetPath_under_prefix.
  split; [|split; [|split; [|split; [|split; reflexivity]]]].
  - intros [->| ->]; reflexivity.
  - destruct rest as [|c rest']; [discriminate|].
    rewrite startsWith_slash. intros Hc Hne. rewrite Hc.
    apply Ascii.eqb_eq in Hc. subst c.
    destruct rest'; [now destruct Hne|reflexivity].
  - destruct rest as [|c rest']; [now intros H|]. intros _.
    rewrite startsWith_slash. intros Hc. now rewrite Hc.
  - destruct rest as [|c rest']; [now destruct r|].
    destruct (Ascii.eqb c "/"); [destruct rest'; [now destruct r|]|];
      apply oneLeadingSlash_backendRoot.
Qed.

(** C10: when a declared prefix is immediately followed by a query string,
    the remainder does not begin with ['/'] and the rewrite puts one before
    it: [/api/items?name=x] becomes [/items/?name=x], not [/items?name=x]. *)
Theorem C10_query_after_prefix (r : Route) (query : string) :
  JsString.startsWith ("?" ++ query) "/" = false
  /\ getTargetPath (routePrefix r ++ "?" ++ query) (routePrefix r)
     = backendRoot r ++ "/?" ++ query
  /\ getTargetPath "/api/items?name=x" (routePrefix ItemsRoute) = "/items/?name=x"
  /\ getTargetPath "/api/items?name=x" (routePrefix ItemsRoute) <> "/items?name=x".
Proof.
  split; [reflexivity|]. split; [|split; [reflexivity|discriminate]].
  rewrite getTargetPath_under_prefix. reflexivity.
Qed.

End RewriteFacts.

(** ** Reverse proxy *)

Section ProxyFacts.

Import Breaker Net Gateway.

Context {Json : Type}.

Implicit Types (registry : gmap string ServiceRecord) (s : GwState).
Implicit Types (req : Request Json) (config : AxiosConfig Json).
Implicit Types (net : AxiosConfig Json -> Outcome Json).

Lemma callsMade_unchanged {A : Type} (m : M A) s :
  calls (finalState m s) = calls s -> callsMade m s = [].
Proof. intros H. unfold callsMade. rewrite H. apply drop_all. Qed.

Lemma callsMade_appended {A : Type} (m : M A) s (l : list Event) :
  calls (finalState m s) = (calls s ++ l)%list -> callsMade m s = l.
Proof. intros H. unfold callsMade. rewrite H. apply drop_app_length. Qed.

(** The part of [proxyRequest] before the request is sent logs no call; it
    answers 503 when the breaker rejects or no URL is found, and otherwise
    builds a request. *)
Lemma proxyDispatch_spec registry name req prefix now s :
  calls (snd (proxyDispatch registry name req prefix now s)) = calls s
  /\ breaker (snd (proxyDispatch registry name req prefix now s))
     = snd (canRequest (breaker s) name now)
  /\ (fst (canRequest (breaker s) name now) = false ->
        fst (proxyDispatch registry name req prefix now s) = inl breakerOpenResponse)
  /\ (fst (canRequest (breaker s) name now) = true ->
      noUrl (getServiceUrl registry name) = true ->
        fst (proxyDispatch registry name req prefix now s) = inl (notFoundResponse name))
  /\ (fst (canRequest (breaker s) name now) = true ->
      noUrl (getServiceUrl registry name) = false ->
        exists config, fst (proxyDispatch registry name req prefix now s) = inr config).
Proof.
  unfold proxyDispatch, bind, canRequestM, ret.
  destruct (canRequest (breaker s) name now) as [ok cb]. simpl.
  destruct ok; simpl.
  - destruct (noUrl (getServiceUrl registry name)); simpl;
      repeat split; try discriminate; eauto.
  - repeat split; discriminate.
Qed.

(** [proxyRequest] when the dispatch already decided the response. *)
Lemma proxyRequest_short registry net name req prefix t0 t1 s res :
  fst (proxyDispatch registry name req prefix t0 s) = inl res ->
  proxyRequest registry net name req prefix t0 t1 s
  = (res, snd (proxyDispatch registry name req prefix t0 s)).
Proof.
  intros H. unfold proxyRequest, bind.
  destruct (proxyDispatch registry name req prefix t0 s) as [d s1].
  simpl in H. subst d. reflexivity.
Qed.

(** [proxyRequest] when a request is sent: the calls made, the response and
    the breaker afterwards, by what the network did. *)
Lemma proxyRequest_sent registry net name req prefix t0 t1 s config :
  fst (proxyDispatch registry name req prefix t0 s) = inr config ->
  let sent := NetworkCall (cfgMethod config) (cfgUrl config) in
  let cb := snd (canRequest (breaker s) name t0) in
  proxyRequest registry net name req prefix t0 t1 s =
    match net config with
    | Answered st data =>
        if validateStatus st
        then ({| status := st; resBody := Relayed data |},
              {| breaker := recordSuccess cb name;
                 calls := (calls s ++ [sent]) ++ [CallRecordSuccess name] |})
        else ({| status := st; resBody := Relayed data |},
              {| breaker := recordFailure cb name t1;
                 calls := (calls s ++ [sent]) ++ [CallRecordFailure name] |})
    | NoResponse _ =>
        (forwardingFailure,
         {| breaker := recordFailure cb name t1;
            calls := (calls s ++ [sent]) ++ [CallRecordFailure name] |})
    end.
Proof.
  intros H sent cb.
  destruct (proxyDispatch_spec registry name req prefix t0 s) as (Hc & Hb & _).
  unfold proxyRequest, bind.
  destruct (proxyDispatch registry name req prefix t0 s) as [d s1].
  simpl in H, Hc, Hb. subst d. unfold emit, proxySettle, axios. simpl.
  rewrite Hc, Hb. fold cb. fold sent.
  destruct (net config) as [st data|msg]; [|reflexivity].
  destruct (validateStatus st); reflexivity.
Qed.

(** C1, as stated, fails: when the item service answers 404, the response is
    relayed, [recordFailure] is called and [recordSuccess] is not; the entry
    of the service counts one failure. *)
Lemma C1_counterexample_upstream_404 :
  response (proxyRequest Sample.registry (fun _ => Answered 404 "{}") "item-service"
                         Sample.getItem "/api/items" 0 5) Sample.startState
  = {| status := 404; resBody := Relayed "{}" |}
  /\ callsMade (proxyRequest Sample.registry (fun _ => Answered 404 "{}") "item-service"
                             Sample.getItem "/api/items" 0 5) Sample.startState
     = [NetworkCall "GET" "http://localhost:3002/items/42?x=1";
        CallRecordFailure "item-service"]
  /\ breaker (finalState (proxyRequest Sample.registry (fun _ => Answered 404 "{}")
                                       "item-service" Sample.getItem "/api/items" 0 5)
                         Sample.startState) !! "item-service"
     = Some {| failures := 1; open := false; lastFail := None |}.
Proof. repeat split. Qed.

(** C1 (amended): for a proxied call that reaches the backend, [recordSuccess]
    is called exactly when the backend answers with a 2xx status, and
    [recordFailure] exactly when it answers with another status or no
    response arrives; a received response is relayed with its status and
    body whatever the status, and without a response the gateway answers
    500. *)
Theorem C1_record_by_status registry net name req prefix t0 t1 s config :
  fst (proxyDispatch registry name req prefix t0 s) = inr config ->
  (In (CallRecordSuccess name) (callsMade (proxyRequest registry net name req prefix t0 t1) s)
     <-> exists st data, net config = Answered st data /\ validateStatus st = true)
  /\ (In (CallRecordFailure name) (callsMade (proxyRequest registry net name req prefix t0 t1) s)
        <-> (exists st data, net config = Answered st data /\ validateStatus st = false)
            \/ (exists msg, net config = NoResponse msg))
  /\ (forall st data, net config = Answered st data ->
        response (proxyRequest registry net name req prefix t0 t1) s
        = {| status := st; resBody := Relayed data |})
  /\ (forall msg, net config = NoResponse msg ->
        response (proxyRequest registry net name req prefix t0 t1) s = forwardingFailure).
Proof.
  intros H.
  pose proof (proxyRequest_sent registry net name req prefix t0 t1 s config H) as E.
  cbv zeta in E. unfold response.
  destruct (net config) as [st data|msg] eqn:En.
  - destruct (validateStatus st) eqn:Ev.
    + rewrite (callsMade_appended _ s [NetworkCall (cfgMethod config) (cfgUrl config);
                                       CallRecordSuccess name]);
        [|unfold finalState; rewrite E; simpl; now rewrite <- app_assoc].
      rewrite E. simpl. repeat split.
      * intros _. exists st, data. now split.
      * intros _. now right; left.
      * intros [[=]|[[=]|[]]].
      * intros [(st' & d' & [= <- <-] & Hv)|(m & [=])]. congruence.
      * now intros st' d' [= <- <-].
      * intros m [=].
    + rewrite (callsMade_appended _ s [NetworkCall (cfgMethod config) (cfgUrl config);
                                       CallRecordFailure name]);
        [|unfold finalState; rewrite E; simpl; now rewrite <- app_assoc].
      rewrite E. simpl. repeat split.
      * intros [[=]|[[=]|[]]].
      * intros (st' & d' & [= <- <-] & Hv). congruence.
      * intros _. left. exists st, data. now split.
      * intros _. now right; left.
      * now intros st' d' [= <- <-].
      * intros m [=].
  - rewrite (callsMade_appended _ s [NetworkCall (cfgMethod config) (cfgUrl config);
                                     CallRecordFailure name]);
      [|unfold finalState; rewrite E; simpl; now rewrite <- app_assoc].
    rewrite E. simpl. repeat split.
    + intros [[=]|[[=]|[]]].
    + intros (st' & d' & [=] & _).
    + intros _. right. now exists msg.
    + intros _. now right; left.
    + intros st' d' [=].
Qed.

(** C7: when [canRequest] rejects the service, or no URL is found for it
    (in particular when the name was never registered), [proxyRequest]
    answers 503 with a message of the gateway and makes no call at all: no
    request is sent, and neither [recordFailure] nor [recordSuccess] runs. *)
Theorem C7_unavailable_short_circuit registry net name req prefix t0 t1 s :
  fst (canRequest (breaker s) name t0) = false
  \/ noUrl (getServiceUrl registry name) = true
  \/ registry !! name = None ->
  status (response (proxyRequest registry net name req prefix t0 t1) s) = 503
  /\ (exists msg, resBody (response (proxyRequest registry net name req prefix t0 t1) s)
                  = GatewayMessage false msg)
  /\ callsMade (proxyRequest registry net name req prefix t0 t1) s = []
  /\ (forall e, In e (callsMade (proxyRequest registry net name req prefix t0 t1) s) ->
        isNetworkCall e = false /\ isRecordCall e = false).
Proof.
  intros H.
  assert (Hshort : exists res,
             fst (proxyDispatch registry name req prefix t0 s) = inl res
             /\ status res = 503 /\ exists msg, resBody res = GatewayMessage false msg).
  { destruct (proxyDispatch_spec registry name req prefix t0 s) as (_ & _ & Hrej & Hno & _).
    destruct (fst (canRequest (breaker s) name t0)) eqn:Hok.
    - assert (Hn : noUrl (getServiceUrl registry name) = true).
      { destruct H as [H|[H|H]]; [discriminate|exact H|].
        unfold getServiceUrl, discover. now rewrite H. }
      exists (notFoundResponse name). split; [now apply Hno|]. split; [reflexivity|].
      now eexists.
    - exists breakerOpenResponse. split; [now apply Hrej|]. split; [reflexivity|].
      now eexists. }
  destruct Hshort as (res & Hd & Hst & Hmsg).
  assert (Hc : callsMade (proxyRequest registry net name req prefix t0 t1) s = []).
  { apply callsMade_unchanged. unfold finalState.
    rewrite (proxyRequest_short _ _ _ _ _ _ _ _ _ Hd). simpl.
    apply (proxyDispatch_spec registry name req prefix t0 s). }
  unfold response. rewrite (proxyRequest_short _ _ _ _ _ _ _ _ _ Hd). simpl.
  split; [exact Hst|]. split; [exact Hmsg|]. split; [exact Hc|].
  rewrite Hc. intros e [].
Qed.

End ProxyFacts.

Section ProxyWitnesses.

Import Breaker Net Gateway.

Lemma C1_record_by_status_witness :
  (In (CallRecordSuccess "item-service")
      (callsMade (proxyRequest Sample.registry (fun _ => Answered 200 "{}") "item-service"
                               Sample.getItem "/api/items" 0 5) Sample.startState)
     <-> exists st data, Answered 200 "{}" = Answered st data /\ validateStatus st = true)
  /\ (In (CallRecordFailure "item-service")
         (callsMade (proxyRequest Sample.registry (fun _ => Answered 200 "{}") "item-service"
                                  Sample.getItem "/api/items" 0 5) Sample.startState)
        <-> (exists st data, Answered 200 "{}" = Answered st data /\ validateStatus st = false)
            \/ (exists msg, @Answered string 200 "{}" = NoResponse msg))
  /\ (forall st data, Answered 200 "{}" = Answered st data ->
        response (proxyRequest Sample.registry (fun _ => Answered 200 "{}") "item-service"
                               Sample.getItem "/api/items" 0 5) Sample.startState
        = {| status := st; resBody := Relayed data |})
  /\ (forall msg, @Answered string 200 "{}" = NoResponse msg ->
        response (proxyRequest Sample.registry (fun _ => Answered 200 "{}") "item-service"
                               Sample.getItem "/api/items" 0 5) Sample.startState
        = forwardingFailure).
Proof.
  apply (C1_record_by_status Sample.registry (fun _ => Answered 200 "{}") "item-service"
           Sample.getItem "/api/items" 0 5 Sample.startState
           {| cfgMethod := "GET";
              cfgUrl := "http://localhost:3002/items/42?x=1";
              cfgHeaders := [("authorization", "Bearer t")];
              cfgData := None |}).
  reflexivity.
Defined.

Lemma C7_unavailable_short_circuit_witness :
  status (response (proxyRequest Sample.otherRegistry (fun _ => Answered 200 "{}")
                                 "item-service" Sample.getItem "/api/items" 0 5)
                   Sample.startState) = 503
  /\ (exists msg,
         resBody (response (proxyRequest Sample.otherRegistry (fun _ => Answered 200 "{}")
                                         "item-service" Sample.getItem "/api/items" 0 5)
                           Sample.startState)
         = GatewayMessage false msg)
  /\ callsMade (proxyRequest Sample.otherRegistry (fun _ => Answered 200 "{}")
                             "item-service" Sample.getItem "/api/items" 0 5)
               Sample.startState = []
  /\ (forall e,
         In e (callsMade (proxyRequest Sample.otherRegistry (fun _ => Answered 200 "{}")
                                       "item-service" Sample.getItem "/api/items" 0 5)
                         Sample.startState) ->
         isNetworkCall e = false /\ isRecordCall e = false).
Proof.
  apply (C7_unavailable_short_circuit Sample.otherRegistry (fun _ => Answered 200 "{}")
           "item-service" Sample.getItem "/api/items" 0 5 Sample.startState).
  right. right. reflexivity.
Defined.

End ProxyWitnesses.

(** ** Health aggregation *)

Section HealthFacts.

Import Breaker Net Gateway.

Context {Json : Type}.

Implicit Types (registry : gmap string ServiceRecord) (s : GwState).
Implicit Types (net : string -> Outcome Json).

(** The entry a probe reports does not depend on the gateway's state. *)
Lemma probe_entry registry net name s :
  fst (probe registry net name s) =
    if noUrl (getServiceUrl registry name) then Unhealthy "Não encontrado"
    else match axios (net (default "" (getServiceUrl registry name) ++ "/health")) with
         | Fulfilled _ data => Reported data
         | Rejected e => Unhealthy (errMessage e)
         end.
Proof.
  unfold probe. destruct (noUrl (getServiceUrl registry name)); [reflexivity|].
  unfold bind, emit. simpl.
  destruct (axios (net (default "" (getServiceUrl registry name) ++ "/health")));
    reflexivity.
Qed.

(** After the loop, each name of the list holds the entry of its own probe,
    and the other names hold what they held before. *)
Lemma healthLoop_lookup registry net names :
  forall (results : gmap string (HealthEntry Json)) s name,
    fst (healthLoop registry net names results s) !! name =
      if decide (name ∈ names)
      then Some (fst (probe registry net name s))
      else results !! name.
Proof.
  induction names as [|n rest IH]; intros results s name.
  - cbn [healthLoop]. unfold ret. cbn [fst].
    destruct (decide (name ∈ [])) as [H|H]; [|reflexivity]. now apply elem_of_nil in H.
  - cbn [healthLoop]. unfold bind.
    destruct (probe registry net n s) as [entry s1] eqn:Ep.
    rewrite IH. rewrite (probe_entry registry net name s1).
    rewrite (probe_entry registry net name s).
    destruct (decide (name ∈ rest)) as [Hin|Hnin].
    + rewrite decide_True; [reflexivity|]. now apply list_elem_of_further.
    + destruct (decide (name = n)) as [->|Hne].
      * rewrite decide_True; [|apply list_elem_of_here].
        rewrite lookup_insert_eq. f_equal.
        rewrite <- (probe_entry registry net n s). now rewrite Ep.
      * rewrite decide_False; [now apply lookup_insert_ne|].
        intros Hin. apply elem_of_cons in Hin. destruct Hin; congruence.
Qed.

Lemma healthHandler_body registry net s name :
  healthBody (response (healthHandler registry net) s) !! name =
    if decide (name ∈ services)
    then Some (fst (probe registry net name s))
    else None.
Proof.
  unfold response, healthHandler, bind.
  destruct (healthLoop registry net services ∅ s) as [results s1] eqn:E. simpl.
  change results with (fst (results, s1)). rewrite <- E.
  rewrite healthLoop_lookup. case_decide; [reflexivity|apply lookup_empty].
Qed.

(** C9 (amended): [GET /health] always answers 200 with a mapping that has an
    entry exactly for the three names the handler lists ([user-service],
    [item-service], [list-service]), registered or not. The entry of a name
    is decided by that name alone: unhealthy with ["Não encontrado"] when no
    URL is found for it, unhealthy with the error's message when its probe
    gets no response or a status outside 2xx, and the data the service
    reported otherwise. *)
Theorem C9_health_per_service registry net s :
  healthStatus (response (healthHandler registry net) s) = 200
  /\ (forall name,
        is_Some (healthBody (response (healthHandler registry net) s) !! name)
        <-> name ∈ services)
  /\ (forall name, name ∈ services ->
        (noUrl (getServiceUrl registry name) = true ->
           healthBody (response (healthHandler registry net) s) !! name
           = Some (Unhealthy "Não encontrado"))
        /\ (forall u, getServiceUrl registry name = Some u -> JsString.truthy u = true ->
              (forall st data, net (u ++ "/health") = Answered st data ->
                 validateStatus st = true ->
                 healthBody (response (healthHandler registry net) s) !! name
                 = Some (Reported data))
              /\ (forall st data, net (u ++ "/health") = Answered st data ->
                    validateStatus st = false ->
                    exists msg,
                      healthBody (response (healthHandler registry net) s) !! name
                      = Some (Unhealthy msg))
              /\ (forall msg, net (u ++ "/health") = NoResponse msg ->
                    healthBody (response (healthHandler registry net) s) !! name
                    = Some (Unhealthy msg)))).
Proof.
  split.
  { unfold response, healthHandler, bind.
    now destruct (healthLoop registry net services ∅ s). }
  split.
  - intros name. rewrite healthHandler_body. case_decide as H.
    + split; [now intros _|]. intros _. now eexists.
    + split; [intros [x Hx]; discriminate|]. intros Hin. now destruct H.
  - intros name Hin. rewrite healthHandler_body, decide_True by exact Hin.
    rewrite probe_entry. split.
    + intros Hno. now rewrite Hno.
    + intros u Hu Ht. rewrite Hu. unfold noUrl. rewrite Ht. simpl.
      unfold axios. repeat split.
      * intros st data Hn Hv. now rewrite Hn, Hv.
      * intros st data Hn Hv. rewrite Hn, Hv. now eexists.
      * intros msg Hn. now rewrite Hn.
Qed.

End HealthFacts.

Section HealthExamples.

Import Breaker Net Gateway.

(** C9, as stated, fails: with only [payment-service] registered, the mapping
    has no entry for that registered name, and it has one for
    [user-service], which is not registered. *)
Lemma C9_counterexample_fixed_names :
  is_Some (Sample.otherRegistry !! "payment-service")
  /\ healthBody (response (healthHandler Sample.otherRegistry
                                         (fun _ => Answered 200 "{}"))
                          Sample.startState) !! "payment-service" = None
  /\ Sample.otherRegistry !! "user-service" = None
  /\ healthBody (response (healthHandler Sample.otherRegistry
                                         (fun _ => Answered 200 "{}"))
                          Sample.startState) !! "user-service"
     = Some (Unhealthy "Não encontrado").
Proof. split; [now eexists|]. repeat split. Qed.

End HealthExamples.

(** ** Dashboard aggregation *)

Section DashboardFacts.

Import Breaker Net Gateway.

Context {num : Type} (num_zero : num) (num_add : num -> num -> num)
        (num_truthy : num -> bool).
Context {Item : Type}.

Implicit Types (registry : gmap string ServiceRecord) (s : GwState).
Implicit Types (net : @DashboardNet num Item) (lists : list (@ShoppingList num)).

(** A [reduce] that adds a count per element is the sum of the counts. *)
Lemma reduce_count {A : Type} (f g : A -> nat) (l : list A) :
  (forall x, f x = g x) ->
  reduce (fun sum x => (sum + f x)%nat) 0%nat l = list_sum (List.map g l).
Proof.
  intros Hfg. unfold reduce.
  assert (H : forall acc, fold_left (fun sum x => (sum + f x)%nat) l acc
                          = (acc + list_sum (List.map g l))%nat).
  { induction l as [|x l IH]; intros acc; simpl; [lia|]. rewrite IH, Hfg. lia. }
  apply H.
Qed.

(** A [reduce] that adds a number per element is the left-to-right sum of
    those numbers. *)
Lemma reduce_numSum {A : Type} (f g : A -> num) (l : list A) :
  (forall x, f x = g x) ->
  reduce (fun sum x => num_add sum (f x)) num_zero l
  = numSum num_zero num_add (List.map g l).
Proof.
  intros Hfg. unfold reduce, numSum. generalize num_zero.
  induction l as [|x l IH]; intros acc; simpl; [reflexivity|]. now rewrite IH, Hfg.
Qed.

Lemma computeStats_sums lists (catalog : list Item) :
  computeStats num_zero num_add num_truthy lists catalog =
    {| totalLists := length lists;
       totalItemsInLists := list_sum (List.map itemCount lists);
       totalPurchased := list_sum (List.map purchasedCount lists);
       totalEstimated :=
         numSum num_zero num_add (List.map (listEstimated num_zero num_truthy) lists);
       totalCatalogItems := length catalog |}.
Proof.
  unfold computeStats. f_equal.
  - apply reduce_count. intros l. unfold itemCount. now destruct (items l).
  - apply reduce_count. intros l. unfold purchasedCount. now destruct (items l).
  - apply reduce_numSum. intros l. unfold listEstimated. now destruct (summary l).
Qed.

(** The handler once the three URLs are found: three requests in sequence,
    the first rejection ending in the [catch]. *)
Lemma dashboardHandler_resolved registry net userId s userUrl listUrl itemUrl :
  getServiceUrl registry "user-service" = Some userUrl -> JsString.truthy userUrl = true ->
  getServiceUrl registry "list-service" = Some listUrl -> JsString.truthy listUrl = true ->
  getServiceUrl registry "item-service" = Some itemUrl -> JsString.truthy itemUrl = true ->
  response (dashboardHandler num_zero num_add num_truthy registry net userId) s =
    match axios (netUser net (userUrl ++ "/users/" ++ userId)) with
    | Rejected _ => dashboardFailure
    | Fulfilled _ userEnv =>
        match axios (netLists net (listUrl ++ "/lists")) with
        | Rejected _ => dashboardFailure
        | Fulfilled _ listsEnv =>
            match axios (netItems net (itemUrl ++ "/items")) with
            | Rejected _ => dashboardFailure
            | Fulfilled _ itemsEnv =>
                match envData userEnv with
                | None => dashboardFailure
                | Some u =>
                    {| dashStatus := 200;
                       dashBody :=
                         DashboardData u
                           (computeStats num_zero num_add num_truthy
                              (default [] (envData listsEnv))
                              (default [] (envData itemsEnv)))
                           (default [] (envData listsEnv)) |}
                end
            end
        end
    end.
Proof.
  intros Hu Tu Hl Tl Hi Ti. unfold response, dashboardHandler.
  rewrite Hu, Hl, Hi. unfold noUrl. rewrite Tu, Tl, Ti.
  change (default "" (Some userUrl)) with userUrl.
  change (default "" (Some listUrl)) with listUrl.
  change (default "" (Some itemUrl)) with itemUrl.
  cbn [negb orb]. unfold bind, emit, ret. cbn [fst snd].
  destruct (axios (netUser net (userUrl ++ "/users/" ++ userId))) as [st1 userEnv|e1];
    [|reflexivity].
  destruct (axios (netLists net (listUrl ++ "/lists"))) as [st2 listsEnv|e2];
    [|reflexivity].
  destruct (axios (netItems net (itemUrl ++ "/items"))) as [st3 itemsEnv|e3];
    [|reflexivity].
  now destruct (envData userEnv).
Qed.

(** C8 (amended): with the three services found in the registry, if any of
    the three upstream calls (profile, lists, catalog) is rejected, the
    handler answers 500 with the gateway's failure message and no dashboard
    data; when the three are fulfilled and the profile response carries the
    user's data, it answers 200 with [totalLists] the number of lists,
    [totalItemsInLists] the sum of the lists' item counts, [totalPurchased]
    the sum of their purchased item counts, [totalEstimated] the sum of their
    estimated totals and [totalCatalogItems] the size of the catalog; when
    the three are fulfilled but the profile response carries no data, it
    answers the same 500. *)
Theorem C8_dashboard_all_or_nothing registry net userId s userUrl listUrl itemUrl :
  getServiceUrl registry "user-service" = Some userUrl -> JsString.truthy userUrl = true ->
  getServiceUrl registry "list-service" = Some listUrl -> JsString.truthy listUrl = true ->
  getServiceUrl registry "item-service" = Some itemUrl -> JsString.truthy itemUrl = true ->
  ((exists e, axios (netUser net (userUrl ++ "/users/" ++ userId)) = Rejected e)
   \/ (exists e, axios (netLists net (listUrl ++ "/lists")) = Rejected e)
   \/ (exists e, axios (netItems net (itemUrl ++ "/items")) = Rejected e) ->
   response (dashboardHandler num_zero num_add num_truthy registry net userId) s
   = {| dashStatus := 500;
        dashBody := DashboardMessage false "Erro ao agregar dados do dashboard" |}
   /\ forall u stats lists,
        dashBody (response (dashboardHandler num_zero num_add num_truthy registry net userId) s)
        <> DashboardData u stats lists)
  /\ (forall st1 userEnv u st2 listsEnv st3 itemsEnv,
        axios (netUser net (userUrl ++ "/users/" ++ userId)) = Fulfilled st1 userEnv ->
        envData userEnv = Some u ->
        axios (netLists net (listUrl ++ "/lists")) = Fulfilled st2 listsEnv ->
        axios (netItems net (itemUrl ++ "/items")) = Fulfilled st3 itemsEnv ->
        response (dashboardHandler num_zero num_add num_truthy registry net userId) s
        = {| dashStatus := 200;
             dashBody :=
               DashboardData u
                 {| totalLists := length (default [] (envData listsEnv));
                    totalItemsInLists :=
                      list_sum (List.map itemCount (default [] (envData listsEnv)));
                    totalPurchased :=
                      list_sum (List.map purchasedCount (default [] (envData listsEnv)));
                    totalEstimated :=
                      numSum num_zero num_add
                        (List.map (listEstimated num_zero num_truthy)
                                  (default [] (envData listsEnv)));
                    totalCatalogItems := length (default [] (envData itemsEnv)) |}
                 (default [] (envData listsEnv)) |})
  /\ (forall st1 userEnv st2 listsEnv st3 itemsEnv,
        axios (netUser net (userUrl ++ "/users/" ++ userId)) = Fulfilled st1 userEnv ->
        envData userEnv = None ->
        axios (netLists net (listUrl ++ "/lists")) = Fulfilled st2 listsEnv ->
        axios (netItems net (itemUrl ++ "/items")) = Fulfilled st3 itemsEnv ->
        response (dashboardHandler num_zero num_add num_truthy registry net userId) s
        = {| dashStatus := 500;
             dashBody := DashboardMessage false "Erro ao agregar dados do dashboard" |}).
Proof.
  intros Hu Tu Hl Tl Hi Ti.
  rewrite (dashboardHandler_resolved registry net userId s userUrl listUrl itemUrl
             Hu Tu Hl Tl Hi Ti).
  split; [|split].
  - intros Hfail.
    assert (E : match axios (netUser net (userUrl ++ "/users/" ++ userId)) with
                | Rejected _ => dashboardFailure
                | Fulfilled _ userEnv =>
                    match axios (netLists net (listUrl ++ "/lists")) with
                    | Rejected _ => dashboardFailure
                    | Fulfilled _ listsEnv =>
                        match axios (netItems net (itemUrl ++ "/items")) with
                        | Rejected _ => dashboardFailure
                        | Fulfilled _ itemsEnv =>
                            match envData userEnv with
                            | None => dashboardFailure
                            | Some u =>
                                {| dashStatus := 200;
                                   dashBody :=
                                     DashboardData u
                                       (computeStats num_zero num_add num_truthy
                                          (default [] (envData listsEnv))
                                          (default [] (envData itemsEnv)))
                                       (default [] (envData listsEnv)) |}
                            end
                        end
                    end
                end = dashboardFailure).
    { destruct (axios (netUser net (userUrl ++ "/users/" ++ userId))) as [st1 userEnv|e1];
        [|reflexivity].
      destruct (axios (netLists net (listUrl ++ "/lists"))) as [st2 listsEnv|e2];
        [|reflexivity].
      destruct (axios (netItems net (itemUrl ++ "/items"))) as [st3 itemsEnv|e3];
        [|reflexivity].
      destruct Hfail as [[e H]|[[e H]|[e H]]]; discriminate. }
    rewrite E. split; [reflexivity|]. intros u stats lists. discriminate.
  - intros st1 userEnv u st2 listsEnv st3 itemsEnv H1 Hdata H2 H3.
    rewrite H1, H2, H3, Hdata. now rewrite computeStats_sums.
  - intros st1 userEnv st2 listsEnv st3 itemsEnv H1 Hdata H2 H3.
    now rewrite H1, H2, H3, Hdata.
Qed.

End DashboardFacts.

Section DashboardWitness.

Import Breaker Net Gateway.

(** The sample dashboard: two lists, three items, two purchased, 1749 cents
    estimated, two catalog items. *)
Lemma C8_dashboard_all_or_nothing_witness :
  response (dashboardHandler 0 Z.add Sample.nonZero Sample.registry Sample.dashboardNet "u1")
           Sample.startState
  = {| dashStatus := 200;
       dashBody :=
         DashboardData Sample.user
           {| totalLists := 2; totalItemsInLists := 3; totalPurchased := 2;
              totalEstimated := 1749; totalCatalogItems := 2 |}
           Sample.lists |}
  /\ response (dashboardHandler 0 Z.add Sample.nonZero Sample.registry
                                Sample.dashboardNetListsDown "u1")
              Sample.startState
     = {| dashStatus := 500;
          dashBody := DashboardMessage false "Erro ao agregar dados do dashboard" |}.
Proof.
  split.
  - destruct (C8_dashboard_all_or_nothing 0 Z.add Sample.nonZero
                Sample.registry Sample.dashboardNet "u1" Sample.startState
                "http://localhost:3001" "http://localhost:3003" "http://localhost:3002"
                eq_refl eq_refl eq_refl eq_refl eq_refl eq_refl) as (_ & Hok & _).
    exact (Hok 200 _ Sample.user 200 _ 200 _ eq_refl eq_refl eq_refl eq_refl).
  - destruct (C8_dashboard_all_or_nothing 0 Z.add Sample.nonZero
                Sample.registry Sample.dashboardNetListsDown "u1" Sample.startState
                "http://localhost:3001" "http://localhost:3003" "http://localhost:3002"
                eq_refl eq_refl eq_refl eq_refl eq_refl eq_refl) as (Hfail & _ & _).
    apply Hfail. right. left. now eexists.
Defined.

(** C8, as stated, fails: the three upstream calls are all fulfilled with
    status 200, the profile response carries no data, and the dashboard
    answers 500. *)
Lemma C8_counterexample_missing_profile :
  axios (netUser DashboardSample.netNoProfile ("http://localhost:3001" ++ "/users/" ++ "u1"))
  = Fulfilled 200 {| envSuccess := true; envData := None |}
  /\ axios (netLists DashboardSample.netNoProfile ("http://localhost:3003" ++ "/lists"))
     = Fulfilled 200 {| envSuccess := true; envData := Some Sample.lists |}
  /\ axios (netItems DashboardSample.netNoProfile ("http://localhost:3002" ++ "/items"))
     = Fulfilled 200 {| envSuccess := true; envData := Some ["arroz"; "feijao"] |}
  /\ callsMade (dashboardHandler 0 Z.add Sample.nonZero Sample.registry
                                 DashboardSample.netNoProfile "u1") Sample.startState
     = [NetworkCall "GET" "http://localhost:3001/users/u1";
        NetworkCall "GET" "http://localhost:3003/lists";
        NetworkCall "GET" "http://localhost:3002/items"]
  /\ response (dashboardHandler 0 Z.add Sample.nonZero Sample.registry
                                DashboardSample.netNoProfile "u1") Sample.startState
     = {| dashStatus := 500;
          dashBody := DashboardMessage false "Erro ao agregar dados do dashboard" |}.
Proof. repeat split. Qed.

End DashboardWitness.

(** * Further properties of the code *)

(** ** Circuit breaker: isolation, shape of the reachable states, timing *)

Section BreakerMore.

Import Breaker BreakerShape Sample.

Implicit Types (cb : gmap string CircuitState) (st : CircuitState).
Implicit Types (name other : string) (now : Z).

(** The admit decision for a name reads the entry of that name only. *)
Lemma canRequest_fst_entry cb cb' name now :
  cb !! name = cb' !! name -> fst (canRequest cb name now) = fst (canRequest cb' name now).
Proof.
  intros H. unfold canRequest. rewrite H. destruct (cb' !! name) as [st|]; [|reflexivity].
  destruct (negb (open st)); [reflexivity|].
  now destruct (CIRCUIT_TIMEOUT <? elapsed now st).
Qed.

(** X1: the breaker entries are independent. For two different names that
    are not inherited from [Object.prototype], an admit check, a recorded
    failure or a recorded success for one leaves the entry of the other as
    it was, and so leaves its admit decision unchanged. *)
Theorem X1_breaker_isolation cb name other now t :
  JsObject.inherited name = false ->
  JsObject.inherited other = false ->
  name <> other ->
  snd (canRequest cb name now) !! other = cb !! other
  /\ recordFailure cb name now !! other = cb !! other
  /\ recordSuccess cb name !! other = cb !! other
  /\ fst (canRequest (snd (canRequest cb name now)) other t) = fst (canRequest cb other t)
  /\ fst (canRequest (recordFailure cb name now) other t) = fst (canRequest cb other t)
  /\ fst (canRequest (recordSuccess cb name) other t) = fst (canRequest cb other t).
Proof.
  intros _ _ Hne.
  pose proof (step_other cb (OpAdmit name now) other Hne) as Ha.
  pose proof (step_other cb (OpFailure name now) other Hne) as Hf.
  pose proof (step_other cb (OpSuccess name) other Hne) as Hs.
  simpl in Ha, Hf, Hs.
  repeat split; try assumption; now apply canRequest_fst_entry.
Qed.

Lemma X1_breaker_isolation_witness :
  snd (canRequest (<["user-service" := openedAt 0]> circuitBreaker) "user-service" 70000)
    !! "item-service" = (<["user-service" := openedAt 0]> circuitBreaker) !! "item-service"
  /\ recordFailure (<["user-service" := openedAt 0]> circuitBreaker) "user-service" 70000
       !! "item-service" = (<["user-service" := openedAt 0]> circuitBreaker) !! "item-service"
  /\ recordSuccess (<["user-service" := openedAt 0]> circuitBreaker) "user-service"
       !! "item-service" = (<["user-service" := openedAt 0]> circuitBreaker) !! "item-service"
  /\ fst (canRequest (snd (canRequest (<["user-service" := openedAt 0]> circuitBreaker)
                                      "user-service" 70000)) "item-service" 5)
     = fst (canRequest (<["user-service" := openedAt 0]> circuitBreaker) "item-service" 5)
  /\ fst (canRequest (recordFailure (<["user-service" := openedAt 0]> circuitBreaker)
                                    "user-service" 70000) "item-service" 5)
     = fst (canRequest (<["user-service" := openedAt 0]> circuitBreaker) "item-service" 5)
  /\ fst (canRequest (recordSuccess (<["user-service" := openedAt 0]> circuitBreaker)
                                    "user-service") "item-service" 5)
     = fst (canRequest (<["user-service" := openedAt 0]> circuitBreaker) "item-service" 5).
Proof.
  apply (X1_breaker_isolation (<["user-service" := openedAt 0]> circuitBreaker)
           "user-service" "item-service" 70000 5).
  - reflexivity.
  - reflexivity.
  - discriminate.
Defined.

Lemma failedState_tight now st : state_tight st -> state_tight (failedState now st).
Proof.
  unfold state_tight, failedState. cbv zeta. intros [H0 Hiff].
  destruct (MAX_FAILURES <=? failures st + 1) eqn:E; simpl.
  - apply Z.leb_le in E. split; [lia|]. now split.
  - apply Z.leb_gt in E. split; [lia|]. split.
    + intros Ho. apply Hiff in Ho. lia.
    + intros H. lia.
Qed.

Lemma resetState_tight st : state_tight (resetState st).
Proof.
  unfold state_tight, resetState, MAX_FAILURES. simpl. split; [lia|].
  split; [discriminate|lia].
Qed.

Lemma step_tight cb op :
  (forall name st, cb !! name = Some st -> state_tight st) ->
  forall name st, step cb op !! name = Some st -> state_tight st.
Proof.
  intros Hinv name st.
  destruct op as [n now|n now|n]; simpl.
  - unfold canRequest. destruct (cb !! n) as [st0|] eqn:E; [|apply Hinv].
    destruct (negb (open st0)); [apply Hinv|].
    destruct (CIRCUIT_TIMEOUT <? elapsed now st0); simpl; [|apply Hinv].
    rewrite lookup_insert. case_decide.
    + intros [= <-]. apply resetState_tight.
    + apply Hinv.
  - unfold recordFailure. destruct (cb !! n) as [st0|] eqn:E; [|apply Hinv].
    rewrite lookup_insert. case_decide.
    + intros [= <-]. apply failedState_tight. now apply (Hinv n).
    + apply Hinv.
  - unfold recordSuccess. destruct (cb !! n) as [st0|] eqn:E; [|apply Hinv].
    rewrite lookup_insert. case_decide.
    + intros [= <-]. apply resetState_tight.
    + apply Hinv.
Qed.

(** X2: in every reachable state, the failure count of an entry is not
    negative and the entry is open exactly when the count has reached
    [MAX_FAILURES]; so a closed entry always counts fewer than three
    failures. *)
Theorem X2_open_iff_threshold cb name st :
  reachable cb ->
  cb !! name = Some st ->
  0 <= failures st
  /\ (open st = true <-> MAX_FAILURES <= failures st)
  /\ (open st = false -> failures st < MAX_FAILURES).
Proof.
  intros Hr. revert name st.
  assert (H : forall name st, cb !! name = Some st -> state_tight st).
  { induction Hr as [|cb op _ IH].
    - intros name st. unfold circuitBreaker. rewrite !lookup_insert.
      repeat case_decide; intros [= <-]; unfold state_tight, MAX_FAILURES; simpl;
        (split; [lia|split; [discriminate|lia]]).
    - now apply step_tight. }
  intros name st Hl. destruct (H name st Hl) as [H0 Hiff].
  split; [exact H0|]. split; [exact Hiff|].
  intros Hc. destruct (Z.lt_ge_cases (failures st) MAX_FAILURES) as [Hlt|Hge]; [exact Hlt|].
  apply Hiff in Hge. congruence.
Qed.

Lemma X2_open_iff_threshold_witness :
  0 <= failures {| failures := 2; open := false; lastFail := None |}
  /\ (open {| failures := 2; open := false; lastFail := None |} = true
      <-> MAX_FAILURES <= failures {| failures := 2; open := false; lastFail := None |})
  /\ (open {| failures := 2; open := false; lastFail := None |} = false ->
      failures {| failures := 2; open := false; lastFail := None |} < MAX_FAILURES).
Proof.
  apply (X2_open_iff_threshold
           (run [OpFailure "list-service" 10; OpFailure "list-service" 20] circuitBreaker)
           "list-service" {| failures := 2; open := false; lastFail := None |}).
  - apply reachable_run.
  - reflexivity.
Defined.

Lemma step_tracked cb op name :
  is_Some (step cb op !! name) <-> is_Some (cb !! name).
Proof.
  destruct (cb !! name) as [st|] eqn:E.
  - split; [now eexists|]. intros _.
    destruct (decide ((match op with OpAdmit n _ | OpFailure n _ | OpSuccess n => n end) = name))
      as [He|Hne].
    + destruct op as [n now|n now|n]; simpl in *; subst n.
      * unfold canRequest. rewrite E. destruct (negb (open st)); simpl; [now rewrite E|].
        destruct (CIRCUIT_TIMEOUT <? elapsed now st); simpl; [|now rewrite E].
        rewrite lookup_insert_eq. now eexists.
      * unfold recordFailure. rewrite E, lookup_insert_eq. now eexists.
      * unfold recordSuccess. rewrite E, lookup_insert_eq. now eexists.
    + rewrite step_other by exact Hne. now rewrite E.
  - rewrite (step_untracked cb op name E). reflexivity.
Qed.

(** X3: the set of tracked services never changes. In every reachable state
    exactly the three names [circuitBreaker] is created with have an entry:
    no admit check or recorded outcome, for any name, adds or removes one. *)
Theorem X3_tracked_names_fixed cb name :
  reachable cb ->
  (is_Some (cb !! name) <-> name ∈ trackedNames).
Proof.
  induction 1 as [|cb op _ IH].
  - unfold circuitBreaker, trackedNames. rewrite !lookup_insert.
    repeat case_decide; subst.
    + split; [intros _|now eexists]. apply list_elem_of_here.
    + split; [intros _|now eexists]. do 1 apply list_elem_of_further. apply list_elem_of_here.
    + split; [intros _|now eexists]. do 2 apply list_elem_of_further. apply list_elem_of_here.
    + rewrite lookup_empty. split; [intros [x Hx]; discriminate|].
      intros Hin. repeat (apply elem_of_cons in Hin; destruct Hin as [->|Hin]; [congruence|]).
      now apply elem_of_nil in Hin.
  - now rewrite step_tracked.
Qed.

Lemma X3_tracked_names_fixed_witness :
  is_Some (run [OpFailure "payment-service" 1; OpSuccess "item-service";
                OpAdmit "list-service" 2] circuitBreaker !! "payment-service")
  <-> "payment-service" ∈ trackedNames.
Proof.
  apply (X3_tracked_names_fixed
           (run [OpFailure "payment-service" 1; OpSuccess "item-service";
                 OpAdmit "list-service" 2] circuitBreaker) "payment-service").
  apply reachable_run.
Defined.

(** X4: a failure recorded while the breaker is already open (a request that
    was in flight when it opened) restarts the open window: [lastFail] moves
    to the clock of that failure, and admit checks are rejected until more
    than [CIRCUIT_TIMEOUT] has elapsed since it, whatever the earlier
    [lastFail] was. *)
Theorem X4_failure_while_open_restarts_window cb name st t now :
  reachable cb ->
  cb !! name = Some st ->
  open st = true ->
  now - t <= CIRCUIT_TIMEOUT ->
  recordFailure cb name t !! name
  = Some {| failures := failures st + 1; open := true; lastFail := Some t |}
  /\ canRequest (recordFailure cb name t) name now = (false, recordFailure cb name t).
Proof.
  intros Hr Hl Ho Hnow.
  destruct (reachable_ok cb Hr name st Hl Ho) as [Hge _].
  assert (E : failedState t st
              = {| failures := failures st + 1; open := true; lastFail := Some t |}).
  { unfold failedState. cbv zeta.
    destruct (MAX_FAILURES <=? failures st + 1) eqn:E; [reflexivity|].
    apply Z.leb_gt in E. lia. }
  pose proof (recordFailure_lookup cb name st t Hl) as H. rewrite E in H.
  split; [exact H|].
  rewrite (canRequest_open _ _ _ now H eq_refl). unfold elapsed, lastFailNumber. simpl.
  destruct (CIRCUIT_TIMEOUT <? now - t) eqn:E'; [|reflexivity].
  apply Z.ltb_lt in E'. lia.
Qed.

Lemma X4_failure_while_open_restarts_window_witness :
  recordFailure (run [OpFailure "list-service" 10; OpFailure "list-service" 20;
                      OpFailure "list-service" 30] circuitBreaker) "list-service" 50000
    !! "list-service"
  = Some {| failures := failures (openedAt 30) + 1; open := true; lastFail := Some 50000 |}
  /\ canRequest (recordFailure (run [OpFailure "list-service" 10; OpFailure "list-service" 20;
                                     OpFailure "list-service" 30] circuitBreaker)
                               "list-service" 50000) "list-service" 100000
     = (false, recordFailure (run [OpFailure "list-service" 10; OpFailure "list-service" 20;
                                   OpFailure "list-service" 30] circuitBreaker)
                             "list-service" 50000).
Proof.
  apply (X4_failure_while_open_restarts_window
           (run [OpFailure "list-service" 10; OpFailure "list-service" 20;
                 OpFailure "list-service" 30] circuitBreaker)
           "list-service" (openedAt 30) 50000 100000).
  - apply reachable_run.
  - reflexivity.
  - reflexivity.
  - unfold CIRCUIT_TIMEOUT. lia.
Defined.

(** X5: admission only widens with the clock. If a service is admitted at
    some time it is admitted at every later time from the same state; and
    once an admit check has passed, every further check passes whatever the
    clock reads (even one that went backwards), until a failure is
    recorded. *)
Theorem X5_admission_monotone cb name now later any :
  fst (canRequest cb name now) = true ->
  now <= later ->
  fst (canRequest cb name later) = true
  /\ canRequest (snd (canRequest cb name now)) name any
     = (true, snd (canRequest cb name now)).
Proof.
  intros Hadm Hle. unfold canRequest in *.
  destruct (cb !! name) as [st|] eqn:E; [|simpl; rewrite E; now split].
  destruct (open st) eqn:Ho; simpl in *.
  - destruct (CIRCUIT_TIMEOUT <? elapsed now st) eqn:Et; [|discriminate].
    apply Z.ltb_lt in Et. unfold elapsed in *. split.
    + destruct (CIRCUIT_TIMEOUT <? later - lastFailNumber st) eqn:El; [reflexivity|].
      apply Z.ltb_ge in El. lia.
    + simpl. rewrite lookup_insert_eq. reflexivity.
  - split; [reflexivity|]. now rewrite E, Ho.
Qed.

Lemma X5_admission_monotone_witness :
  fst (canRequest (<["user-service" := openedAt 0]> circuitBreaker) "user-service" 90000) = true
  /\ canRequest (snd (canRequest (<["user-service" := openedAt 0]> circuitBreaker)
                                 "user-service" 60001)) "user-service" 5
     = (true, snd (canRequest (<["user-service" := openedAt 0]> circuitBreaker)
                              "user-service" 60001)).
Proof.
  apply (X5_admission_monotone (<["user-service" := openedAt 0]> circuitBreaker)
           "user-service" 60001 90000 5).
  - reflexivity.
  - lia.
Defined.

End BreakerMore.

(** ** JavaScript string operations *)

Section StringFacts.

Lemma prefix_app (p s : string) : String.prefix p (p ++ s) = true.
Proof.
  induction p as [|c p IH]; simpl; [now destruct s|].
  destruct (ascii_dec c c) as [_|Hne]; [exact IH|now destruct Hne].
Qed.

Lemma startsWith_app (p s : string) : JsString.startsWith (p ++ s) p = true.
Proof. apply prefix_app. Qed.

Lemma slice_app (p s : string) : JsString.slice (String.length p) (p ++ s) = s.
Proof. induction p as [|c p IH]; simpl; [now destruct s|exact IH]. Qed.

(** A string that starts with [p] is [p] followed by its slice. *)
Lemma startsWith_split (s p : string) :
  JsString.startsWith s p = true -> s = p ++ JsString.slice (String.length p) s.
Proof.
  unfold JsString.startsWith. revert s.
  induction p as [|c p IH]; intros s H; simpl; [now destruct s|].
  destruct s as [|d s]; [discriminate|]. cbn -[ascii_dec] in H.
  destruct (ascii_dec c d) as [<-|_]; [|discriminate].
  change (String c s = String c (p ++ JsString.slice (String.length p) s)).
  f_equal. now apply IH.
Qed.

Lemma replace_unfold (pat rep s : string) :
  JsString.replace pat rep s =
    if String.prefix pat s then rep ++ JsString.slice (String.length pat) s
    else match s with
         | EmptyString => EmptyString
         | String c s' => String c (JsString.replace pat rep s')
         end.
Proof. destruct s; reflexivity. Qed.

(** Replacing a pattern the string starts with replaces that prefix. *)
Lemma replace_prefix (pat rep s : string) :
  JsString.replace pat rep (pat ++ s) = rep ++ s.
Proof. now rewrite replace_unfold, prefix_app, slice_app. Qed.

Lemma endsWithSlash_app_slash (b : string) : JsString.endsWithSlash (b ++ "/") = true.
Proof.
  induction b as [|c b IH]; [reflexivity|].
  simpl. destruct (b ++ "/") eqn:E; [now destruct b|exact IH].
Qed.

Lemma dropLast_app_slash (b : string) : JsString.dropLast (b ++ "/") = b.
Proof.
  induction b as [|c b IH]; [reflexivity|].
  simpl. destruct (b ++ "/") eqn:E; [now destruct b|]. now rewrite IH.
Qed.

End StringFacts.

(** ** Reverse proxy: what is sent, and how it drives the breaker *)

Section ProxyMore.

Import Breaker Net Gateway.

Context {Json : Type}.

Implicit Types (registry : gmap string ServiceRecord) (s : GwState).
Implicit Types (req : Request Json) (config : AxiosConfig Json).
Implicit Types (net : AxiosConfig Json -> Outcome Json).

(** The request [proxyRequest] builds once the service is admitted and its
    URL found. *)
Lemma proxyDispatch_config registry name req prefix now s config :
  fst (proxyDispatch registry name req prefix now s) = inr config ->
  exists b,
    getServiceUrl registry name = Some b /\ JsString.truthy b = true
    /\ fst (canRequest (breaker s) name now) = true
    /\ config =
       {| cfgMethod := method req;
          cfgUrl := (if JsString.endsWithSlash b then JsString.dropLast b else b) ++
                    (if JsString.startsWith (Rewrite.getTargetPath (originalUrl req) prefix) "/"
                     then Rewrite.getTargetPath (originalUrl req) prefix
                     else "/" ++ Rewrite.getTargetPath (originalUrl req) prefix);
          cfgHeaders := forwardHeaders (headers req);
          cfgData := if hasBody (method req) then Some (body req) else None |}.
Proof.
  unfold proxyDispatch, bind, canRequestM, ret.
  destruct (canRequest (breaker s) name now) as [ok cb]. simpl.
  destruct ok; simpl; [|discriminate].
  destruct (getServiceUrl registry name) as [b|] eqn:Eb; simpl; [|discriminate].
  destruct (JsString.truthy b) eqn:Et; simpl; [|discriminate].
  intros [= <-]. exists b. split; [reflexivity|]. split; [exact Et|].
  split; reflexivity.
Qed.

Lemma filter_sublist {A : Type} (f : A -> bool) (l : list A) :
  sublist (List.filter f l) l.
Proof.
  induction l as [|x l IH]; simpl; [constructor|].
  destruct (f x); now constructor.
Qed.

Lemma hasBody_spec (m : string) :
  hasBody m = true <-> In (JsString.toUpperCase m) ["POST"; "PUT"; "PATCH"].
Proof.
  unfold hasBody. rewrite existsb_exists. split.
  - intros (x & Hin & Heq). apply String.eqb_eq in Heq. now subst x.
  - intros Hin. exists (JsString.toUpperCase m). split; [exact Hin|apply String.eqb_refl].
Qed.

(** X6: of the inbound request, the proxy forwards the method as it is, every
    header except [host] and [content-length] (the others, [authorization]
    included, in their order), and the body exactly when the method, in
    upper case, is POST, PUT or PATCH; for any other method no body is
    sent. *)
Theorem X6_forwarded_method_headers_body registry name req prefix now s config :
  fst (proxyDispatch registry name req prefix now s) = inr config ->
  cfgMethod config = method req
  /\ (forall k v, In (k, v) (cfgHeaders config)
                  <-> In (k, v) (headers req) /\ k <> "host" /\ k <> "content-length")
  /\ sublist (cfgHeaders config) (headers req)
  /\ (In (JsString.toUpperCase (method req)) ["POST"; "PUT"; "PATCH"] ->
        cfgData config = Some (body req))
  /\ (~ In (JsString.toUpperCase (method req)) ["POST"; "PUT"; "PATCH"] ->
        cfgData config = None).
Proof.
  intros H. destruct (proxyDispatch_config _ _ _ _ _ _ _ H) as (b & _ & _ & _ & ->).
  simpl. split; [reflexivity|]. split; [|split; [apply filter_sublist|]].
  - intros k v. unfold forwardHeaders. rewrite filter_In. simpl.
    rewrite negb_true_iff, orb_false_iff, !String.eqb_neq. tauto.
  - split.
    + intros Hin. apply hasBody_spec in Hin. now rewrite Hin.
    + intros Hnin. destruct (hasBody (method req)) eqn:E; [|reflexivity].
      apply hasBody_spec in E. now destruct Hnin.
Qed.

Lemma oneLeadingSlash_startsWith (p : string) :
  Rewrite.oneLeadingSlash p = true -> JsString.startsWith p "/" = true.
Proof.
  destruct p as [|c p]; [discriminate|]. rewrite startsWith_slash.
  unfold Rewrite.oneLeadingSlash.
  destruct (Ascii.eqb_spec c "/") as [->|Hc]; [reflexivity|].
  destruct c as [[] [] [] [] [] [] [] []]; try discriminate. now destruct Hc.
Qed.

(** X7: the URL requested is the registered base URL without one trailing
    ['/'], followed by a path that always begins with ['/']: the rewritten
    path itself when it begins with ['/'] (always so for a path under one
    of the four routes), and otherwise the rewritten path with ['/'] put
    before it. *)
Theorem X7_target_url registry name req prefix now s config b :
  getServiceUrl registry name = Some b ->
  fst (proxyDispatch registry name req prefix now s) = inr config ->
  (exists path,
      cfgUrl config = (if JsString.endsWithSlash b then JsString.dropLast b else b) ++ path
      /\ JsString.startsWith path "/" = true
      /\ (path = Rewrite.getTargetPath (originalUrl req) prefix
          \/ (JsString.startsWith (Rewrite.getTargetPath (originalUrl req) prefix) "/" = false
              /\ path = "/" ++ Rewrite.getTargetPath (originalUrl req) prefix)))
  /\ (forall r rest,
        prefix = Rewrite.routePrefix r -> originalUrl req = Rewrite.routePrefix r ++ rest ->
        cfgUrl config = (if JsString.endsWithSlash b then JsString.dropLast b else b) ++ Rewrite.getTargetPath (originalUrl req) prefix).
Proof.
  intros Hb H.
  destruct (proxyDispatch_config _ _ _ _ _ _ _ H) as (b' & Hb' & _ & _ & ->).
  rewrite Hb in Hb'. injection Hb' as <-. simpl. split.
  - destruct (JsString.startsWith (Rewrite.getTargetPath (originalUrl req) prefix) "/") eqn:E.
    + eexists. split; [reflexivity|]. split; [exact E|now left].
    + eexists. split; [reflexivity|]. split; [apply startsWith_slash|]. right. now split.
  - intros r rest -> Hu. rewrite Hu.
    assert (E : JsString.startsWith
                  (Rewrite.getTargetPath (Rewrite.routePrefix r ++ rest) (Rewrite.routePrefix r))
                  "/" = true).
    { apply oneLeadingSlash_startsWith. rewrite getTargetPath_under_prefix.
      destruct rest as [|c rest']; [now destruct r|].
      destruct (Ascii.eqb c "/"); [destruct rest'; [now destruct r|]|];
        apply oneLeadingSlash_backendRoot. }
    now rewrite E.
Qed.

(** X8: registering a base URL with or without one trailing ['/'] makes no
    difference to the proxy: the same request is built. *)
Theorem X8_base_trailing_slash registry name rec req prefix now s :
  JsString.truthy (url rec) = true ->
  JsString.endsWithSlash (url rec) = false ->
  fst (proxyDispatch
         (<[name := {| url := url rec ++ "/"; version := version rec;
                       endpoints := endpoints rec; healthy := healthy rec |}]> registry)
         name req prefix now s)
  = fst (proxyDispatch (<[name := rec]> registry) name req prefix now s).
Proof.
  intros Ht He. unfold proxyDispatch, bind, canRequestM, ret.
  destruct (canRequest (breaker s) name now) as [ok cb]. simpl.
  destruct ok; simpl; [|reflexivity].
  unfold getServiceUrl, discover. rewrite !lookup_insert_eq. simpl.
  rewrite Ht. assert (Ht' : JsString.truthy (url rec ++ "/") = true) by now destruct (url rec).
  rewrite Ht'. simpl.
  change (default "" (Some (url rec ++ "/"))) with (url rec ++ "/").
  change (default "" (Some (url rec))) with (url rec).
  now rewrite endsWithSlash_app_slash, dropLast_app_slash, He.
Qed.

(** A forward that the breaker admits on a closed entry and that fails
    (status outside 2xx, or no response) records exactly one failure. *)
Lemma failed_forward_breaker registry net name req prefix a t s st b :
  breaker s !! name = Some st -> open st = false ->
  getServiceUrl registry name = Some b -> JsString.truthy b = true ->
  (forall config, exists e, axios (net config) = Rejected e) ->
  breaker (finalState (proxyRequest registry net name req prefix a t) s)
  = recordFailure (breaker s) name t.
Proof.
  intros Hl Ho Hb Ht Hnet.
  pose proof (canRequest_closed _ _ _ a Hl Ho) as Hc.
  destruct (proxyDispatch_spec registry name req prefix a s) as (_ & _ & _ & _ & Hsend).
  destruct Hsend as [config Hcfg].
  { now rewrite Hc. }
  { unfold noUrl. now rewrite Hb, Ht. }
  pose proof (proxyRequest_sent registry net name req prefix a t s config Hcfg) as E.
  cbv zeta in E. unfold finalState. rewrite E, Hc. simpl.
  destruct (Hnet config) as [e He]. unfold axios in He.
  destruct (net config) as [st' data|msg]; [|reflexivity].
  destruct (validateStatus st'); [discriminate|reflexivity].
Qed.

(** X9: the proxy opens the breaker by itself. From a closed entry with no
    failure, three forwards in a row that fail (a status outside 2xx or no
    response) leave the entry open with [lastFail] at the third failure, and
    the next request for that service, while no more than [CIRCUIT_TIMEOUT]
    has elapsed, is answered 503 by the gateway without any call being
    made. *)
Theorem X9_three_failed_forwards_open
    registry net net' name req req' prefix prefix' b st s a1 t1 a2 t2 a3 t3 a4 t4 :
  breaker s !! name = Some st -> failures st = 0 -> open st = false ->
  getServiceUrl registry name = Some b -> JsString.truthy b = true ->
  (forall config, exists e, axios (net config) = Rejected e) ->
  a4 - t3 <= CIRCUIT_TIMEOUT ->
  breaker (finalState (proxyRequest registry net name req prefix a3 t3)
             (finalState (proxyRequest registry net name req prefix a2 t2)
                (finalState (proxyRequest registry net name req prefix a1 t1) s))) !! name
  = Some {| failures := 3; open := true; lastFail := Some t3 |}
  /\ response (proxyRequest registry net' name req' prefix' a4 t4)
       (finalState (proxyRequest registry net name req prefix a3 t3)
          (finalState (proxyRequest registry net name req prefix a2 t2)
             (finalState (proxyRequest registry net name req prefix a1 t1) s)))
     = breakerOpenResponse
  /\ callsMade (proxyRequest registry net' name req' prefix' a4 t4)
       (finalState (proxyRequest registry net name req prefix a3 t3)
          (finalState (proxyRequest registry net name req prefix a2 t2)
             (finalState (proxyRequest registry net name req prefix a1 t1) s)))
     = [].
Proof.
  intros Hl Hf Ho Hb Ht Hnet Hwin.
  set (s1 := finalState (proxyRequest registry net name req prefix a1 t1) s).
  set (s2 := finalState (proxyRequest registry net name req prefix a2 t2) s1).
  set (s3 := finalState (proxyRequest registry net name req prefix a3 t3) s2).
  assert (H1 : breaker s1 !! name
               = Some {| failures := 1; open := false; lastFail := lastFail st |}).
  { unfold s1. rewrite (failed_forward_breaker _ _ _ _ _ _ _ _ st b Hl Ho Hb Ht Hnet).
    rewrite (recordFailure_lookup _ _ _ _ Hl). unfold failedState. simpl.
    now rewrite Hf, Ho. }
  assert (H2 : breaker s2 !! name
               = Some {| failures := 2; open := false; lastFail := lastFail st |}).
  { unfold s2. rewrite (failed_forward_breaker _ _ _ _ _ _ _ _ _ b H1 eq_refl Hb Ht Hnet).
    now rewrite (recordFailure_lookup _ _ _ _ H1). }
  assert (H3 : breaker s3 !! name
               = Some {| failures := 3; open := true; lastFail := Some t3 |}).
  { unfold s3. rewrite (failed_forward_breaker _ _ _ _ _ _ _ _ _ b H2 eq_refl Hb Ht Hnet).
    now rewrite (recordFailure_lookup _ _ _ _ H2). }
  split; [exact H3|].
  assert (Hrej : fst (canRequest (breaker s3) name a4) = false).
  { rewrite (canRequest_open _ _ _ a4 H3 eq_refl). unfold elapsed, lastFailNumber. simpl.
    destruct (CIRCUIT_TIMEOUT <? a4 - t3) eqn:E; [|reflexivity].
    apply Z.ltb_lt in E. lia. }
  destruct (proxyDispatch_spec registry name req' prefix' a4 s3) as (Hc & _ & Hopen & _).
  specialize (Hopen Hrej).
  pose proof (proxyRequest_short registry net' name req' prefix' a4 t4 s3 _ Hopen) as E.
  split.
  - unfold response. now rewrite E.
  - apply callsMade_unchanged. unfold finalState. now rewrite E.
Qed.

End ProxyMore.

Section ProxyMoreWitnesses.

Import Breaker Net Gateway.

Lemma X6_forwarded_method_headers_body_witness :
  cfgMethod {| cfgMethod := "GET"; cfgUrl := "http://localhost:3002/items/42?x=1";
               cfgHeaders := [("authorization", "Bearer t")]; cfgData := @None string |}
  = method Sample.getItem
  /\ (forall k v,
        In (k, v) (cfgHeaders {| cfgMethod := "GET";
                                 cfgUrl := "http://localhost:3002/items/42?x=1";
                                 cfgHeaders := [("authorization", "Bearer t")];
                                 cfgData := @None string |})
        <-> In (k, v) (headers Sample.getItem) /\ k <> "host" /\ k <> "content-length")
  /\ sublist (cfgHeaders {| cfgMethod := "GET";
                            cfgUrl := "http://localhost:3002/items/42?x=1";
                            cfgHeaders := [("authorization", "Bearer t")];
                            cfgData := @None string |})
             (headers Sample.getItem)
  /\ (In (JsString.toUpperCase (method Sample.getItem)) ["POST"; "PUT"; "PATCH"] ->
        cfgData {| cfgMethod := "GET"; cfgUrl := "http://localhost:3002/items/42?x=1";
                   cfgHeaders := [("authorization", "Bearer t")]; cfgData := @None string |}
        = Some (body Sample.getItem))
  /\ (~ In (JsString.toUpperCase (method Sample.getItem)) ["POST"; "PUT"; "PATCH"] ->
        cfgData {| cfgMethod := "GET"; cfgUrl := "http://localhost:3002/items/42?x=1";
                   cfgHeaders := [("authorization", "Bearer t")]; cfgData := @None string |}
        = None).
Proof.
  apply (X6_forwarded_method_headers_body Sample.registry "item-service" Sample.getItem
           "/api/items" 0 Sample.startState).
  reflexivity.
Defined.

Lemma X7_target_url_witness :
  cfgUrl {| cfgMethod := "GET"; cfgUrl := "http://localhost:3002/items/42?x=1";
            cfgHeaders := [("authorization", "Bearer t")]; cfgData := @None string |}
  = "http://localhost:3002" ++ Rewrite.getTargetPath (originalUrl Sample.getItem) "/api/items".
Proof.
  destruct (X7_target_url Sample.registry "item-service" Sample.getItem "/api/items" 0
              Sample.startState
              {| cfgMethod := "GET"; cfgUrl := "http://localhost:3002/items/42?x=1";
                 cfgHeaders := [("authorization", "Bearer t")]; cfgData := None |}
              "http://localhost:3002" eq_refl eq_refl) as [_ H].
  exact (H Rewrite.ItemsRoute "/42?x=1" eq_refl eq_refl).
Defined.

Lemma X8_base_trailing_slash_witness :
  fst (proxyDispatch
         (<["item-service" :=
              {| url := url (Sample.serviceAt "http://localhost:3002") ++ "/";
                 version := version (Sample.serviceAt "http://localhost:3002");
                 endpoints := endpoints (Sample.serviceAt "http://localhost:3002");
                 healthy := healthy (Sample.serviceAt "http://localhost:3002") |}]>
            Sample.registry)
         "item-service" Sample.getItem "/api/items" 0 Sample.startState)
  = fst (proxyDispatch
           (<["item-service" := Sample.serviceAt "http://localhost:3002"]> Sample.registry)
           "item-service" Sample.getItem "/api/items" 0 Sample.startState).
Proof.
  apply (X8_base_trailing_slash Sample.registry "item-service"
           (Sample.serviceAt "http://localhost:3002") Sample.getItem "/api/items" 0
           Sample.startState); reflexivity.
Defined.

Lemma X9_three_failed_forwards_open_witness :
  response (proxyRequest Sample.registry (fun _ => Answered 200 "{}") "item-service"
                         Sample.getItem "/api/items" 40 41)
    (finalState (proxyRequest Sample.registry (fun _ => Answered 503 "{}") "item-service"
                              Sample.getItem "/api/items" 30 31)
       (finalState (proxyRequest Sample.registry (fun _ => Answered 503 "{}") "item-service"
                                 Sample.getItem "/api/items" 20 21)
          (finalState (proxyRequest Sample.registry (fun _ => Answered 503 "{}")
                                    "item-service" Sample.getItem "/api/items" 10 11)
                      Sample.startState)))
  = breakerOpenResponse.
Proof.
  apply (X9_three_failed_forwards_open Sample.registry (fun _ => Answered 503 "{}")
           (fun _ => Answered 200 "{}") "item-service" Sample.getItem Sample.getItem
           "/api/items" "/api/items" "http://localhost:3002" closedState Sample.startState
           10 11 20 21 30 31 40 41).
  - reflexivity.
  - reflexivity.
  - reflexivity.
  - reflexivity.
  - reflexivity.
  - intros config. now eexists.
  - unfold CIRCUIT_TIMEOUT. lia.
Defined.

End ProxyMoreWitnesses.

(** ** Path rewrite for any prefix *)

Section RewriteMore.

Import Rewrite.

(** X10: the rewrite does not depend on the four routes. For every prefix
    that begins with [/api] and every path under it, the result is the rest
    of the prefix followed by the remainder (dropped when it is empty or
    ["/"], with ['/'] put before it when it lacks one); and a path that does
    not start with the prefix is returned unchanged. *)
Theorem X10_rewrite_any_prefix (p rest originalUrl pathPrefix : string) :
  (rest = "" \/ rest = "/" -> getTargetPath (("/api" ++ p) ++ rest) ("/api" ++ p) = p)
  /\ (JsString.startsWith rest "/" = true -> rest <> "/" ->
        getTargetPath (("/api" ++ p) ++ rest) ("/api" ++ p) = p ++ rest)
  /\ (rest <> "" -> JsString.startsWith rest "/" = false ->
        getTargetPath (("/api" ++ p) ++ rest) ("/api" ++ p) = p ++ "/" ++ rest)
  /\ (JsString.startsWith originalUrl pathPrefix = false ->
        getTargetPath originalUrl pathPrefix = originalUrl).
Proof.
  assert (E : getTargetPath (("/api" ++ p) ++ rest) ("/api" ++ p) =
              if (String.eqb rest "" || String.eqb rest "/")%bool then p
              else if negb (JsString.startsWith rest "/") then p ++ "/" ++ rest
                   else p ++ rest).
  { unfold getTargetPath. rewrite startsWith_app, slice_app.
    rewrite (replace_prefix "/api" "" p).
    change ("" ++ p) with p.
    destruct (String.eqb rest "" || String.eqb rest "/")%bool; [reflexivity|].
    now destruct (JsString.startsWith rest "/"). }
  rewrite E. split; [|split; [|split]].
  - intros [->| ->]; reflexivity.
  - intros Hs Hne. rewrite Hs.
    destruct (String.eqb_spec rest "") as [->|_]; [discriminate|].
    destruct (String.eqb_spec rest "/") as [->|_]; [now destruct Hne|reflexivity].
  - intros Hne Hs. rewrite Hs.
    destruct (String.eqb_spec rest "") as [->|_]; [now destruct Hne|].
    destruct (String.eqb_spec rest "/") as [->|_]; [discriminate|reflexivity].
  - intros H. unfold getTargetPath. now rewrite H.
Qed.

End RewriteMore.

(** ** Bearer-token middleware *)

Section MiddlewareFacts.

Import Search.

Context {Claims : Type}.

(** X11: the middleware lets a request through exactly when the
    [Authorization] header is ["Bearer "] followed by a token that [verify]
    accepts, and it hands [verify] exactly what follows that first
    ["Bearer "]. Every other request is answered 401; when the header is
    absent or does not start with ["Bearer "], the answer is
    ["Token obrigatório"] whatever [verify] would say. *)
Theorem X11_bearer_token (verify : string -> option Claims) (authHeader : option string)
    (user : Claims) :
  (jwtAuthMiddleware verify authHeader = Next user
     <-> exists token, authHeader = Some ("Bearer " ++ token) /\ verify token = Some user)
  /\ (forall status message,
        jwtAuthMiddleware verify authHeader = Denied status message -> status = 401)
  /\ (authHeader = None
      \/ (exists h, authHeader = Some h /\ JsString.startsWith h "Bearer " = false) ->
      forall verify' : string -> option Claims,
        jwtAuthMiddleware verify' authHeader = Denied 401 "Token obrigatório").
Proof.
  split; [|split].
  - split.
    + destruct authHeader as [h|]; [|discriminate]. unfold jwtAuthMiddleware.
      destruct (JsString.startsWith h "Bearer ") eqn:E; [|discriminate]. cbn [negb].
      apply startsWith_split in E.
      remember (JsString.slice (String.length "Bearer ") h) as token eqn:Et.
      clear Et. subst h. rewrite (replace_prefix "Bearer " "" token).
      change ("" ++ token) with token.
      destruct (verify token) as [u|] eqn:Ev; [|discriminate].
      intros [= <-]. exists token. split; [reflexivity|exact Ev].
    + intros (token & -> & Hv). unfold jwtAuthMiddleware.
      rewrite (startsWith_app "Bearer " token). cbn [negb].
      rewrite (replace_prefix "Bearer " "" token).
      change ("" ++ token) with token. now rewrite Hv.
  - intros status message. destruct authHeader as [h|]; simpl; [|now intros [= <- _]].
    destruct (JsString.startsWith h "Bearer "); simpl; [|now intros [= <- _]].
    destruct (verify _); [discriminate|now intros [= <- _]].
  - intros [->|(h & -> & E)] verify'; [reflexivity|]. simpl. now rewrite E.
Qed.

End MiddlewareFacts.

(** ** [encodeURIComponent] *)

Section EncodeFacts.

Import Search.

Lemma encodeByte_checked (c : ascii) :
  forallb (fun d => unreserved d || Ascii.eqb d "%")%bool
          (list_ascii_of_string (encodeByte c)) = true.
Proof. destruct c as [[] [] [] [] [] [] [] []]; vm_compute; reflexivity. Qed.

Lemma encodeByte_chars (c d : ascii) :
  In d (list_ascii_of_string (encodeByte c)) -> unreserved d = true \/ d = "%"%char.
Proof.
  intros H. pose proof (encodeByte_checked c) as Hc.
  rewrite forallb_forall in Hc. specialize (Hc d H).
  apply orb_true_iff in Hc as [Hc|Hc]; [now left|right]. now apply Ascii.eqb_eq.
Qed.

Lemma list_ascii_of_string_app (s t : string) :
  list_ascii_of_string (s ++ t) = (list_ascii_of_string s ++ list_ascii_of_string t)%list.
Proof.
  induction s as [|c s IH]; [reflexivity|].
  change (list_ascii_of_string (String c (s ++ t))
          = c :: (list_ascii_of_string s ++ list_ascii_of_string t)%list).
  simpl. now rewrite IH.
Qed.

End EncodeFacts.

(** ** Global search *)

Section SearchFacts.

Import Breaker Net Gateway Search.

Variable toLowerCase : string -> string.
Context {Rest Item : Type}.

Implicit Types (registry : gmap string ServiceRecord) (s : GwState).
Implicit Types (net : @SearchNet Rest Item).

(** X13: the search answers without contacting any service when the query is
    absent or empty (400) and when the list or the item service has no URL
    in the registry (503). *)
Theorem X13_search_short_circuit registry net s :
  (forall q, q = None \/ q = Some "" ->
     response (searchHandler toLowerCase registry net q) s = queryRequired
     /\ callsMade (searchHandler toLowerCase registry net q) s = [])
  /\ (forall q,
        JsString.truthy q = true ->
        noUrl (getServiceUrl registry "list-service") = true
        \/ noUrl (getServiceUrl registry "item-service") = true ->
        response (searchHandler toLowerCase registry net (Some q)) s = searchUnavailable
        /\ callsMade (searchHandler toLowerCase registry net (Some q)) s = []).
Proof.
  split.
  - intros q [->| ->]; (split; [reflexivity|now apply callsMade_unchanged]).
  - intros q Hq Hno.
    unfold response, callsMade, finalState. unfold searchHandler.
    rewrite Hq. cbn [negb].
    assert (E : (noUrl (getServiceUrl registry "list-service")
                 || noUrl (getServiceUrl registry "item-service"))%bool = true).
    { destruct Hno as [-> | ->]; [reflexivity|apply orb_true_r]. }
    rewrite E. split; [reflexivity|]. apply drop_all.
Qed.

End SearchFacts.

(** ** Aggregation endpoints and the breaker *)

Section DashboardCalls.

Import Breaker Net Gateway.

Context {num : Type} (num_zero : num) (num_add : num -> num -> num)
        (num_truthy : num -> bool).
Context {Item : Type}.

Implicit Types (registry : gmap string ServiceRecord) (s : GwState).
Implicit Types (net : @DashboardNet num Item).

(** The state after the dashboard handler once the three URLs are found:
    the breaker as it was, and one logged request per call made. *)
Lemma dashboardHandler_calls registry net userId s userUrl listUrl itemUrl :
  getServiceUrl registry "user-service" = Some userUrl -> JsString.truthy userUrl = true ->
  getServiceUrl registry "list-service" = Some listUrl -> JsString.truthy listUrl = true ->
  getServiceUrl registry "item-service" = Some itemUrl -> JsString.truthy itemUrl = true ->
  finalState (dashboardHandler num_zero num_add num_truthy registry net userId) s =
    {| breaker := breaker s;
       calls :=
         calls s ++
         NetworkCall "GET" (userUrl ++ "/users/" ++ userId) ::
         match axios (netUser net (userUrl ++ "/users/" ++ userId)) with
         | Rejected _ => []
         | Fulfilled _ _ =>
             NetworkCall "GET" (listUrl ++ "/lists") ::
             match axios (netLists net (listUrl ++ "/lists")) with
             | Rejected _ => []
             | Fulfilled _ _ => [NetworkCall "GET" (itemUrl ++ "/items")]
             end
         end |}.
Proof.
  intros Hu Tu Hl Tl Hi Ti. unfold finalState, dashboardHandler.
  rewrite Hu, Hl, Hi. unfold noUrl. rewrite Tu, Tl, Ti.
  change (default "" (Some userUrl)) with userUrl.
  change (default "" (Some listUrl)) with listUrl.
  change (default "" (Some itemUrl)) with itemUrl.
  cbn [negb orb]. unfold bind, emit, ret. cbn [fst snd].
  destruct (axios (netUser net (userUrl ++ "/users/" ++ userId))) as [st1 userEnv|e1];
    [|reflexivity].
  destruct (axios (netLists net (listUrl ++ "/lists"))) as [st2 listsEnv|e2];
    [|simpl; now rewrite <- app_assoc].
  destruct (axios (netItems net (itemUrl ++ "/items"))) as [st3 itemsEnv|e3];
    [destruct (envData userEnv)|]; simpl; now rewrite <- !app_assoc.
Qed.

(** X15: the dashboard calls the services one after the other and stops at
    the first rejected call: the services after it are not contacted. When
    one of the three services has no URL in the registry it answers 503
    without contacting any. It never consults or updates the circuit
    breaker: the calls are made whatever the breaker holds, and the breaker
    is left as it was. *)
Theorem X15_dashboard_stops_at_first_failure registry net userId s :
  (noUrl (getServiceUrl registry "user-service") = true
   \/ noUrl (getServiceUrl registry "list-service") = true
   \/ noUrl (getServiceUrl registry "item-service") = true ->
   dashboardHandler num_zero num_add num_truthy registry net userId s
   = (servicesUnavailable, s))
  /\ (forall userUrl listUrl itemUrl,
        getServiceUrl registry "user-service" = Some userUrl ->
        JsString.truthy userUrl = true ->
        getServiceUrl registry "list-service" = Some listUrl ->
        JsString.truthy listUrl = true ->
        getServiceUrl registry "item-service" = Some itemUrl ->
        JsString.truthy itemUrl = true ->
        breaker (finalState (dashboardHandler num_zero num_add num_truthy registry net userId) s)
        = breaker s
        /\ ((exists e, axios (netUser net (userUrl ++ "/users/" ++ userId)) = Rejected e) ->
            callsMade (dashboardHandler num_zero num_add num_truthy registry net userId) s
            = [NetworkCall "GET" (userUrl ++ "/users/" ++ userId)])
        /\ (forall st1 userEnv,
              axios (netUser net (userUrl ++ "/users/" ++ userId)) = Fulfilled st1 userEnv ->
              ((exists e, axios (netLists net (listUrl ++ "/lists")) = Rejected e) ->
               callsMade (dashboardHandler num_zero num_add num_truthy registry net userId) s
               = [NetworkCall "GET" (userUrl ++ "/users/" ++ userId);
                  NetworkCall "GET" (listUrl ++ "/lists")])
              /\ (forall st2 listsEnv,
                    axios (netLists net (listUrl ++ "/lists")) = Fulfilled st2 listsEnv ->
                    callsMade (dashboardHandler num_zero num_add num_truthy registry net userId) s
                    = [NetworkCall "GET" (userUrl ++ "/users/" ++ userId);
                       NetworkCall "GET" (listUrl ++ "/lists");
                       NetworkCall "GET" (itemUrl ++ "/items")]))).
Proof.
  split.
  - intros Hno. unfold dashboardHandler.
    assert (E : (noUrl (getServiceUrl registry "user-service")
                 || noUrl (getServiceUrl registry "list-service")
                 || noUrl (getServiceUrl registry "item-service"))%bool = true).
    { destruct Hno as [-> |[-> | ->]];
        [reflexivity|now rewrite orb_true_r|now rewrite orb_true_r]. }
    now rewrite E.
  - intros userUrl listUrl itemUrl Hu Tu Hl Tl Hi Ti.
    pose proof (dashboardHandler_calls registry net userId s userUrl listUrl itemUrl
                  Hu Tu Hl Tl Hi Ti) as E.
    split; [now rewrite E|]. split.
    + intros [e He]. apply callsMade_appended. now rewrite E, He.
    + intros st1 userEnv H1. rewrite H1 in E. split.
      * intros [e He]. apply callsMade_appended. now rewrite E, He.
      * intros st2 listsEnv H2. apply callsMade_appended. now rewrite E, H2.
Qed.

End DashboardCalls.

Section HealthCalls.

Import Breaker Net Gateway.

Context {Json : Type}.

Implicit Types (registry : gmap string ServiceRecord) (s : GwState).
Implicit Types (net : string -> Outcome Json).

Lemma probe_state registry net name s :
  snd (probe registry net name s) =
    {| breaker := breaker s;
       calls := calls s ++
                if noUrl (getServiceUrl registry name) then []
                else [NetworkCall "GET" (default "" (getServiceUrl registry name) ++ "/health")] |}.
Proof.
  unfold probe. destruct (noUrl (getServiceUrl registry name)).
  - simpl. rewrite app_nil_r. now destruct s.
  - unfold bind, emit. simpl.
    destruct (axios (net (default "" (getServiceUrl registry name) ++ "/health")));
      reflexivity.
Qed.

Lemma healthLoop_state registry net names :
  forall (results : gmap string (HealthEntry Json)) s,
    snd (healthLoop registry net names results s) =
      {| breaker := breaker s;
         calls := calls s ++
                  flat_map (fun name =>
                              if noUrl (getServiceUrl registry name) then []
                              else [NetworkCall "GET"
                                      (default "" (getServiceUrl registry name) ++ "/health")])
                           names |}.
Proof.
  induction names as [|n rest IH]; intros results s.
  - simpl. rewrite app_nil_r. now destruct s.
  - cbn [healthLoop flat_map]. unfold bind.
    pose proof (probe_state registry net n s) as Hp.
    destruct (probe registry net n s) as [entry s1]. simpl in Hp. subst s1.
    rewrite IH. simpl. now rewrite <- app_assoc.
Qed.

(** X16: the probes [GET /health] sends do not depend on what the services
    answer, nor on the circuit breaker: one request to [url + "/health"] for
    each of the three listed names that has a URL in the registry, in the
    order user, item, list, also after earlier probes failed and also
    while the breaker of a service is open. The handler leaves the breaker
    as it was. *)
Theorem X16_health_probes registry net s :
  callsMade (healthHandler registry net) s
  = flat_map (fun name =>
                if noUrl (getServiceUrl registry name) then []
                else [NetworkCall "GET" (default "" (getServiceUrl registry name) ++ "/health")])
             ["user-service"; "item-service"; "list-service"]
  /\ breaker (finalState (healthHandler registry net) s) = breaker s.
Proof.
  assert (E : finalState (healthHandler registry net) s
              = snd (healthLoop registry net services ∅ s)).
  { unfold finalState, healthHandler, bind.
    now destruct (healthLoop registry net services ∅ s). }
  rewrite healthLoop_state in E. split.
  - apply callsMade_appended. now rewrite E.
  - now rewrite E.
Qed.

End HealthCalls.

(** ** List service *)

Section ListFacts.

Import ListService.

Local Open Scope list_scope.

Context {num : Type} (num_zero : num) (num_add num_mul : num -> num -> num)
        (num_truthy : num -> bool).

Implicit Types (db : @ListsDb num) (lst : @ShoppingList num).
Implicit Types (its : list (@ListItem num)).

(** [findIndex] finds the first element that satisfies the test. *)
Lemma findIndex_first {A : Type} (p : A -> bool) (l1 l2 : list A) (x : A) :
  (forall y, In y l1 -> p y = false) -> p x = true ->
  findIndex p (l1 ++ x :: l2) = Some (length l1).
Proof.
  intros Hl1 Hx. induction l1 as [|y l1 IH]; simpl; [now rewrite Hx|].
  rewrite (Hl1 y) by now left. rewrite IH; [reflexivity|].
  intros z Hz. apply Hl1. now right.
Qed.

Lemma findIndex_none {A : Type} (p : A -> bool) (l : list A) :
  (forall y, In y l -> p y = false) -> findIndex p l = None.
Proof.
  induction l as [|y l IH]; intros H; [reflexivity|]. simpl.
  rewrite (H y) by now left. rewrite IH; [reflexivity|].
  intros z Hz. apply H. now right.
Qed.

Lemma splice1_middle {A : Type} (l1 l2 : list A) (x : A) :
  splice1 (length l1) (l1 ++ x :: l2) = l1 ++ l2.
Proof.
  unfold splice1. rewrite take_app_length.
  replace (S (length l1)) with (length l1 + 1)%nat by lia.
  now rewrite drop_app_add.
Qed.

Lemma alter_middle {A : Type} (f : A -> A) (l1 l2 : list A) (x : A) :
  alter f (length l1) (l1 ++ x :: l2) = l1 ++ f x :: l2.
Proof.
  rewrite <- (Nat.add_0_r (length l1)). now rewrite alter_app_r.
Qed.

Lemma filter_length_le {A : Type} (p : A -> bool) (l : list A) :
  (length (List.filter p l) <= length l)%nat.
Proof. induction l as [|x l IH]; simpl; [lia|]. destruct (p x); simpl; lia. Qed.

(** X17: a list that does not exist or belongs to another user is out of
    reach. Adding, changing or removing one of its items and reading its
    summary all answer 404 ["Lista não encontrada"] after the one database
    read: nothing is written and the item service is not asked. *)
Theorem X17_foreign_list_out_of_reach db itemNet itemServiceUrl t1 t2 user listId target
    (areq : AddItemBody) (ureq : UpdateItemBody) found :
  findById db listId = DbOk found ->
  found = None \/ (exists lst, found = Some lst /\ userId lst <> user) ->
  (truthyString (addItemId areq) = true -> truthyNum num_truthy (addQuantity areq) = true ->
     addItem num_zero num_add num_mul num_truthy db itemNet itemServiceUrl t1 t2 user listId areq
     = (listNotFound, [DbFindById listId]))
  /\ updateItem num_zero num_add num_mul db t2 user listId target ureq
     = (listNotFound, [DbFindById listId])
  /\ removeItem num_zero num_add num_mul db t2 user listId target
     = (listNotFound, [DbFindById listId])
  /\ getSummary num_zero num_add num_mul db user listId
     = (listNotFound, [DbFindById listId]).
Proof.
  intros Hf Hown.
  assert (Ho : ownedList found user = None).
  { destruct Hown as [->|(lst & -> & Hne)]; [reflexivity|]. simpl.
    apply String.eqb_neq in Hne. now rewrite Hne. }
  unfold addItem, updateItem, removeItem, getSummary. rewrite Hf, Ho.
  repeat split. intros Hi Hq. now rewrite Hi, Hq.
Qed.

Lemma ownedList_Some found user lst :
  ownedList found user = Some lst -> found = Some lst /\ userId lst = user.
Proof.
  destruct found as [l|]; [|discriminate]. simpl.
  destruct (String.eqb_spec (userId l) user) as [E|_]; [|discriminate].
  now intros [= <-].
Qed.

(** What holds of a list [saved] handed to the database by a request of
    [user] on [listId]: its summary is the summary of its items, and it is
    the caller's list found under [listId], with the same identity. *)
Let consistent db (user listId : string) (saved : @ShoppingList num) : Prop :=
  summary saved = summaryOf num_zero num_add num_mul (items saved)
  /\ totalItems (summary saved) = length (items saved)
  /\ (purchasedItems (summary saved) <= totalItems (summary saved))%nat
  /\ exists lst, findById db listId = DbOk (Some lst)
                 /\ userId lst = user
                 /\ id saved = id lst /\ userId saved = user
                 /\ name saved = name lst /\ createdAt saved = createdAt lst.

Lemma saved_consistent db user listId found lst its now :
  findById db listId = DbOk found -> ownedList found user = Some lst ->
  consistent db user listId
    (withUpdatedAt (recalculateSummary num_zero num_add num_mul (withItems lst its)) now).
Proof.
  intros Hf Ho. apply ownedList_Some in Ho as [-> Hu]. unfold consistent. simpl.
  split; [reflexivity|]. split; [reflexivity|]. split; [apply filter_length_le|].
  exists lst. now repeat split.
Qed.

Ltac case_handler :=
  repeat match goal with
         | |- context [match ?x with _ => _ end] => destruct x eqn:?
         end.

(** X18: whatever the database, the network and the request, each of the
    item handlers hands at most one list to [listsDb.update], and that list
    is consistent: its summary was recomputed from the items it carries
    (so [totalItems] is their number and [purchasedItems] is at most it),
    and it is the caller's own list found under the requested id, with id,
    owner, name and creation time unchanged. Reading the summary writes
    nothing. *)
Theorem X18_saved_lists_consistent db itemNet itemServiceUrl t1 t2 user listId target
    (areq : AddItemBody) (ureq : UpdateItemBody) :
  (length (written (snd (addItem num_zero num_add num_mul num_truthy db itemNet
                                 itemServiceUrl t1 t2 user listId areq))) <= 1)%nat
  /\ (length (written (snd (updateItem num_zero num_add num_mul db t2 user listId target
                                       ureq))) <= 1)%nat
  /\ (length (written (snd (removeItem num_zero num_add num_mul db t2 user listId
                                       target))) <= 1)%nat
  /\ written (snd (getSummary num_zero num_add num_mul db user listId)) = []
  /\ (forall saved,
        In saved (written (snd (addItem num_zero num_add num_mul num_truthy db itemNet
                                        itemServiceUrl t1 t2 user listId areq)))
        \/ In saved (written (snd (updateItem num_zero num_add num_mul db t2 user listId
                                              target ureq)))
        \/ In saved (written (snd (removeItem num_zero num_add num_mul db t2 user listId
                                              target))) ->
        summary saved = summaryOf num_zero num_add num_mul (items saved)
        /\ totalItems (summary saved) = length (items saved)
        /\ (purchasedItems (summary saved) <= totalItems (summary saved))%nat
        /\ exists lst, findById db listId = DbOk (Some lst)
                       /\ userId lst = user
                       /\ id saved = id lst /\ userId saved = user
                       /\ name saved = name lst /\ createdAt saved = createdAt lst).
Proof.
  split; [|split; [|split; [|split]]].
  - unfold addItem. case_handler; simpl; lia.
  - unfold updateItem. case_handler; simpl; lia.
  - unfold removeItem. case_handler; simpl; lia.
  - unfold getSummary. case_handler; reflexivity.
  - intros saved. fold (consistent db user listId saved).
    intros [H|[H|H]]; revert H.
    + unfold addItem. case_handler; simpl; try tauto.
      all: intros [<-|[]]; eapply saved_consistent; eassumption.
    + unfold updateItem. case_handler; simpl; try tauto.
      all: intros [<-|[]]; eapply saved_consistent; eassumption.
    + unfold removeItem. case_handler; simpl; try tauto.
      all: intros [<-|[]]; eapply saved_consistent; eassumption.
Qed.

(** The estimated total of the items with one more at the end is the total
    of the items plus the price times the quantity of the new one. *)
Lemma summaryOf_snoc its (x : @ListItem num) :
  summaryOf num_zero num_add num_mul (its ++ [x]) =
    {| totalItems := S (length its);
       purchasedItems :=
         (purchasedItems (summaryOf num_zero num_add num_mul its)
          + if purchased x then 1 else 0)%nat;
       estimatedTotal :=
         num_add (estimatedTotal (summaryOf num_zero num_add num_mul its))
                 (num_mul (estimatedPrice x) (quantity x)) |}.
Proof.
  unfold summaryOf, Gateway.reduce. simpl. f_equal.
  - rewrite length_app. simpl. lia.
  - rewrite List.filter_app, length_app. simpl. now destruct (purchased x).
  - now rewrite fold_left_app.
Qed.

(** X19: a successful [POST /lists/:id/items] appends one item, not yet
    purchased, with the requested quantity and the name, unit and price the
    item service reports, after the items already there (no check is made
    that the item is not in the list yet). The summary saved counts one item
    more, as many purchased items as before, and an estimated total that is
    the total of the earlier items plus price times quantity. The response
    is 201 with what the database returned, or 500 if the database
    rejects. *)
Theorem X19_add_item_appends db itemNet itemServiceUrl t1 t2 user listId
    (areq : AddItemBody) theId qty lst st env data :
  addItemId areq = Some theId -> JsString.truthy theId = true ->
  addQuantity areq = Some qty -> num_truthy qty = true ->
  findById db listId = DbOk (Some lst) -> userId lst = user ->
  Net.axios (itemNet (itemServiceUrl ++ "/items/" ++ theId)%string) = Net.Fulfilled st env ->
  Gateway.envData env = Some data ->
  exists saved,
    snd (addItem num_zero num_add num_mul num_truthy db itemNet itemServiceUrl t1 t2
                 user listId areq)
    = [DbFindById listId; ItemLookup (itemServiceUrl ++ "/items/" ++ theId)%string;
       DbUpdate (id lst) saved]
    /\ items saved
       = items lst ++
         [{| itemId := dataId data; itemName := dataName data; quantity := qty;
             unit := dataUnit data; estimatedPrice := averagePrice data;
             purchased := false; notes := default "" (addNotes areq); addedAt := t1 |}]
    /\ totalItems (summary saved) = S (length (items lst))
    /\ purchasedItems (summary saved)
       = purchasedItems (summaryOf num_zero num_add num_mul (items lst))
    /\ estimatedTotal (summary saved)
       = num_add (estimatedTotal (summaryOf num_zero num_add num_mul (items lst)))
                 (num_mul (averagePrice data) qty)
    /\ updatedAt saved = t2
    /\ fst (addItem num_zero num_add num_mul num_truthy db itemNet itemServiceUrl t1 t2
                    user listId areq)
       = match update db (id lst) saved with
         | DbOk updatedList => {| resStatus := 201; resBody := ListData updatedList |}
         | DbThrows =>
             {| resStatus := 500;
                resBody := Message false "Erro ao adicionar item à lista" |}
         end.
Proof.
  intros Hi Ti Hq Tq Hf Hu Hnet Hdata. unfold addItem.
  rewrite Hi, Hq. simpl truthyString. simpl truthyNum. rewrite Ti, Tq. cbn [negb orb].
  rewrite Hf. simpl ownedList. rewrite <- Hu, String.eqb_refl.
  change (default "" (Some theId)) with theId. rewrite Hnet, Hdata.
  change (default num_zero (Some qty)) with qty.
  eexists. split; [|split; [|split; [|split; [|split; [|split]]]]].
  - destruct (update db (id lst) _); reflexivity.
  - reflexivity.
  - simpl. rewrite length_app. simpl. lia.
  - simpl. rewrite List.filter_app, length_app. simpl. lia.
  - simpl. unfold Gateway.reduce. now rewrite fold_left_app.
  - reflexivity.
  - destruct (update db (id lst) _); reflexivity.
Qed.

(** X20: [POST /lists/:id/items] saves nothing unless everything succeeds.
    Without an [itemId], or with a quantity that is absent or falsy (zero
    included), it answers 400 before reading the database; when the item
    service rejects the lookup or returns no item, it answers 500 and the
    list is not written. *)
Theorem X20_add_item_guards db itemNet itemServiceUrl t1 t2 user listId (areq : AddItemBody) :
  (truthyString (addItemId areq) = false \/ truthyNum num_truthy (addQuantity areq) = false ->
     addItem num_zero num_add num_mul num_truthy db itemNet itemServiceUrl t1 t2 user listId areq
     = ({| resStatus := 400; resBody := Message false "itemId e quantity obrigatórios" |}, []))
  /\ ((exists e, Net.axios (itemNet (itemServiceUrl ++ "/items/" ++ default "" (addItemId areq))%string)
                 = Net.Rejected e)
      \/ (exists st env,
             Net.axios (itemNet (itemServiceUrl ++ "/items/" ++ default "" (addItemId areq))%string)
             = Net.Fulfilled st env /\ Gateway.envData env = None) ->
      written (snd (addItem num_zero num_add num_mul num_truthy db itemNet itemServiceUrl
                            t1 t2 user listId areq)) = []
      /\ resStatus (fst (addItem num_zero num_add num_mul num_truthy db itemNet itemServiceUrl
                                 t1 t2 user listId areq)) <> 201).
Proof.
  split.
  - intros [H|H]; unfold addItem; rewrite H; [reflexivity|].
    now rewrite orb_true_r.
  - intros Hnet. unfold addItem.
    destruct (negb (truthyString (addItemId areq))
              || negb (truthyNum num_truthy (addQuantity areq)))%bool; [now split|].
    destruct (findById db listId) as [found|]; [|now split].
    destruct (ownedList found user) as [lst|]; [|now split].
    destruct Hnet as [[e ->]|(st & env & -> & ->)]; now split.
Qed.

(** X21: [DELETE /lists/:id/items/:itemId] on the caller's list removes the
    first item with that id and only it: the items before and after keep
    their order, and a second entry of the same item stays. When no item has
    that id it answers 404 and writes nothing. *)
Theorem X21_remove_first_match db t2 user listId target lst :
  findById db listId = DbOk (Some lst) -> userId lst = user ->
  ((forall y, In y (items lst) -> itemId y <> target) ->
     removeItem num_zero num_add num_mul db t2 user listId target
     = (itemNotInList, [DbFindById listId]))
  /\ (forall before x after,
        items lst = before ++ x :: after -> itemId x = target ->
        (forall y, In y before -> itemId y <> target) ->
        exists saved,
          snd (removeItem num_zero num_add num_mul db t2 user listId target)
          = [DbFindById listId; DbUpdate (id lst) saved]
          /\ items saved = before ++ after
          /\ summary saved = summaryOf num_zero num_add num_mul (before ++ after)).
Proof.
  intros Hf Hu. unfold removeItem. rewrite Hf. simpl ownedList.
  rewrite <- Hu, String.eqb_refl. split.
  - intros Hnone. rewrite findIndex_none; [reflexivity|].
    intros y Hy. apply String.eqb_neq. now apply Hnone.
  - intros before x after Hitems Hx Hbefore. rewrite Hitems.
    rewrite (findIndex_first _ before after x).
    + rewrite splice1_middle. eexists. split; [|split].
      * destruct (update db (id lst) _); reflexivity.
      * reflexivity.
      * reflexivity.
    + intros y Hy. apply String.eqb_neq. now apply Hbefore.
    + now apply String.eqb_eq.
Qed.

(** X22: [PUT /lists/:id/items/:itemId] on the caller's list changes the
    first item with that id and only it, and of that item only the fields
    the request carries ([quantity], [purchased], [notes]); the items keep
    their number, order and ids. A request that carries none of the three
    saves the items as they were. When no item has that id it answers 404
    and writes nothing. *)
Theorem X22_update_first_match db t2 user listId target (ureq : UpdateItemBody) lst :
  findById db listId = DbOk (Some lst) -> userId lst = user ->
  ((forall y, In y (items lst) -> itemId y <> target) ->
     updateItem num_zero num_add num_mul db t2 user listId target ureq
     = (itemNotInList, [DbFindById listId]))
  /\ (forall before x after,
        items lst = before ++ x :: after -> itemId x = target ->
        (forall y, In y before -> itemId y <> target) ->
        exists saved,
          snd (updateItem num_zero num_add num_mul db t2 user listId target ureq)
          = [DbFindById listId; DbUpdate (id lst) saved]
          /\ items saved
             = before ++
               {| itemId := itemId x; itemName := itemName x;
                  quantity := default (quantity x) (newQuantity ureq);
                  unit := unit x; estimatedPrice := estimatedPrice x;
                  purchased := default (purchased x) (newPurchased ureq);
                  notes := default (notes x) (newNotes ureq);
                  addedAt := addedAt x |} :: after
          /\ List.map itemId (items saved) = List.map itemId (items lst)
          /\ (newQuantity ureq = None -> newPurchased ureq = None -> newNotes ureq = None ->
              items saved = items lst)).
Proof.
  intros Hf Hu. unfold updateItem. rewrite Hf. simpl ownedList.
  rewrite <- Hu, String.eqb_refl. split.
  - intros Hnone. rewrite findIndex_none; [reflexivity|].
    intros y Hy. apply String.eqb_neq. now apply Hnone.
  - intros before x after Hitems Hx Hbefore. rewrite Hitems.
    rewrite (findIndex_first _ before after x).
    + rewrite alter_middle. eexists. split; [|split; [|split]].
      * destruct (update db (id lst) _); reflexivity.
      * reflexivity.
      * simpl. rewrite !List.map_app. reflexivity.
      * intros Hq Hp Hn. simpl. unfold applyUpdate. rewrite Hq, Hp, Hn. simpl.
        now destruct x.
    + intros y Hy. apply String.eqb_neq. now apply Hbefore.
    + now apply String.eqb_eq.
Qed.

End ListFacts.

Section ListWitnesses.

Import ListService.

(** User [u2] asks for the list of [u1]. *)
Lemma X17_foreign_list_out_of_reach_witness :
  (truthyString (addItemId {| addItemId := Some "i3"; addQuantity := Some 2;
                              addNotes := None |}) = true ->
   truthyNum Sample.nonZero (addQuantity {| addItemId := Some "i3"; addQuantity := Some 2;
                                            addNotes := None |}) = true ->
   addItem 0 Z.add Z.mul Sample.nonZero ListSample.db ListSample.itemNet
           "http://localhost:3002" "t4" "t5" "u2" "l1"
           {| addItemId := Some "i3"; addQuantity := Some 2; addNotes := None |}
   = (listNotFound, [DbFindById "l1"]))
  /\ updateItem 0 Z.add Z.mul ListSample.db "t5" "u2" "l1" "i1"
                {| newQuantity := None; newPurchased := Some true; newNotes := None |}
     = (listNotFound, [DbFindById "l1"])
  /\ removeItem 0 Z.add Z.mul ListSample.db "t5" "u2" "l1" "i1"
     = (listNotFound, [DbFindById "l1"])
  /\ getSummary 0 Z.add Z.mul ListSample.db "u2" "l1" = (listNotFound, [DbFindById "l1"]).
Proof.
  apply (X17_foreign_list_out_of_reach 0 Z.add Z.mul Sample.nonZero ListSample.db
           ListSample.itemNet "http://localhost:3002" "t4" "t5" "u2" "l1" "i1"
           {| addItemId := Some "i3"; addQuantity := Some 2; addNotes := None |}
           {| newQuantity := None; newPurchased := Some true; newNotes := None |}
           (Some ListSample.shopping)).
  - reflexivity.
  - right. exists ListSample.shopping. split; [reflexivity|discriminate].
Defined.

(** Two units of coffee at 1500 added to the sample list: 2799 + 3000. *)
Lemma X19_add_item_appends_witness :
  exists saved,
    snd (addItem 0 Z.add Z.mul Sample.nonZero ListSample.db ListSample.itemNet
                 "http://localhost:3002" "t4" "t5" "u1" "l1"
                 {| addItemId := Some "i3"; addQuantity := Some 2; addNotes := None |})
    = [DbFindById "l1"; ItemLookup "http://localhost:3002/items/i3"; DbUpdate "l1" saved]
    /\ totalItems (summary saved) = 4%nat
    /\ purchasedItems (summary saved) = 1%nat
    /\ estimatedTotal (summary saved) = 5799.
Proof.
  destruct (X19_add_item_appends 0 Z.add Z.mul Sample.nonZero ListSample.db
              ListSample.itemNet "http://localhost:3002" "t4" "t5" "u1" "l1"
              {| addItemId := Some "i3"; addQuantity := Some 2; addNotes := None |}
              "i3" 2 ListSample.shopping 200 _ _
              eq_refl eq_refl eq_refl eq_refl eq_refl eq_refl eq_refl eq_refl)
    as (saved & Heff & _ & Htot & Hpur & Hest & _).
  exists saved. split; [exact Heff|]. split; [exact Htot|]. split; [exact Hpur|exact Hest].
Defined.

(** Rice is in the sample list twice: the first entry goes, the second
    stays. *)
Lemma X21_remove_first_match_witness :
  exists saved,
    snd (removeItem 0 Z.add Z.mul ListSample.db "t5" "u1" "l1" "i1")
    = [DbFindById "l1"; DbUpdate "l1" saved]
    /\ items saved = [ListSample.beans; ListSample.rice "t3" false]
    /\ summary saved
       = summaryOf 0 Z.add Z.mul [ListSample.beans; ListSample.rice "t3" false].
Proof.
  destruct (X21_remove_first_match 0 Z.add Z.mul ListSample.db "t5" "u1" "l1" "i1"
              ListSample.shopping eq_refl eq_refl) as [_ H].
  apply (H [] (ListSample.rice "t1" true) [ListSample.beans; ListSample.rice "t3" false]).
  - reflexivity.
  - reflexivity.
  - intros y [].
Defined.

(** Marking beans as purchased in the sample list. *)
Lemma X22_update_first_match_witness :
  exists saved,
    snd (updateItem 0 Z.add Z.mul ListSample.db "t5" "u1" "l1" "i2"
                    {| newQuantity := None; newPurchased := Some true; newNotes := None |})
    = [DbFindById "l1"; DbUpdate "l1" saved]
    /\ List.map itemId (items saved) = List.map itemId (items ListSample.shopping).
Proof.
  destruct (X22_update_first_match 0 Z.add Z.mul ListSample.db "t5" "u1" "l1" "i2"
              {| newQuantity := None; newPurchased := Some true; newNotes := None |}
              ListSample.shopping eq_refl eq_refl) as [_ H].
  destruct (H [ListSample.rice "t1" true] ListSample.beans [ListSample.rice "t3" false])
    as (saved & Heff & _ & Hids & _).
  - reflexivity.
  - reflexivity.
  - intros y [<-|[]]. discriminate.
  - exists saved. split; [exact Heff|exact Hids].
Defined.

End ListWitnesses.

(** ** The dashboard over lists saved by the list service *)

Section WireFacts.

Context {num : Type} (num_zero : num) (num_add num_mul : num -> num -> num)
        (num_truthy : num -> bool).
Context {Item : Type}.



End WireFacts.

Section WireWitness.


End WireWitness.

(** ** The global search on JavaScript values *)

Section SearchJsFacts.

Import Breaker Net Gateway SearchJs.

Variable toLowerCase : string -> string.
Context {Rest Item : Type}.

Implicit Types (registry : gmap string ServiceRecord) (s : GwState).
Implicit Types (net : @SearchNet Rest Item) (q : Query).
Implicit Types (l : @ListDoc Rest) (lists found : list (@ListDoc Rest)).

Lemma encodeURIComponent_chars (t : string) (d : ascii) :
  In d (list_ascii_of_string (Search.encodeURIComponent t)) ->
  Search.unreserved d = true \/ d = "%"%char.
Proof.
  induction t as [|c t IH]; [intros []|].
  cbn [Search.encodeURIComponent]. rewrite list_ascii_of_string_app, in_app_iff.
  intros [Hd|Hd]; [now apply (encodeByte_chars c)|now apply IH].
Qed.

Lemma percentDecode_plain (c : ascii) (t : string) :
  Ascii.eqb c "%" = false -> percentDecode (String c t) = String c (percentDecode t).
Proof. intros H. cbn [percentDecode]. now rewrite H. Qed.

Lemma percentDecode_escape (h1 h2 : ascii) (a b : nat) (t : string) :
  hexValue h1 = Some a -> hexValue h2 = Some b ->
  percentDecode (String "%" (String h1 (String h2 t)))
  = String (ascii_of_nat (16 * a + b)) (percentDecode t).
Proof.
  intros H1 H2. cbn [percentDecode]. rewrite H1, H2.
  now change (Ascii.eqb "%" "%") with true.
Qed.

(** Each byte, checked by evaluation: kept bytes are not ['%'], and the two
    digits written for any other byte read back as that byte. *)
Lemma encodeByte_checked_back (c : ascii) :
  (if Search.unreserved c then negb (Ascii.eqb c "%")
   else match hexValue (Search.hexDigit (nat_of_ascii c / 16)),
              hexValue (Search.hexDigit (nat_of_ascii c mod 16)) with
        | Some a, Some b => Ascii.eqb (ascii_of_nat (16 * a + b)) c
        | _, _ => false
        end) = true.
Proof. destruct c as [[] [] [] [] [] [] [] []]; vm_compute; reflexivity. Qed.

Lemma encodeByte_decodes (c : ascii) (t : string) :
  percentDecode (Search.encodeByte c ++ t) = String c (percentDecode t).
Proof.
  pose proof (encodeByte_checked_back c) as H. unfold Search.encodeByte.
  destruct (Search.unreserved c).
  - apply negb_true_iff in H. now apply percentDecode_plain.
  - cbv zeta.
    destruct (hexValue (Search.hexDigit (nat_of_ascii c / 16))) as [a|] eqn:Ha;
      [|discriminate].
    destruct (hexValue (Search.hexDigit (nat_of_ascii c mod 16))) as [b|] eqn:Hb;
      [|discriminate].
    apply Ascii.eqb_eq in H.
    change (percentDecode
              (String "%" (String (Search.hexDigit (nat_of_ascii c / 16))
                                  (String (Search.hexDigit (nat_of_ascii c mod 16)) t)))
            = String c (percentDecode t)).
    rewrite (percentDecode_escape _ _ a b t Ha Hb). now rewrite H.
Qed.

(** Decoding what [encodeURIComponent] wrote gives the string back. *)
Lemma percentDecode_encode (t : string) :
  percentDecode (Search.encodeURIComponent t) = t.
Proof.
  induction t as [|c t IH]; [reflexivity|].
  cbn [Search.encodeURIComponent]. now rewrite encodeByte_decodes, IH.
Qed.

(** The search once the query is truthy and both URLs are found. *)
Lemma searchJs_resolved registry net q s listUrl itemUrl :
  queryTruthy q = true ->
  getServiceUrl registry "list-service" = Some listUrl -> JsString.truthy listUrl = true ->
  getServiceUrl registry "item-service" = Some itemUrl -> JsString.truthy itemUrl = true ->
  searchHandler toLowerCase registry net q s =
    let callLists := NetworkCall "GET" (listUrl ++ "/lists") in
    let callItems :=
      NetworkCall "GET"
        (itemUrl ++ "/search?q=" ++ Search.encodeURIComponent (queryText q)) in
    match axios (searchLists net (listUrl ++ "/lists")) with
    | Rejected _ =>
        (searchFailure, {| breaker := breaker s; calls := calls s ++ [callLists] |})
    | Fulfilled _ listsEnv =>
        match filterLists toLowerCase q (default [] (envData listsEnv)) with
        | None =>
            (searchFailure, {| breaker := breaker s; calls := calls s ++ [callLists] |})
        | Some filteredLists =>
            match axios (searchItems net
                           (itemUrl ++ "/search?q=" ++
                            Search.encodeURIComponent (queryText q))) with
            | Rejected _ =>
                (searchFailure,
                 {| breaker := breaker s;
                    calls := (calls s ++ [callLists]) ++ [callItems] |})
            | Fulfilled _ itemsEnv =>
                ({| searchStatus := 200;
                    searchBody := SearchData filteredLists (default [] (envData itemsEnv)) |},
                 {| breaker := breaker s;
                    calls := (calls s ++ [callLists]) ++ [callItems] |})
            end
        end
    end.
Proof.
  intros Hq Hl Tl Hi Ti. unfold searchHandler.
  rewrite Hq, Hl, Hi. unfold noUrl. rewrite Tl, Ti.
  change (default "" (Some listUrl)) with listUrl.
  change (default "" (Some itemUrl)) with itemUrl.
  cbn [negb orb]. unfold bind, emit, ret. cbv zeta.
  destruct (axios (searchLists net (listUrl ++ "/lists"))) as [st1 listsEnv|e1];
    [|reflexivity].
  destruct (filterLists toLowerCase q (default [] (envData listsEnv))) as [found|];
    [|reflexivity].
  destruct (axios (searchItems net
                     (itemUrl ++ "/search?q=" ++ Search.encodeURIComponent (queryText q))))
    as [st2 itemsEnv|e2]; reflexivity.
Qed.

(** The filter throws exactly when the callback throws on some list. *)
Lemma filterLists_None q lists :
  filterLists toLowerCase q lists = None
  <-> exists l, In l lists /\ listMatches toLowerCase q l = None.
Proof.
  induction lists as [|x lists IH]; simpl.
  - split; [discriminate|now intros (l & [] & _)].
  - destruct (listMatches toLowerCase q x) as [keep|] eqn:Ex.
    + destruct (filterLists toLowerCase q lists) as [found|].
      * split; [discriminate|]. intros (l & [<-|Hin] & Hl); [congruence|].
        assert (H : Some found = None) by (apply IH; exists l; now split).
        discriminate.
      * split; [intros _|reflexivity].
        destruct (proj1 IH eq_refl) as (l & Hin & Hl). exists l. split; [now right|exact Hl].
    + split; [intros _|reflexivity]. exists x. split; [now left|exact Ex].
Qed.

(** What the filter keeps when no callback throws: in their order, the
    lists on which the callback is true. *)
Lemma filterLists_Some q lists found :
  filterLists toLowerCase q lists = Some found ->
  sublist found lists
  /\ forall l, In l found <-> In l lists /\ listMatches toLowerCase q l = Some true.
Proof.
  revert found. induction lists as [|x lists IH]; simpl; intros found.
  - intros [= <-]. split; [constructor|]. intros l. split; [intros []|now intros [[] _]].
  - destruct (listMatches toLowerCase q x) as [keep|] eqn:Ex; [|discriminate].
    destruct (filterLists toLowerCase q lists) as [found'|]; [|discriminate].
    destruct (IH found' eq_refl) as [Hsub Hin]. intros [= <-]. destruct keep.
    + split; [now constructor|]. intros l. simpl. rewrite Hin. split.
      * intros [<-|[H1 H2]]; [now split; [left|]|now split; [right|]].
      * intros [[<-|H1] H2]; [now left|right; now split].
    + split; [now constructor|]. intros l. rewrite Hin. split.
      * intros [H1 H2]. now split; [right|].
      * intros [[<-|H1] H2]; [congruence|now split].
Qed.

(** When the comparison of one field throws, and when it is true. *)
Lemma fieldMatches_cases (field : Field) q :
  (fieldMatches toLowerCase field q = None
     <-> field = FTruthy
         \/ exists f, field = FString f /\ JsString.truthy f = true
                      /\ forall qs, q <> QString qs)
  /\ (fieldMatches toLowerCase field q = Some true
        <-> exists f qs, field = FString f /\ JsString.truthy f = true /\ q = QString qs
                         /\ Search.includes (toLowerCase f) (toLowerCase qs) = true).
Proof.
  destruct field as [f| |]; simpl.
  - destruct (JsString.truthy f) eqn:Et.
    + destruct q as [|qs|text].
      * split; split.
        -- intros _. right. exists f. now repeat split.
        -- reflexivity.
        -- discriminate.
        -- intros (f' & qs & _ & _ & [=] & _).
      * split; split.
        -- discriminate.
        -- intros [[=]|(f' & _ & _ & H)]. now destruct (H qs).
        -- intros [= H]. exists f, qs. now repeat split.
        -- intros (f' & qs' & [= <-] & _ & [= <-] & H). now rewrite H.
      * split; split.
        -- intros _. right. exists f. now repeat split.
        -- reflexivity.
        -- discriminate.
        -- intros (f' & qs & _ & _ & [=] & _).
    + split; split.
      * discriminate.
      * intros [[=]|(f' & [= <-] & H & _)]. congruence.
      * discriminate.
      * intros (f' & qs & [= <-] & H & _). congruence.
  - split; split; try discriminate.
    + intros [[=]|(f' & [=] & _)].
    + intros (f' & qs & [=] & _).
  - split; split; try discriminate.
    + intros _. now left.
    + reflexivity.
    + intros (f' & qs & [=] & _).
Qed.

(** X12: the search term reaches the item service intact and cannot break
    out of the query. When the search gets as far as the item service, the
    URL it requests is the service's URL, ["/search?q="], and the term
    percent-encoded: that text consists of unreserved characters and ['%']
    only (so it carries no ['&'], ['='], ['#'], ['?'], ['/'] or space),
    it equals the term when the term is made of unreserved characters, and
    percent-decoding it gives the term back, so two different terms are never
    sent as the same query. *)
Theorem X12_search_term_sent registry net q s listUrl itemUrl st1 listsEnv found :
  queryTruthy q = true ->
  getServiceUrl registry "list-service" = Some listUrl -> JsString.truthy listUrl = true ->
  getServiceUrl registry "item-service" = Some itemUrl -> JsString.truthy itemUrl = true ->
  axios (searchLists net (listUrl ++ "/lists")) = Fulfilled st1 listsEnv ->
  filterLists toLowerCase q (default [] (envData listsEnv)) = Some found ->
  callsMade (searchHandler toLowerCase registry net q) s
  = [NetworkCall "GET" (listUrl ++ "/lists");
     NetworkCall "GET" (itemUrl ++ "/search?q=" ++ Search.encodeURIComponent (queryText q))]
  /\ percentDecode (Search.encodeURIComponent (queryText q)) = queryText q
  /\ (forall q', Search.encodeURIComponent (queryText q')
                 = Search.encodeURIComponent (queryText q) ->
                 queryText q' = queryText q)
  /\ (forall d, In d (list_ascii_of_string (Search.encodeURIComponent (queryText q))) ->
                Search.unreserved d = true \/ d = "%"%char)
  /\ (forall d, In d ["&"; "="; "#"; "?"; "/"; " "]%char ->
                ~ In d (list_ascii_of_string (Search.encodeURIComponent (queryText q))))
  /\ (Forall (fun c => Search.unreserved c = true) (list_ascii_of_string (queryText q)) ->
      Search.encodeURIComponent (queryText q) = queryText q).
Proof.
  intros Hq Hl Tl Hi Ti H1 Hf.
  pose proof (searchJs_resolved registry net q s listUrl itemUrl Hq Hl Tl Hi Ti) as E.
  cbv zeta in E. rewrite H1, Hf in E.
  split; [|split; [|split; [|split; [|split]]]].
  - apply callsMade_appended. unfold finalState. rewrite E.
    destruct (axios (searchItems net _)); simpl; now rewrite <- app_assoc.
  - apply percentDecode_encode.
  - intros q' Heq. rewrite <- (percentDecode_encode (queryText q')), Heq.
    apply percentDecode_encode.
  - intros d. apply encodeURIComponent_chars.
  - intros d Hd Hin. apply encodeURIComponent_chars in Hin.
    repeat (destruct Hd as [<-|Hd]; [destruct Hin; discriminate|]). destruct Hd.
  - generalize (queryText q). intros t. induction t as [|c t IH]; [reflexivity|].
    cbn [list_ascii_of_string]. intros Hall. apply Forall_cons in Hall as [Hc Ht].
    cbn [Search.encodeURIComponent]. unfold Search.encodeByte. rewrite Hc.
    change (String c (Search.encodeURIComponent t) = String c t). now rewrite IH.
Qed.

(** X14: with a truthy query and both services found, the search is all or
    nothing. It answers 500 when the lists request is rejected, when the
    filter throws, and when the item search is rejected (the lists already
    filtered are then dropped); in the first two cases the item service is
    not contacted. The filter throws when a list has a truthy name or
    description that is not a string, or, for a query that is not a string
    (as [?q=a&q=b] gives), a non-empty string name or description that gets
    compared. Otherwise the answer is 200 with, of the lists received and in
    their order, exactly those whose non-empty name or description contains
    the query (both in lower case), together with the items the item service
    returned, unchanged. *)
Theorem X14_search_all_or_nothing registry net q s listUrl itemUrl :
  queryTruthy q = true ->
  getServiceUrl registry "list-service" = Some listUrl -> JsString.truthy listUrl = true ->
  getServiceUrl registry "item-service" = Some itemUrl -> JsString.truthy itemUrl = true ->
  ((exists e, axios (searchLists net (listUrl ++ "/lists")) = Rejected e) ->
     response (searchHandler toLowerCase registry net q) s = searchFailure
     /\ callsMade (searchHandler toLowerCase registry net q) s
        = [NetworkCall "GET" (listUrl ++ "/lists")])
  /\ (forall st1 listsEnv,
        axios (searchLists net (listUrl ++ "/lists")) = Fulfilled st1 listsEnv ->
        ((exists l, In l (default [] (envData listsEnv))
                    /\ listMatches toLowerCase q l = None) ->
         response (searchHandler toLowerCase registry net q) s = searchFailure
         /\ callsMade (searchHandler toLowerCase registry net q) s
            = [NetworkCall "GET" (listUrl ++ "/lists")])
        /\ ((forall l, In l (default [] (envData listsEnv)) ->
                       listMatches toLowerCase q l <> None) ->
            callsMade (searchHandler toLowerCase registry net q) s
            = [NetworkCall "GET" (listUrl ++ "/lists");
               NetworkCall "GET"
                 (itemUrl ++ "/search?q=" ++ Search.encodeURIComponent (queryText q))]
            /\ ((exists e,
                    axios (searchItems net
                             (itemUrl ++ "/search?q=" ++
                              Search.encodeURIComponent (queryText q))) = Rejected e) ->
                response (searchHandler toLowerCase registry net q) s = searchFailure)
            /\ (forall st2 itemsEnv,
                  axios (searchItems net
                           (itemUrl ++ "/search?q=" ++
                            Search.encodeURIComponent (queryText q)))
                  = Fulfilled st2 itemsEnv ->
                  exists found,
                    response (searchHandler toLowerCase registry net q) s
                    = {| searchStatus := 200;
                         searchBody := SearchData found (default [] (envData itemsEnv)) |}
                    /\ sublist found (default [] (envData listsEnv))
                    /\ forall l,
                         In l found
                         <-> In l (default [] (envData listsEnv))
                             /\ listMatches toLowerCase q l = Some true)))
  /\ (forall l,
        (listMatches toLowerCase q l = None
           <-> fieldMatches toLowerCase (docName l) q = None
               \/ (fieldMatches toLowerCase (docName l) q = Some false
                   /\ fieldMatches toLowerCase (docDescription l) q = None))
        /\ (listMatches toLowerCase q l = Some true
              <-> fieldMatches toLowerCase (docName l) q = Some true
                  \/ (fieldMatches toLowerCase (docName l) q = Some false
                      /\ fieldMatches toLowerCase (docDescription l) q = Some true)))
  /\ (forall field,
        (fieldMatches toLowerCase field q = None
           <-> field = FTruthy
               \/ exists f, field = FString f /\ JsString.truthy f = true
                            /\ forall qs, q <> QString qs)
        /\ (fieldMatches toLowerCase field q = Some true
              <-> exists f qs, field = FString f /\ JsString.truthy f = true
                               /\ q = QString qs
                               /\ Search.includes (toLowerCase f) (toLowerCase qs) = true)).
Proof.
  intros Hq Hl Tl Hi Ti.
  pose proof (searchJs_resolved registry net q s listUrl itemUrl Hq Hl Tl Hi Ti) as E.
  cbv zeta in E. split; [|split; [|split]].
  - intros [e He]. rewrite He in E. split.
    + unfold response. now rewrite E.
    + apply callsMade_appended. unfold finalState. now rewrite E.
  - intros st1 listsEnv H1. rewrite H1 in E. split.
    + intros Hthrow. apply filterLists_None in Hthrow. rewrite Hthrow in E. split.
      * unfold response. now rewrite E.
      * apply callsMade_appended. unfold finalState. now rewrite E.
    + intros Hok.
      destruct (filterLists toLowerCase q (default [] (envData listsEnv)))
        as [found|] eqn:Ef.
      2:{ destruct (proj1 (filterLists_None q _) Ef) as (l & Hin & Hl'). now destruct (Hok l). }
      split; [|split].
      * apply callsMade_appended. unfold finalState. rewrite E.
        destruct (axios (searchItems net _)); simpl; now rewrite <- app_assoc.
      * intros [e He]. rewrite He in E. unfold response. now rewrite E.
      * intros st2 itemsEnv H2. rewrite H2 in E. exists found. split.
        -- unfold response. now rewrite E.
        -- now apply filterLists_Some.
  - intros l. unfold listMatches.
    destruct (fieldMatches toLowerCase (docName l) q) as [[]|]; split; split;
      try (intros [H|[H H']]); try discriminate; try tauto; try congruence.
    all: try (intros H; right; now split).
    all: try (intros _; now left).
  - intros field. apply fieldMatches_cases.
Qed.

End SearchJsFacts.


Section SearchJsWitness.

Import Breaker Net Gateway SearchJs.

(** A term with a space, ['&'] and ['=']: it is sent as one query value. *)
Lemma X12_search_term_sent_witness :
  callsMade (searchHandler SearchSample.lowerAscii Sample.registry SearchJsSample.searchNet
               (QString "arroz doce&x=1")) Sample.startState
  = [NetworkCall "GET" "http://localhost:3003/lists";
     NetworkCall "GET" "http://localhost:3002/search?q=arroz%20doce%26x%3D1"]
  /\ percentDecode "arroz%20doce%26x%3D1" = "arroz doce&x=1".
Proof.
  destruct (X12_search_term_sent SearchSample.lowerAscii Sample.registry
              SearchJsSample.searchNet (QString "arroz doce&x=1") Sample.startState
              "http://localhost:3003" "http://localhost:3002" 200 _ _
              eq_refl eq_refl eq_refl eq_refl eq_refl eq_refl eq_refl)
    as (Hcalls & Hback & _).
  split; [exact Hcalls|exact Hback].
Defined.

(** The sample search for ["arroz"] finds two of the three lists, one by its
    name and one by its description; the same search with [?q=a&q=b] throws
    at the first list and answers 500 after the lists request alone. *)
Lemma X14_search_all_or_nothing_witness :
  (callsMade (searchHandler SearchSample.lowerAscii Sample.registry SearchJsSample.searchNet
                (QString "arroz")) Sample.startState
   = [NetworkCall "GET" ("http://localhost:3003" ++ "/lists");
      NetworkCall "GET" ("http://localhost:3002" ++ "/search?q=" ++
                         Search.encodeURIComponent "arroz")]
   /\ response (searchHandler SearchSample.lowerAscii Sample.registry
                  SearchJsSample.searchNet (QString "arroz")) Sample.startState
      = {| searchStatus := 200;
           searchBody :=
             SearchData
               [ {| docName := FString "Feira de Arroz"; docDescription := FFalsy;
                    docRest := tt |};
                 {| docName := FString "Limpeza"; docDescription := FString "sem arroz";
                    docRest := tt |} ]
               ["Arroz 5kg"] |})
  /\ (response (searchHandler SearchSample.lowerAscii Sample.registry
                  SearchJsSample.searchNet (QOther "a,b")) Sample.startState
      = searchFailure
      /\ callsMade (searchHandler SearchSample.lowerAscii Sample.registry
                      SearchJsSample.searchNet (QOther "a,b")) Sample.startState
         = [NetworkCall "GET" ("http://localhost:3003" ++ "/lists")]).
Proof.
  split.
  - destruct (X14_search_all_or_nothing SearchSample.lowerAscii Sample.registry
                SearchJsSample.searchNet (QString "arroz") Sample.startState
                "http://localhost:3003" "http://localhost:3002"
                eq_refl eq_refl eq_refl eq_refl eq_refl) as (_ & H & _).
    destruct (H 200 _ eq_refl) as [_ Hok].
    destruct Hok as (Hcalls & _ & _).
    + intros l Hin.
      repeat (destruct Hin as [<-|Hin]; [discriminate|]). destruct Hin.
    + split; [exact Hcalls|reflexivity].
  - destruct (X14_search_all_or_nothing SearchSample.lowerAscii Sample.registry
                SearchJsSample.searchNet (QOther "a,b") Sample.startState
                "http://localhost:3003" "http://localhost:3002"
                eq_refl eq_refl eq_refl eq_refl eq_refl) as (_ & H & _).
    destruct (H 200 _ eq_refl) as [Hthrow _]. apply Hthrow.
    eexists. split; [left; reflexivity|reflexivity].
Defined.

End SearchJsWitness.
